(** * Self-Evolution System: a shallow embedding of the closed-loop controller

    The repository is TypeScript.  Its numbers are IEEE-754 binary64 values,
    so they are embedded as Rocq's primitive [float] (same format, same
    round-to-nearest-even arithmetic, one NaN).  JavaScript [Map]s and plain
    objects iterate in insertion order, so both are association lists.
    Values produced by the environment ([Date.now()], [Math.random()],
    metric snapshots, the outcome of file writes) are explicit arguments. *)

From Stdlib Require Import List String Ascii ZArith Bool Lia PeanoNat Permutation.
From Stdlib Require Import Floats.
From Stdlib Require DecimalString.
From Stdlib Require Uint63.
Import ListNotations.

Set Warnings "-inexact-float,-register-all".
Set Implicit Arguments.

(* ================================================================== *)
(** ** JavaScript runtime pieces used by the sources *)
(* ================================================================== *)

Module JS.

Local Open Scope float_scope.

  (** [x > y] and [x >= y] on numbers; false as soon as one side is NaN. *)
Definition gt (x y : float) : bool := y <? x.
Definition ge (x y : float) : bool := y <=? x.

  (** [Math.min] / [Math.max] of two numbers: NaN is contagious and
      [-0] is below [+0]. *)
Definition Math_min (x y : float) : float :=
    if is_nan x || is_nan y then nan
    else if x <? y then x
    else if y <? x then y
    else if get_sign x then x else y.

Definition Math_max (x y : float) : float :=
    if is_nan x || is_nan y then nan
    else if y <? x then x
    else if x <? y then y
    else if get_sign x then y else x.

  (** An array length or a [Set] size read as a number. *)
Definition num_of_nat (n : nat) : float :=
    PrimFloat.of_uint63 (Uint63.of_Z (Z.of_nat n)).

  (** [n % m === 0] on array lengths. *)
Definition divisible (n m : nat) : bool := Nat.eqb (Nat.modulo n m) 0.

Local Close Scope float_scope.
Local Open Scope string_scope.

  (** *** Strings

      A string is the sequence of the bytes of its UTF-8 encoding.
      [String.prototype.toLowerCase] and [String.prototype.split] with
      the pattern [/\s+/] are built-ins of the runtime that follow the
      Unicode tables (case mapping of every letter, every white-space
      character), and the order in which [Array.prototype.sort] puts
      strings is the one of their UTF-16 code units.  The model does not
      re-implement them: the methods that call them take them as a
      [Runtime]; what ECMAScript fixes for the first two on ASCII text is
      stated beside, as [conforms]. *)

Record Runtime : Type := mkRuntime {
    toLowerCase : string -> string;       (* [s.toLowerCase()] *)
    split_ws : string -> list string;     (* [s.split(/\s+/)] *)
    precedes : string -> string -> bool   (* [x < y], the order of [xs.sort()] *)
  }.

  (** Text whose characters are all below U+0080. *)
Fixpoint is_ascii (s : string) : bool :=
    match s with
    | EmptyString => true
    | String c r => Nat.ltb (nat_of_ascii c) 128 && is_ascii r
    end.

  (** Lower-casing on ASCII text: A-Z go to a-z, nothing else moves. *)
Definition lower_ascii (c : ascii) : ascii :=
    let n := nat_of_ascii c in
    if andb (Nat.leb 65 n) (Nat.leb n 90) then ascii_of_nat (n + 32) else c.

Fixpoint ascii_toLowerCase (s : string) : string :=
    match s with
    | EmptyString => EmptyString
    | String c r => String (lower_ascii c) (ascii_toLowerCase r)
    end.

  (** The white space of ASCII text: space, and tab to carriage return. *)
Definition ascii_space (c : ascii) : bool :=
    let n := nat_of_ascii c in
    orb (Nat.eqb n 32) (andb (Nat.leb 9 n) (Nat.leb n 13)).

  (** [s.split(/\s+/)] on ASCII text: every maximal run of white space
      separates two pieces; a leading or trailing run leaves an empty
      piece, and the empty string splits into one empty piece.  [cur] is
      the piece being read, [sep] tells that the previous character was
      white space. *)
Fixpoint ascii_split_ws_from (s : string) (cur : string) (sep : bool) : list string :=
    match s with
    | EmptyString => [cur]
    | String c r =>
        if ascii_space c
        then if sep then ascii_split_ws_from r cur true
             else cur :: ascii_split_ws_from r EmptyString true
        else ascii_split_ws_from r (cur ++ String c EmptyString) false
    end.

Definition ascii_split_ws (s : string) : list string :=
    ascii_split_ws_from s EmptyString false.

  (** A runtime that does on ASCII text what ECMAScript prescribes;
      nothing is said of other text. *)
Definition conforms (rt : Runtime) : Prop :=
    forall s, is_ascii s = true ->
              toLowerCase rt s = ascii_toLowerCase s
              /\ split_ws rt s = ascii_split_ws s.

  (** The built-ins as they are on ASCII text, for ASCII samples. *)
Definition ascii_runtime : Runtime :=
    mkRuntime ascii_toLowerCase ascii_split_ws String.ltb.

  (** [s.split(c)[0]] for a one-character separator [c]. *)
Fixpoint first_piece (c : ascii) (s : string) : string :=
    match s with
    | EmptyString => EmptyString
    | String d r => if Ascii.eqb d c then EmptyString else String d (first_piece c r)
    end.

  (** [s.includes(sub)]. *)
Fixpoint includes (s sub : string) : bool :=
    orb (String.prefix sub s)
        (match s with
         | EmptyString => false
         | String _ r => includes r sub
         end).

  (** *** Arrays of strings *)

  (** [xs.join(sep)] *)
Fixpoint join (sep : string) (l : list string) : string :=
    match l with
    | [] => ""
    | [x] => x
    | x :: r => x ++ sep ++ join sep r
    end.

  (** [xs.sort()] on strings: ascending in the runtime's order. *)
Fixpoint sort_strings_insert (rt : Runtime) (x : string) (l : list string)
    : list string :=
    match l with
    | [] => [x]
    | y :: r =>
        if precedes rt x y then x :: y :: r else y :: sort_strings_insert rt x r
    end.

Definition sort_strings (rt : Runtime) (l : list string) : list string :=
    fold_left (fun acc x => sort_strings_insert rt x acc) l [].

  (** [`${n}`] for an integer [n]. *)
Definition string_of_Z (n : Z) : string :=
    DecimalString.NilZero.string_of_int (Z.to_int n).

  (** *** [Set] of strings: insertion order, no duplicates *)

Definition mem (x : string) (l : list string) : bool :=
    existsb (String.eqb x) l.

Definition Set_of (l : list string) : list string :=
    fold_left (fun acc x => if mem x acc then acc else (acc ++ [x])%list) l [].

  (** *** [Map<string, V>] and plain objects: insertion-ordered entries *)

Section MAP.
Variable V : Type.

Fixpoint get (m : list (string * V)) (k : string) : option V :=
      match m with
      | [] => None
      | (k', v) :: r => if String.eqb k' k then Some v else get r k
      end.

    (** [m.set(k, v)]: an existing key keeps its position. *)
Fixpoint set (m : list (string * V)) (k : string) (v : V) : list (string * V) :=
      match m with
      | [] => [(k, v)]
      | (k', v') :: r =>
          if String.eqb k' k then (k', v) :: r else (k', v') :: set r k v
      end.

Definition has (m : list (string * V)) (k : string) : bool :=
      match get m k with Some _ => true | None => false end.

Definition keys (m : list (string * V)) : list string := map fst m.
Definition values (m : list (string * V)) : list V := map snd m.
End MAP.

  (** *** Values of type [any] *)

  (** Objects and dates carry the reference that [===] compares.
      [JConcat v s] is the string obtained by appending [s] to the string
      conversion of the object [v]; that conversion is not computed, and two
      such strings are compared by their parts. *)
Inductive jsval : Type :=
  | JNull
  | JBool (b : bool)
  | JNum (x : float)
  | JStr (s : string)
  | JDate (ref : nat) (ms : Z)
  | JObj (ref : nat) (fields : list (string * jsval))
  | JConcat (v : jsval) (s : string).

Definition object : Type := list (string * jsval).

  (** Truthiness of [o[k]]; a missing key reads as [undefined]. *)
Definition truthy (v : option jsval) : bool :=
    match v with
    | None | Some JNull => false
    | Some (JBool b) => b
    | Some (JNum x) => negb (orb (is_nan x) (is_zero x))
    | Some (JStr s) => negb (String.eqb s "")
    | Some (JDate _ _) | Some (JObj _ _) | Some (JConcat _ _) => true
    end.

  (** [(v || 1) + 1]. *)
Definition or_one_plus_one (v : option jsval) : jsval :=
    if truthy v then
      match v with
      | Some (JNum x) => JNum (x + 1)%float
      | Some (JStr s) => JStr (s ++ "1")
      | Some (JConcat w s) => JConcat w (s ++ "1")
      | Some (JDate r t) => JConcat (JDate r t) "1"
      | Some (JObj r f) => JConcat (JObj r f) "1"
      | _ => JNum 2%float
      end
    else JNum 2%float.

  (** The reference of an object. *)
Definition ref_of (v : jsval) : option nat :=
    match v with
    | JDate r _ | JObj r _ => Some r
    | _ => None
    end.

Definition same_ref (v w : jsval) : bool :=
    match ref_of v, ref_of w with
    | Some r, Some r' => Nat.eqb r r'
    | _, _ => false
    end.

  (** [a === b]; a missing key reads as [undefined]. *)
Definition strict_eq (a b : option jsval) : bool :=
    match a, b with
    | None, None => true
    | Some JNull, Some JNull => true
    | Some (JBool x), Some (JBool y) => Bool.eqb x y
    | Some (JNum x), Some (JNum y) => (x =? y)%float
    | Some (JStr x), Some (JStr y) => String.eqb x y
    | Some (JConcat v x), Some (JConcat w y) => same_ref v w && String.eqb x y
    | Some (JConcat _ _), _ | _, Some (JConcat _ _) => false
    | Some v, Some w => same_ref v w
    | _, _ => false
    end.

End JS.

(* ================================================================== *)
(** ** Data model ([src/types/index.ts]) *)
(* ================================================================== *)

(** A [number] is a [float]; a [Date] is its epoch time in milliseconds. *)
Definition Date : Type := Z.

Inductive ChallengeType : Type :=
| performance | error | security | scalability
| usability | integration | data_quality | video_processing.

Inductive Severity : Type := critical | high | medium | low.

Inductive ChallengeStatus : Type :=
| pending | analyzing | ready | executing | resolved | failed.

Inductive Source : Type := auto | manual | monitor.

Inductive Outcome : Type := success | failure | partial.

Inductive ImplementationType : Type := code | config | process | infrastructure.

Inductive RiskImpact : Type := impact_high | impact_medium | impact_low.

Inductive ValidationType : Type := v_metric | v_log | v_test | v_health_check.

Inductive ValidationOperator : Type :=
| equals | greater | less | contains | matches.

Inductive MetricOperator : Type := op_gt | op_lt | op_eq | op_gte | op_lte.

Inductive Combinator : Type := AND | OR.

Inductive LogLevel : Type := log_error | log_warn | log_info.

Definition ChallengeType_eqb (a b : ChallengeType) : bool :=
  match a, b with
  | performance, performance | error, error | security, security
  | scalability, scalability | usability, usability
  | integration, integration | data_quality, data_quality
  | video_processing, video_processing => true
  | _, _ => false
  end.

Definition Severity_eqb (a b : Severity) : bool :=
  match a, b with
  | critical, critical | high, high | medium, medium | low, low => true
  | _, _ => false
  end.

Definition ChallengeStatus_eqb (a b : ChallengeStatus) : bool :=
  match a, b with
  | pending, pending | analyzing, analyzing | ready, ready
  | executing, executing | resolved, resolved | failed, failed => true
  | _, _ => false
  end.

Definition Outcome_eqb (a b : Outcome) : bool :=
  match a, b with
  | success, success | failure, failure | partial, partial => true
  | _, _ => false
  end.

Definition RiskImpact_eqb (a b : RiskImpact) : bool :=
  match a, b with
  | impact_high, impact_high | impact_medium, impact_medium
  | impact_low, impact_low => true
  | _, _ => false
  end.

Module ValidationRule.
Record t : Type := mk {
    type : ValidationType;
    expected : JS.jsval;
    operator : ValidationOperator
  }.
End ValidationRule.

Module ExecutionStep.
Record t : Type := mk {
    order : float;
    action : string;
    target : string;
    parameters : JS.object;
    validation : list ValidationRule.t
  }.
End ExecutionStep.

Module Implementation.
Record t : Type := mk {
    type : ImplementationType;
    steps : list ExecutionStep.t;
    rollbackPlan : list ExecutionStep.t;
    estimatedDuration : float
  }.
End Implementation.

Module Impact.
Record t : Type := mk {
    performance : float;
    reliability : float;
    userExperience : float;
    cost : float;
    security : float
  }.
End Impact.

Module Risk.
Record t : Type := mk {
    description : string;
    probability : float;
    impact : RiskImpact;
    mitigation : string
  }.
End Risk.

Module Solution.
Record t : Type := mk {
    id : string;
    challengeId : string;
    title : string;
    description : string;
    implementation : Implementation.t;
    confidence : float;
    estimatedImpact : Impact.t;
    prerequisites : list string;
    risks : list Risk.t;
    createdAt : Date;
    executionTime : option float
  }.

  (** [solution.confidence = c] *)
Definition set_confidence (c : float) (s : t) : t :=
    mk (id s) (challengeId s) (title s) (description s) (implementation s)
       c (estimatedImpact s) (prerequisites s) (risks s) (createdAt s)
       (executionTime s).

  (** [solution.executionTime = ms] *)
Definition set_executionTime (ms : float) (s : t) : t :=
    mk (id s) (challengeId s) (title s) (description s) (implementation s)
       (confidence s) (estimatedImpact s) (prerequisites s) (risks s)
       (createdAt s) (Some ms).
End Solution.

Module Learning.
Record t : Type := mk {
    id : string;
    challengeId : string;
    solutionId : string;
    outcome : Outcome;
    metrics : list (string * float);
    lessons : list string;
    timestamp : Date;
    affectedComponents : list string
  }.

Definition set_outcome (o : Outcome) (l : t) : t :=
    mk (id l) (challengeId l) (solutionId l) o (metrics l) (lessons l)
       (timestamp l) (affectedComponents l).

Definition set_metrics (m : list (string * float)) (l : t) : t :=
    mk (id l) (challengeId l) (solutionId l) (outcome l) m (lessons l)
       (timestamp l) (affectedComponents l).

  (** [learning.lessons.push(x)] *)
Definition push_lesson (x : string) (l : t) : t :=
    mk (id l) (challengeId l) (solutionId l) (outcome l) (metrics l)
       (lessons l ++ [x]) (timestamp l) (affectedComponents l).

  (** [learning.affectedComponents.push(x)] *)
Definition push_component (x : string) (l : t) : t :=
    mk (id l) (challengeId l) (solutionId l) (outcome l) (metrics l)
       (lessons l) (timestamp l) (affectedComponents l ++ [x]).
End Learning.

(** The array a challenge's [proposedSolutions] points to: an array of its
    own, or the very array stored in the controller's [solutions] map under
    a key ([analyzeChallenge] stores one array in both places). *)
Inductive SolutionsRef : Type :=
| OwnArray (l : list Solution.t)
| SolutionsOf (key : string).

Module SystemChallenge.
Record t : Type := mk {
    id : string;
    type : ChallengeType;
    severity : Severity;
    description : string;
    detectedAt : Date;
    context : JS.object;
    proposedSolutions : SolutionsRef;
    status : ChallengeStatus;
    learnings : list Learning.t;
    source : Source
  }.

Definition set_status (x : ChallengeStatus) (c : t) : t :=
    mk (id c) (type c) (severity c) (description c) (detectedAt c)
       (context c) (proposedSolutions c) x (learnings c) (source c).

Definition set_context (x : JS.object) (c : t) : t :=
    mk (id c) (type c) (severity c) (description c) (detectedAt c)
       x (proposedSolutions c) (status c) (learnings c) (source c).

Definition set_proposedSolutions (x : SolutionsRef) (c : t) : t :=
    mk (id c) (type c) (severity c) (description c) (detectedAt c)
       (context c) x (status c) (learnings c) (source c).

  (** [challenge.learnings.push(l)] *)
Definition push_learning (l : Learning.t) (c : t) : t :=
    mk (id c) (type c) (severity c) (description c) (detectedAt c)
       (context c) (proposedSolutions c) (status c) (learnings c ++ [l])
       (source c).
End SystemChallenge.

(** [Partial<SystemChallenge>]: every property may be missing. *)
Module PartialChallenge.
Record t : Type := mk {
    id : option string;
    type : option ChallengeType;
    severity : option Severity;
    description : option string;
    detectedAt : option Date;
    context : option JS.object;
    proposedSolutions : option SolutionsRef;
    status : option ChallengeStatus;
    learnings : option (list Learning.t);
    source : option Source
  }.
End PartialChallenge.

Module SystemMetrics.
Record t : Type := mk {
    cpu : float;
    memory : float;
    diskUsage : float;
    networkLatency : float;
    errorRate : float;
    responseTime : float;
    activeUsers : float;
    videoProcessingQueue : float
  }.
End SystemMetrics.

Module MetricCondition.
Record t : Type := mk {
    metric : string;
    operator : MetricOperator;
    value : float;
    duration : option float
  }.
End MetricCondition.

Module LogCondition.
Record t : Type := mk {
    pattern : string;
    level : LogLevel;
    frequency : float;
    timeWindow : float
  }.
End LogCondition.

Module EventCondition.
Record t : Type := mk {
    event : string;
    properties : option JS.object
  }.
End EventCondition.

(** The patterns this code builds always carry the three lists, so the
    optional [metrics], [logs] and [events] are plain lists here. *)
Module TriggerCondition.
Record t : Type := mk {
    metrics : list MetricCondition.t;
    logs : list LogCondition.t;
    events : list EventCondition.t;
    combinator : Combinator
  }.
End TriggerCondition.

Module SolutionTemplate.
Record t : Type := mk {
    name : string;
    steps : list string;
    parameters : JS.object;
    expectedOutcome : string
  }.
End SolutionTemplate.

Module Pattern.
Record t : Type := mk {
    id : string;
    name : string;
    description : string;
    trigger : TriggerCondition.t;
    solution : SolutionTemplate.t;
    successRate : float;
    usageCount : float
  }.

Definition set_successRate (x : float) (p : t) : t :=
    mk (id p) (name p) (description p) (trigger p) (solution p) x
       (usageCount p).

Definition set_usageCount (x : float) (p : t) : t :=
    mk (id p) (name p) (description p) (trigger p) (solution p)
       (successRate p) x.
End Pattern.

Module KnowledgeTransferPackage.
Record t : Type := mk {
    sourceSystem : string;
    targetSystem : string;
    challenges : list SystemChallenge.t;
    solutions : list Solution.t;
    learnings : list Learning.t;
    patterns : list Pattern.t;
    createdAt : Date;
    version : string
  }.
End KnowledgeTransferPackage.

(** The string a union member is in the source. *)
Definition ChallengeType_name (t : ChallengeType) : string :=
  match t with
  | performance => "performance" | error => "error" | security => "security"
  | scalability => "scalability" | usability => "usability"
  | integration => "integration" | data_quality => "data-quality"
  | video_processing => "video-processing"
  end.

Definition Severity_name (s : Severity) : string :=
  match s with
  | critical => "critical" | high => "high" | medium => "medium" | low => "low"
  end.

Definition Outcome_name (o : Outcome) : string :=
  match o with
  | success => "success" | failure => "failure" | partial => "partial"
  end.

Definition MetricOperator_name (o : MetricOperator) : string :=
  match o with
  | op_gt => "gt" | op_lt => "lt" | op_eq => "eq"
  | op_gte => "gte" | op_lte => "lte"
  end.

Definition ImplementationType_name (t : ImplementationType) : string :=
  match t with
  | code => "code" | config => "config" | process => "process"
  | infrastructure => "infrastructure"
  end.

Definition ImplementationType_eqb (a b : ImplementationType) : bool :=
  match a, b with
  | code, code | config, config | process, process
  | infrastructure, infrastructure => true
  | _, _ => false
  end.

(** [xs.sort(cmp)]: the sort is stable, and a comparator result that is NaN
    counts as 0.  Each element is inserted behind every element the
    comparator does not put after it; for a comparator that is a consistent
    order this is the result of any stable sort (with an inconsistent one
    ECMAScript leaves the order to the implementation). *)
Section SORT.
Variable A : Type.
Variable cmp : A -> A -> float.

Fixpoint sort_insert (x : A) (l : list A) : list A :=
    match l with
    | [] => [x]
    | y :: r => if JS.gt (cmp y x) 0 then x :: y :: r else y :: sort_insert x r
    end.

Definition sort (l : list A) : list A :=
    fold_left (fun acc x => sort_insert x acc) l [].
End SORT.

(** [xs.reduce((a, b) => a + b, 0)] *)
Definition sum (l : list float) : float := fold_left PrimFloat.add l 0%float.

(** [xs.slice(-n)] *)
Definition slice_last (A : Type) (n : nat) (l : list A) : list A :=
  skipn (List.length l - n) l.

(* ================================================================== *)
(** ** Learning Engine ([LearningEngine]) *)
(* ================================================================== *)

(** The engine's methods, over the two lookup helpers they call
    ([findChallengeById], [findSolutionById]).  Module [LearningEngine]
    below instantiates them with the helpers as the source has them. *)
Module Engine.

Local Open Scope float_scope.

  (** The engine's fields ([successThreshold] is a constant). *)
Record state : Type := mk {
    patterns : list (string * Pattern.t);
    learningHistory : list Learning.t
  }.

Definition successThreshold : float := 0.7.

  (** [Object.values(learning.metrics).filter(v => v > 0)] *)
Definition positive_metrics (l : Learning.t) : list float :=
    filter (fun v => JS.gt v 0) (JS.values (Learning.metrics l)).

Definition isSimilarSolution (solutionId : string) (solution : Solution.t) : bool :=
    String.eqb solutionId (Solution.id solution).

Definition isPartialSuccessAcceptable (learning : Learning.t) : bool :=
    let positiveMetrics := List.length (positive_metrics learning) in
    let totalMetrics := List.length (JS.keys (Learning.metrics learning)) in
    JS.gt (JS.num_of_nat positiveMetrics / JS.num_of_nat totalMetrics) 0.5.

Definition isSolutionRelatedToPattern
      (solution : Solution.t) (pattern : Pattern.t) : bool :=
    let solutionSteps :=
      map ExecutionStep.action
          (Implementation.steps (Solution.implementation solution)) in
    let patternSteps := SolutionTemplate.steps (Pattern.solution pattern) in
    let commonSteps :=
      filter (fun s => existsb (fun ps => JS.includes ps s || JS.includes s ps)
                               patternSteps)
             solutionSteps in
    JS.gt (JS.num_of_nat (List.length commonSteps) /
           JS.Math_max (JS.num_of_nat (List.length solutionSteps))
                       (JS.num_of_nat (List.length patternSteps)))
          0.5.

Definition estimateSuccessRateFromPatterns
      (pats : list (string * Pattern.t)) (solution : Solution.t) : float :=
    let '(totalRate, count) :=
      fold_left
        (fun '(totalRate, count) '(_, pattern) =>
           if isSolutionRelatedToPattern solution pattern
           then (totalRate + Pattern.successRate pattern, S count)
           else (totalRate, count))
        pats (0, 0%nat) in
    if Nat.ltb 0 count then totalRate / JS.num_of_nat count else 0.5.

Definition calculateSuccessRate
      (pats : list (string * Pattern.t))
      (solution : Solution.t) (learnings : list Learning.t) : float :=
    let relevantLearnings :=
      filter (fun l => isSimilarSolution (Learning.solutionId l) solution)
             learnings in
    if Nat.eqb (List.length relevantLearnings) 0
    then estimateSuccessRateFromPatterns pats solution
    else
      let successCount :=
        List.length (filter (fun l => Outcome_eqb (Learning.outcome l) success)
                            relevantLearnings) in
      let partialSuccessCount :=
        List.length (filter (fun l => Outcome_eqb (Learning.outcome l) partial)
                            relevantLearnings) in
      let totalCount := List.length relevantLearnings in
      (JS.num_of_nat successCount + JS.num_of_nat partialSuccessCount * 0.5)
      / JS.num_of_nat totalCount.

Definition calculateSolutionSuccessRate
      (solution : Solution.t) (learnings : list Learning.t) : float :=
    let relevantLearnings :=
      filter (fun l => String.eqb (Learning.solutionId l) (Solution.id solution))
             learnings in
    if Nat.eqb (List.length relevantLearnings) 0
    then Solution.confidence solution
    else
      let successCount :=
        List.length (filter (fun l => Outcome_eqb (Learning.outcome l) success)
                            relevantLearnings) in
      JS.num_of_nat successCount / JS.num_of_nat (List.length relevantLearnings).

Definition calculateContextSimilarity (context1 context2 : JS.object) : float :=
    let keys1 := JS.keys context1 in
    let keys2 := JS.keys context2 in
    let commonKeys := filter (fun k => JS.mem k keys2) keys1 in
    if Nat.eqb (List.length commonKeys) 0 then 0
    else
      let similarity :=
        fold_left
          (fun similarity key =>
             if JS.strict_eq (JS.get context1 key) (JS.get context2 key)
             then similarity + 1
             else match JS.get context1 key, JS.get context2 key with
                  | Some (JS.JNum a), Some (JS.JNum b) =>
                      similarity + JS.Math_min a b / JS.Math_max a b
                  | _, _ => similarity
                  end)
          commonKeys 0 in
      similarity / JS.Math_max (JS.num_of_nat (List.length keys1))
                               (JS.num_of_nat (List.length keys2)).

Definition generateGroupKey
      (challenge : SystemChallenge.t) (learning : Learning.t) : string :=
    (ChallengeType_name (SystemChallenge.type challenge) ++ "_" ++
     Severity_name (SystemChallenge.severity challenge) ++ "_" ++
     Outcome_name (Learning.outcome learning))%string.

Definition deduplicateMetrics
      (metrics : list MetricCondition.t) : list MetricCondition.t :=
    JS.values
      (fold_left
         (fun unique metric =>
            let key := (MetricCondition.metric metric ++ "_" ++
                        MetricOperator_name (MetricCondition.operator metric))%string in
            match JS.get unique key with
            | None => JS.set unique key metric
            | Some old =>
                if JS.gt (MetricCondition.value metric) (MetricCondition.value old)
                then JS.set unique key metric else unique
            end)
         metrics []).

Definition calculateGroupSuccessRate (group : list Learning.t) : float :=
    let totalImprovement :=
      fold_left (fun acc learning => acc + sum (positive_metrics learning))
                group 0 in
    JS.Math_min (totalImprovement / (JS.num_of_nat (List.length group) * 100)) 1.

Definition calculateLearningScore (learning : Learning.t) : float :=
    let metricScore := sum (positive_metrics learning) in
    let outcomeScore :=
      match Learning.outcome learning with
      | success => 100 | partial => 50 | failure => 0
      end in
    metricScore + outcomeScore.

Definition extractExpectedOutcome (group : list Learning.t) : string :=
    let improvements : list (string * float) :=
      fold_left
        (fun improvements learning =>
           fold_left
             (fun improvements '(key, value) =>
                if JS.gt value 0
                then JS.set improvements key
                       ((match JS.get improvements key with
                         | Some c => if is_nan c || is_zero c then 0 else c
                         | None => 0
                         end) + 1)
                else improvements)
             (Learning.metrics learning) improvements)
        group [] in
    match sort (fun a b => snd b - snd a) improvements with
    | topImprovement :: _ =>
        (fst topImprovement ++ "の改善")%string
    | [] => "問題の解決"%string
    end.

Definition matchesPatternTrigger
      (challenge : SystemChallenge.t) (trigger : TriggerCondition.t) : bool :=
    forallb
      (fun metric =>
         match JS.get (SystemChallenge.context challenge)
                      (MetricCondition.metric metric) with
         | Some (JS.JNum value) =>
             let bound := MetricCondition.value metric in
             match MetricCondition.operator metric with
             | op_gt => negb (value <=? bound)
             | op_lt => negb (bound <=? value)
             | op_eq => (value =? bound)
             | op_gte => negb (value <? bound)
             | op_lte => negb (bound <? value)
             end
         | _ => false
         end)
      (TriggerCondition.metrics trigger).

Section Lookups.

Variable findChallengeById : string -> option SystemChallenge.t.
Variable findSolutionById : string -> option Solution.t.

Definition filterRelevantLearnings
        (challenge : SystemChallenge.t) (learnings : list Learning.t)
        : list Learning.t :=
      filter
        (fun learning =>
           match findChallengeById (Learning.challengeId learning) with
           | None => false
           | Some relatedChallenge =>
               if negb (ChallengeType_eqb (SystemChallenge.type relatedChallenge)
                                          (SystemChallenge.type challenge))
               then false
               else JS.gt (calculateContextSimilarity
                             (SystemChallenge.context challenge)
                             (SystemChallenge.context relatedChallenge))
                          0.6
           end)
        learnings.

Definition extractSuccessfulSolutions
        (learnings : list Learning.t) : list Solution.t :=
      JS.values
        (fold_left
           (fun solutions learning =>
              if Outcome_eqb (Learning.outcome learning) success
                 || (Outcome_eqb (Learning.outcome learning) partial
                     && isPartialSuccessAcceptable learning)
              then match findSolutionById (Learning.solutionId learning) with
                   | Some solution => JS.set solutions (Solution.id solution) solution
                   | None => solutions
                   end
              else solutions)
           learnings []).

Definition findRelevantSolutions
        (challenge : SystemChallenge.t) (learnings : list Learning.t)
        : list Solution.t :=
      let relevantLearnings := filterRelevantLearnings challenge learnings in
      let successfulSolutions := extractSuccessfulSolutions relevantLearnings in
      sort
        (fun a b =>
           let aSuccess := calculateSolutionSuccessRate a relevantLearnings in
           let bSuccess := calculateSolutionSuccessRate b relevantLearnings in
           bSuccess - aSuccess)
        successfulSolutions.

Definition groupSuccessfulLearnings
        (learnings : list Learning.t) : list (string * list Learning.t) :=
      fold_left
        (fun groups learning =>
           if negb (Outcome_eqb (Learning.outcome learning) success) then groups
           else match findChallengeById (Learning.challengeId learning) with
                | None => groups
                | Some challenge =>
                    let key := generateGroupKey challenge learning in
                    let groups :=
                      if negb (JS.has groups key) then JS.set groups key []
                      else groups in
                    match JS.get groups key with
                    | Some members => JS.set groups key (members ++ [learning])
                    | None => groups
                    end
                end)
        learnings [].

    (** [Object.entries(challenge.context.metrics)] has numeric values only
        when [metrics] is an object. *)
Definition extractCommonTrigger (group : list Learning.t) : TriggerCondition.t :=
      let metrics :=
        fold_left
          (fun metrics learning =>
             match findChallengeById (Learning.challengeId learning) with
             | Some challenge =>
                 match JS.get (SystemChallenge.context challenge) "metrics" with
                 | Some (JS.JObj _ fields) =>
                     fold_left
                       (fun metrics '(key, value) =>
                          match value with
                          | JS.JNum value =>
                              if JS.gt value 0
                              then metrics ++
                                   [MetricCondition.mk key op_gt (value * 0.8)
                                                       (Some 300)]
                              else metrics
                          | _ => metrics
                          end)
                       fields metrics
                 | _ => metrics
                 end
             | None => metrics
             end)
          group [] in
      TriggerCondition.mk (deduplicateMetrics metrics) [] [] AND.

    (** [group.reduce(...)] without an initial value starts from the first
        member; the caller has checked that the group is not empty. *)
Definition extractCommonParameters
        (first : Learning.t) (rest : list Learning.t) : JS.object :=
      let bestLearning :=
        fold_left
          (fun best current =>
             let currentScore := calculateLearningScore current in
             let bestScore := calculateLearningScore best in
             if JS.gt currentScore bestScore then current else best)
          rest first in
      match findSolutionById (Learning.solutionId bestLearning) with
      | Some solution =>
          fold_left
            (fun params step =>
               fold_left (fun params '(k, v) => JS.set params k v)
                         (ExecutionStep.parameters step) params)
            (Implementation.steps (Solution.implementation solution)) []
      | None => []
      end.

    (** [pid] is the identifier built from [Date.now()] and
        [Math.random()]. *)
Definition createPatternFromGroup
        (pid : string) (key : string) (group : list Learning.t)
        : option Pattern.t :=
      match group with
      | [] => None
      | firstLearning :: rest =>
          match findChallengeById (Learning.challengeId firstLearning),
                findSolutionById (Learning.solutionId firstLearning) with
          | Some challenge, Some solution =>
              let trigger := extractCommonTrigger group in
              let successRate := calculateGroupSuccessRate group in
              Some (Pattern.mk
                      pid
                      (ChallengeType_name (SystemChallenge.type challenge)
                       ++ "の自動解決パターン")%string
                      (Solution.description solution)
                      trigger
                      (SolutionTemplate.mk
                         (Solution.title solution)
                         (map ExecutionStep.action
                              (Implementation.steps
                                 (Solution.implementation solution)))
                         (extractCommonParameters firstLearning rest)
                         (extractExpectedOutcome group))
                      successRate
                      (JS.num_of_nat (List.length group)))
          | _, _ => None
          end
      end.

    (** Whether [findRelatedPatterns(learning)] lists [pattern]. *)
Definition isRelatedPattern (learning : Learning.t) (pattern : Pattern.t) : bool :=
      match findChallengeById (Learning.challengeId learning) with
      | None => false
      | Some challenge => matchesPatternTrigger challenge (Pattern.trigger pattern)
      end.

Definition findRelatedPatterns
        (pats : list (string * Pattern.t)) (learning : Learning.t)
        : list Pattern.t :=
      filter (isRelatedPattern learning) (JS.values pats).

    (** The related patterns are the objects held by the map, so assigning
        to their fields rewrites the map's entries in place. *)
Definition update_related
        (learning : Learning.t) (f : Pattern.t -> Pattern.t)
        (pats : list (string * Pattern.t)) : list (string * Pattern.t) :=
      map (fun '(k, p) => if isRelatedPattern learning p then (k, f p) else (k, p))
          pats.

    (** One step of [updateExistingPatterns]: [weight] is 0.1. *)
Definition reweigh (learning : Learning.t) (pattern : Pattern.t) : Pattern.t :=
      let weight := 0.1 in
      let newSuccessValue :=
        if Outcome_eqb (Learning.outcome learning) success then 1 else 0 in
      Pattern.set_successRate
        (Pattern.successRate pattern * (1 - weight) + newSuccessValue * weight)
        pattern.

Definition updateExistingPatterns
        (learnings : list Learning.t) (pats : list (string * Pattern.t))
        : list (string * Pattern.t) :=
      fold_left (fun pats learning => update_related learning (reweigh learning) pats)
                learnings pats.

    (** The loop of [extractPatterns] over the groups: the patterns pushed to
        [newPatterns] and the map after the [set]s.  [ids k] is the
        identifier generated for the [k]-th group. *)
Definition promote_groups
        (ids : nat -> string) (groups : list (string * list Learning.t))
        (pats : list (string * Pattern.t))
        : list Pattern.t * list (string * Pattern.t) :=
      let '(newPatterns, pats, _) :=
        fold_left
          (fun '(newPatterns, pats, k) '(key, group) =>
             if Nat.leb 3 (List.length group) then
               match createPatternFromGroup (ids k) key group with
               | Some pattern =>
                   if JS.ge (Pattern.successRate pattern) successThreshold
                   then (newPatterns ++ [pattern],
                         JS.set pats (Pattern.id pattern) pattern, S k)
                   else (newPatterns, pats, S k)
               | None => (newPatterns, pats, S k)
               end
             else (newPatterns, pats, S k))
          groups ([], pats, 0%nat) in
      (newPatterns, pats).

    (** [newPatterns] holds the pattern objects themselves: one that is
        still registered under its id when the loop ends is then rewritten
        by [updateExistingPatterns] like every entry of the map; one whose
        id a later pattern took over is no longer in the map and keeps its
        fields. *)
Fixpoint resolve_new
        (final : list (string * Pattern.t)) (created : list Pattern.t)
        : list Pattern.t :=
      match created with
      | [] => []
      | p :: later =>
          (if existsb (fun q => String.eqb (Pattern.id q) (Pattern.id p)) later
           then p
           else match JS.get final (Pattern.id p) with
                | Some q => q
                | None => p
                end)
          :: resolve_new final later
      end.

Definition extractPatterns
        (ids : nat -> string) (learnings : list Learning.t)
        (pats : list (string * Pattern.t))
        : list Pattern.t * list (string * Pattern.t) :=
      let successGroups := groupSuccessfulLearnings learnings in
      let '(newPatterns, pats) := promote_groups ids successGroups pats in
      let pats := updateExistingPatterns learnings pats in
      (resolve_new pats newPatterns, pats).

    (** The running mean written by [updateKnowledge] into a related
        pattern, followed by [usageCount++]. *)
Definition absorb (learning : Learning.t) (pattern : Pattern.t) : Pattern.t :=
      let rate := Pattern.successRate pattern in
      let count := Pattern.usageCount pattern in
      let rate' :=
        match Learning.outcome learning with
        | success => (rate * count + 1) / (count + 1)
        | failure => (rate * count) / (count + 1)
        | partial => rate
        end in
      Pattern.set_usageCount (count + 1) (Pattern.set_successRate rate' pattern).

Definition updateKnowledge
        (ids : nat -> string) (learning : Learning.t) (st : state) : state :=
      let history := learningHistory st ++ [learning] in
      let pats := update_related learning (absorb learning) (patterns st) in
      if JS.divisible (List.length history) 10
      then mk (snd (extractPatterns ids (slice_last 50 history) pats)) history
      else mk pats history.

End Lookups.

  (** [initializeBasePatterns] *)
Definition basePatterns : list (string * Pattern.t) :=
    let p1 :=
      Pattern.mk "high-cpu-scale" "CPU高負荷時のスケーリング"
        "CPU使用率が高い時に水平スケーリングを実行"
        (TriggerCondition.mk
           [MetricCondition.mk "cpu" op_gt 80 (Some 300)] [] [] AND)
        (SolutionTemplate.mk "自動水平スケーリング"
           ["メトリクスの確認"; "インスタンスの追加";
            "ロードバランサーの更新"; "ヘルスチェック"]%string
           [("scaleUpCount", JS.JNum 2); ("cooldownPeriod", JS.JNum 300)]%string
           "CPU使用率が70%以下に低下")
        0.85 0 in
    let p2 :=
      Pattern.mk "memory-leak-restart" "メモリリーク対応"
        "メモリ使用率が継続的に上昇した場合の再起動"
        (TriggerCondition.mk
           [MetricCondition.mk "memory" op_gt 85 (Some 600)] [] [] AND)
        (SolutionTemplate.mk "グレースフル再起動"
           ["メモリダンプの取得"; "トラフィックの切り離し";
            "アプリケーションの再起動"; "ヘルスチェック";
            "トラフィックの復帰"]%string
           [("gracePeriod", JS.JNum 30); ("healthCheckRetries", JS.JNum 5)]%string
           "メモリ使用率が正常範囲に復帰")
        0.9 0 in
    let p3 :=
      Pattern.mk "video-queue-optimization" "動画処理キューの最適化"
        "キューが詰まった場合の処理最適化"
        (TriggerCondition.mk
           [MetricCondition.mk "videoProcessingQueue" op_gt 100 None] [] [] AND)
        (SolutionTemplate.mk "動画処理の並列化"
           ["ワーカー数の増加"; "処理優先度の調整";
            "バッチサイズの最適化"]%string
           [("workerCount", JS.JNum 5); ("batchSize", JS.JNum 10);
            ("priorityAlgorithm", JS.JStr "fifo")]%string
           "キュー長が50以下に減少")
        0.75 0 in
    JS.set (JS.set (JS.set [] "high-cpu-scale" p1) "memory-leak-restart" p2)
           "video-queue-optimization" p3.

  (** The engine after its constructor. *)
Definition initial : state := mk basePatterns [].

End Engine.

(** The engine with the lookup helpers as the source has them: both return
    [null] for every id. *)
Module LearningEngine.

Definition findChallengeById (id : string) : option SystemChallenge.t := None.

Definition findSolutionById (id : string) : option Solution.t := None.

Definition findRelevantSolutions :=
    Engine.findRelevantSolutions findChallengeById findSolutionById.

Definition calculateSuccessRate := Engine.calculateSuccessRate.

Definition extractPatterns :=
    Engine.extractPatterns findChallengeById findSolutionById.

Definition updateKnowledge :=
    Engine.updateKnowledge findChallengeById findSolutionById.

End LearningEngine.

(* ================================================================== *)
(** ** Exceptions *)
(* ================================================================== *)

(** What a [throw] or a rejected promise carries: an [Error] built by this
    code with [new Error(message)], or a failure raised by a collaborator
    (file system, monitor, a step's action) with its message. *)
Inductive Exn : Type :=
| Error (message : string)
| Rejected (message : string).

Definition message (e : Exn) : string :=
  match e with Error m | Rejected m => m end.

Inductive result (A : Type) : Type :=
| Ok (a : A)
| Throw (e : Exn).

Arguments Ok {A} a.
Arguments Throw {A} e.

(* ================================================================== *)
(** ** Solution Generator: the two constructors without risks *)
(* ================================================================== *)

Module SolutionGenerator.

Local Open Scope float_scope.

  (** A step of an entry of [solutionTemplates]. *)
Record TemplateStep : Type := mkStep {
    action : string;
    target : string;
    parameters : JS.object
  }.

Record Template : Type := mkTemplate {
    title : string;
    steps : list TemplateStep
  }.

  (** [xs.map((x, index) => f x (index + 1))] *)
Fixpoint map_order (A B : Type) (f : A -> float -> B) (index : nat) (l : list A)
    : list B :=
    match l with
    | [] => []
    | x :: r => f x (JS.num_of_nat index + 1) :: map_order f (S index) r
    end.

  (** [sid] is the value of [generateSolutionId()], [now] of [new Date()]. *)
Definition createSolutionFromPattern
      (sid : string) (now : Date)
      (challenge : SystemChallenge.t) (pattern : Pattern.t) : Solution.t :=
    Solution.mk
      sid
      (SystemChallenge.id challenge)
      (SolutionTemplate.name (Pattern.solution pattern))
      (Pattern.description pattern)
      (Implementation.mk
         process
         (map_order
            (fun step order =>
               ExecutionStep.mk order "execute" "pattern-step"
                 (fold_left (fun o '(k, v) => JS.set o k v)
                            (SolutionTemplate.parameters (Pattern.solution pattern))
                            [("step"%string, JS.JStr step)])
                 [])
            0 (SolutionTemplate.steps (Pattern.solution pattern)))
         []
         30)
      (Pattern.successRate pattern)
      (Impact.mk 20 20 20 0 0)
      []
      []
      now
      None.

Definition createSolutionFromTemplate
      (sid : string) (now : Date)
      (challenge : SystemChallenge.t) (template : Template) : Solution.t :=
    Solution.mk
      sid
      (SystemChallenge.id challenge)
      (title template)
      ("Template-based solution for " ++
       ChallengeType_name (SystemChallenge.type challenge))%string
      (Implementation.mk
         code
         (map_order
            (fun step order =>
               ExecutionStep.mk order (action step) (target step)
                                (parameters step) [])
            0 (steps template))
         []
         20)
      0.7
      (Impact.mk 25 25 25 0 0)
      []
      []
      now
      None.

  (** *** Templates, adaptation and ranking *)

Definition solutionTemplates : list (string * Template) :=
    let set := @JS.set Template in
    let m := [] in
    let m :=
      set m "performance:cpu"%string
        (mkTemplate "CPU使用率の最適化"
           [ mkStep "analyze" "process-list" [("sortBy", JS.JStr "cpu")];
             mkStep "optimize" "worker-pool" [("size", JS.JStr "auto")];
             mkStep "scale" "compute-resources" [("type", JS.JStr "horizontal")] ])%string in
    let m :=
      set m "performance:memory"%string
        (mkTemplate "メモリリークの修正"
           [ mkStep "analyze" "heap-dump" [];
             mkStep "patch" "memory-leaks" [("mode", JS.JStr "aggressive")];
             mkStep "restart" "application" [("graceful", JS.JBool true)] ])%string in
    let m :=
      set m "video-processing:queue"%string
        (mkTemplate "動画処理キューの最適化"
           [ mkStep "scale" "video-workers" [("count", JS.JNum 5)];
             mkStep "optimize" "encoding-settings" [("preset", JS.JStr "fast")];
             mkStep "prioritize" "queue" [("algorithm", JS.JStr "fifo")] ])%string in
    let m :=
      set m "error:high-rate"%string
        (mkTemplate "エラー率の削減"
           [ mkStep "analyze" "error-logs" [("limit", JS.JNum 1000)];
             mkStep "patch" "error-handlers" [];
             mkStep "monitor" "error-metrics" [("duration", JS.JNum 3600)] ])%string in
    m.

Section Generation.

    (** [ids k] is the value of the [k]-th [generateSolutionId()] of a
        call, [now] of [new Date()]; [toString] is the conversion a
        template literal applies to a value that is not a string; [md5]
        is the hex digest of [createHash('md5')]. *)
Variable ids : nat -> string.
Variable now : Date.
Variable toString : JS.jsval -> string.
Variable md5 : string -> string.

    (** [`${challenge.context.metric || 'default'}`] *)
Definition metric_or_default (context : JS.object) : string :=
      if JS.truthy (JS.get context "metric")
      then match JS.get context "metric" with
           | Some (JS.JStr s) => s
           | Some v => toString v
           | None => "default"%string
           end
      else "default"%string.

    (** Each key of [solutionTemplates] holds an object of its own, so two
        lookups give the same object exactly when they use the same key. *)
Definition generateFromTemplates (challenge : SystemChallenge.t) : list Solution.t :=
      let solutions := [] in
      let templateKey :=
        (ChallengeType_name (SystemChallenge.type challenge) ++ ":" ++
         metric_or_default (SystemChallenge.context challenge))%string in
      let template := JS.get solutionTemplates templateKey in
      let solutions :=
        match template with
        | Some template =>
            solutions ++
            [createSolutionFromTemplate (ids (List.length solutions)) now
                                        challenge template]
        | None => solutions
        end in
      let genericKey := ChallengeType_name (SystemChallenge.type challenge) in
      let genericTemplate := JS.get solutionTemplates genericKey in
      match genericTemplate with
      | Some genericTemplate =>
          if match template with
             | Some _ => negb (String.eqb genericKey templateKey)
             | None => true
             end
          then solutions ++
               [createSolutionFromTemplate (ids (List.length solutions)) now
                                           challenge genericTemplate]
          else solutions
      | None => solutions
      end.

Definition getSolutionKey (solution : Solution.t) : string :=
      md5 (Solution.title solution ++
           ImplementationType_name
             (Implementation.type (Solution.implementation solution)))%string.

    (** The loop of [deduplicateAndRank]: the map [unique] after it. *)
Definition keep_best (unique : list (string * Solution.t)) (solution : Solution.t)
      : list (string * Solution.t) :=
      let key := getSolutionKey solution in
      match JS.get unique key with
      | None => JS.set unique key solution
      | Some kept =>
          if JS.gt (Solution.confidence solution) (Solution.confidence kept)
          then JS.set unique key solution
          else unique
      end.

Definition deduplicateAndRank (solutions : list Solution.t) : list Solution.t :=
      let unique := fold_left keep_best solutions [] in
      sort (fun a b => Solution.confidence b - Solution.confidence a)
           (JS.values unique).

End Generation.

  (** [updatePatterns] on the generator's [patterns] map. *)
Definition updatePatterns (patterns : list Pattern.t)
             (held : list (string * Pattern.t)) : list (string * Pattern.t) :=
    fold_left (fun held pattern => JS.set held (Pattern.id pattern) pattern)
              patterns held.

End SolutionGenerator.

(* ================================================================== *)
(** ** Knowledge Transfer ([KnowledgeTransfer]) *)
(* ================================================================== *)

Module KnowledgeTransfer.

Local Open Scope float_scope.

  (** The [metadata] added to a transferred learning. *)
Record TransferMetadata : Type := mkMeta {
    transferred : bool;
    transferDate : Date;
    originalSystem : string
  }.

  (** What [JSON.stringify] is given when a record is written. *)
Inductive Document : Type :=
  | DocPattern (p : Pattern.t)
  | DocSolution (s : Solution.t)
  | DocLearning (l : Learning.t) (metadata : option TransferMetadata).

  (** The object's fields, and the files it has written (path, content). *)
Record state : Type := mk {
    transferHistory : list (string * list KnowledgeTransferPackage.t);
    knowledgeEndpoints : list (string * string);
    compatibilityVersion : string;
    files : list (string * Document)
  }.

Definition initial : state :=
    mk []
       (JS.set (JS.set [] "example-video-system"
                          "http://localhost:5000/api/self-evolution")
               "example-system" "http://localhost:3001/api/self-evolution")%string
       "1.0.0"
       [].

Definition isVersionCompatible (st : state) (version : string) : bool :=
    let major := JS.first_piece "." version in
    let currentMajor := JS.first_piece "." (compatibilityVersion st) in
    String.eqb major currentMajor.

Definition findSimilarPattern (pattern : Pattern.t) : option Pattern.t := None.

Definition adaptSolutionToLocal (solution : Solution.t) : Solution.t :=
    Solution.mk
      ("adapted_" ++ Solution.id solution)%string
      (Solution.challengeId solution) (Solution.title solution)
      (Solution.description solution) (Solution.implementation solution)
      (Solution.confidence solution * 0.9)
      (Solution.estimatedImpact solution) (Solution.prerequisites solution)
      (Solution.risks solution) (Solution.createdAt solution)
      (Solution.executionTime solution).

Section Environment.

    (** [write_fails path] is the reason [fs.writeFile] rejects with for
        that path, if it does; [now] is [new Date()]. *)
Variable write_fails : string -> option string.
Variable now : Date.

    (** [await fs.writeFile(path.join(dir, `${id}.json`), JSON.stringify(doc))] *)
Definition writeFile (dir id : string) (doc : Document) (st : state)
      : result unit * state :=
      let filepath := (dir ++ "/" ++ id ++ ".json")%string in
      match write_fails filepath with
      | Some reason => (Throw (Rejected reason), st)
      | None =>
          (Ok tt,
           mk (transferHistory st) (knowledgeEndpoints st)
              (compatibilityVersion st) (files st ++ [(filepath, doc)]))
      end.

Definition savePattern (pattern : Pattern.t) :=
      writeFile "knowledge-base/patterns" (Pattern.id pattern) (DocPattern pattern).

Definition saveSolution (solution : Solution.t) :=
      writeFile "knowledge-base/solutions" (Solution.id solution)
                (DocSolution solution).

Definition saveLearning (learning : Learning.t) (metadata : TransferMetadata) :=
      writeFile "knowledge-base/learnings" (Learning.id learning)
                (DocLearning learning (Some metadata)).

    (** [for (const x of xs) { await body(x) }]: the first rejection ends
        the loop. *)
Fixpoint for_each (A : Type) (body : A -> state -> result unit * state)
             (xs : list A) (st : state) : result unit * state :=
      match xs with
      | [] => (Ok tt, st)
      | x :: r =>
          match body x st with
          | (Ok _, st') => for_each body r st'
          | (Throw e, st') => (Throw e, st')
          end
      end.

    (** The branch taken on a similar pattern writes to the object that
        [findSimilarPattern] returned; nothing of the state is touched. *)
Definition integratePatterns (patterns : list Pattern.t) :=
      for_each
        (fun pattern st =>
           match findSimilarPattern pattern with
           | Some existingPattern => (Ok tt, st)
           | None => savePattern pattern st
           end)
        patterns.

Definition adaptSolutions (solutions : list Solution.t) :=
      for_each (fun solution => saveSolution (adaptSolutionToLocal solution))
               solutions.

Definition recordTransferredLearnings (learnings : list Learning.t) :=
      for_each
        (fun learning =>
           saveLearning learning
             (mkMeta true now (JS.first_piece "_" (Learning.id learning))))
        learnings.

Definition integrateKnowledge (knowledgePackage : KnowledgeTransferPackage.t)
               (st : state) : result unit * state :=
      match integratePatterns (KnowledgeTransferPackage.patterns knowledgePackage) st with
      | (Throw e, st) => (Throw e, st)
      | (Ok _, st) =>
          match adaptSolutions (KnowledgeTransferPackage.solutions knowledgePackage) st with
          | (Throw e, st) => (Throw e, st)
          | (Ok _, st) =>
              recordTransferredLearnings
                (KnowledgeTransferPackage.learnings knowledgePackage) st
          end
      end.

Definition receivePackage (knowledgePackage : KnowledgeTransferPackage.t)
               (st : state) : result unit * state :=
      if negb (isVersionCompatible st (KnowledgeTransferPackage.version knowledgePackage))
      then (Throw (Error ("Incompatible knowledge version: " ++
                          KnowledgeTransferPackage.version knowledgePackage)%string),
            st)
      else integrateKnowledge knowledgePackage st.

End Environment.

  (** *** Packages

      [Learning.metrics] lists the properties of the object in the order
      in which [Object.keys], [Object.values] and [Object.entries]
      enumerate them. *)

Definition generatePatternKey (rt : JS.Runtime) (learning : Learning.t) : string :=
    let metrics :=
      JS.join "_" (JS.sort_strings rt (JS.keys (Learning.metrics learning))) in
    let outcome := Outcome_name (Learning.outcome learning) in
    (metrics ++ "_" ++ outcome)%string.

Definition updateSuccessRate (pattern : Pattern.t) (learning : Learning.t) : float :=
    let currentTotal := Pattern.successRate pattern * Pattern.usageCount pattern in
    let newValue := if Outcome_eqb (Learning.outcome learning) success then 1 else 0 in
    (currentTotal + newValue) / (Pattern.usageCount pattern + 1).

Definition isInfrastructureCompatible (targetSystem : string) : bool :=
    let cloudSystems := ["example-system-1"; "example-system-2"]%string in
    JS.mem targetSystem cloudSystems.

Definition filterRelevantChallenges
      (challenges : list SystemChallenge.t) (targetSystem : string)
      : list SystemChallenge.t :=
    filter
      (fun challenge =>
         if existsb (ChallengeType_eqb (SystemChallenge.type challenge))
                    [performance; error; security]
         then true
         else if ChallengeType_eqb (SystemChallenge.type challenge) video_processing
                 && (JS.includes targetSystem "video"
                     || JS.includes targetSystem "example")
         then true
         else false)
      challenges.

Definition filterRelevantSolutions
      (solutions : list Solution.t) (targetSystem : string) : list Solution.t :=
    filter
      (fun solution =>
         if Solution.confidence solution <? 0.7 then false
         else if ImplementationType_eqb
                   (Implementation.type (Solution.implementation solution))
                   infrastructure
                 && negb (isInfrastructureCompatible targetSystem)
         then false
         else true)
      solutions.

Definition filterRelevantLearnings
      (learnings : list Learning.t) (targetSystem : string) : list Learning.t :=
    filter
      (fun learning =>
         if negb (Outcome_eqb (Learning.outcome learning) success) then false
         else
           let significantImprovements :=
             filter (fun value => JS.gt value 20)
                    (JS.values (Learning.metrics learning)) in
           Nat.ltb 0 (List.length significantImprovements))
      learnings.

  (** The argument of [createPackage]. *)
Record PackageParams : Type := mkParams {
    p_sourceSystem : string;
    p_targetSystem : string;
    p_challenges : list SystemChallenge.t;
    p_solutions : list Solution.t;
    p_learnings : list Learning.t
  }.

Section Packaging.

    (** [Number_toString x] is [`${x}`] for a number; [fresh k] is the id
        drawn for the [k]-th pattern created by a call
        ([Date.now()] and [Math.random()]); [created_at] is [new Date()]. *)
Variable rt : JS.Runtime.
Variable Number_toString : float -> string.
Variable fresh : nat -> string.
Variable created_at : Date.

    (** The pattern's [solution.steps] is the array [learning.lessons]. *)
Definition createPatternFromLearning (pid : string) (learning : Learning.t)
      : option Pattern.t :=
      let improvements :=
        filter (fun '(_, value) => JS.gt value 10) (Learning.metrics learning) in
      match improvements with
      | [] => None
      | (metric0, value0) :: _ =>
          Some
            (Pattern.mk
               pid
               ("改善パターン: " ++ metric0)%string
               (metric0 ++ "を" ++ Number_toString value0 ++ "%改善")%string
               (TriggerCondition.mk
                  (map (fun '(metric, _) =>
                          MetricCondition.mk metric op_gt 50 (Some 300))
                       improvements)
                  [] [] OR)
               (SolutionTemplate.mk "自動改善ソリューション"
                                    (Learning.lessons learning) []
                                    (metric0 ++ "の改善")%string)
               1
               1)
      end.

    (** One turn of the first loop of [extractTransferablePatterns]: the
        map, and the number of patterns created so far.  The count of an
        existing pattern is raised before its rate is recomputed. *)
Definition note_learning
        (acc : list (string * Pattern.t) * nat) (learning : Learning.t)
        : list (string * Pattern.t) * nat :=
      let '(patternMap, created) := acc in
      if negb (Outcome_eqb (Learning.outcome learning) success) then acc
      else
        let patternKey := generatePatternKey rt learning in
        match JS.get patternMap patternKey with
        | None =>
            match createPatternFromLearning (fresh created) learning with
            | Some pattern => (JS.set patternMap patternKey pattern, S created)
            | None => acc
            end
        | Some existing =>
            let existing :=
              Pattern.set_usageCount (Pattern.usageCount existing + 1) existing in
            let existing :=
              Pattern.set_successRate (updateSuccessRate existing learning)
                                      existing in
            (JS.set patternMap patternKey existing, created)
        end.

Definition extractTransferablePatterns (learnings : list Learning.t)
      : list Pattern.t :=
      let patternMap := fst (fold_left note_learning learnings ([], 0%nat)) in
      filter (fun pattern =>
                JS.gt (Pattern.successRate pattern) 0.7
                && JS.ge (Pattern.usageCount pattern) 2)
             (JS.values patternMap).

Definition createPackage (params : PackageParams) (st : state)
      : KnowledgeTransferPackage.t * state :=
      let patterns := extractTransferablePatterns (p_learnings params) in
      let transferPackage :=
        KnowledgeTransferPackage.mk
          (p_sourceSystem params)
          (p_targetSystem params)
          (filterRelevantChallenges (p_challenges params) (p_targetSystem params))
          (filterRelevantSolutions (p_solutions params) (p_targetSystem params))
          (filterRelevantLearnings (p_learnings params) (p_targetSystem params))
          patterns
          created_at
          (compatibilityVersion st) in
      let history := transferHistory st in
      let history :=
        if negb (JS.has history (p_targetSystem params))
        then JS.set history (p_targetSystem params) []
        else history in
      let history :=
        match JS.get history (p_targetSystem params) with
        | Some sent =>
            JS.set history (p_targetSystem params) (sent ++ [transferPackage])
        | None => history
        end in
      (transferPackage,
       mk history (knowledgeEndpoints st) (compatibilityVersion st) (files st)).

End Packaging.

  (** *** Sending *)

  (** What leaves the process: a request answered by the peer, a file. *)
Inductive Delivery : Type :=
  | posted (url : string) (knowledgePackage : KnowledgeTransferPackage.t)
  | saved (path : string) (knowledgePackage : KnowledgeTransferPackage.t).

  (** What the environment supplies to [sendPackage]: [post url] is the
      status of the response, or what [axios.post] rejects with;
      [mkdir_fails] and [save_fails] are the reasons [fs.mkdir] and
      [fs.writeFile] reject with, if they do; [path_join] is Node's
      [path.join] of two segments. *)
Record Network : Type := mkNetwork {
    post : string -> result float;
    path_join : string -> string -> string;
    mkdir_fails : string -> option string;
    save_fails : string -> option string;
    Date_now : Z
  }.

Definition savePackageToFile
      (env : Network) (targetSystem : string)
      (knowledgePackage : KnowledgeTransferPackage.t)
      : result unit * list Delivery :=
    let transferDir := path_join env "./knowledge-transfer" targetSystem in
    match mkdir_fails env transferDir with
    | Some reason => (Throw (Rejected reason), [])
    | None =>
        let filename :=
          ("transfer_" ++ JS.string_of_Z (Date_now env) ++ ".json")%string in
        let filepath := path_join env transferDir filename in
        match save_fails env filepath with
        | Some reason => (Throw (Rejected reason), [])
        | None => (Ok tt, [saved filepath knowledgePackage])
        end
    end.

Definition sendPackage
      (env : Network) (targetSystem : string)
      (knowledgePackage : KnowledgeTransferPackage.t) (st : state)
      : result unit * list Delivery :=
    match JS.get (knowledgeEndpoints st) targetSystem with
    | None => savePackageToFile env targetSystem knowledgePackage
    | Some endpoint =>
        if String.eqb endpoint ""
        then savePackageToFile env targetSystem knowledgePackage
        else
          let url := (endpoint ++ "/knowledge/import")%string in
          match post env url with
          | Ok status =>
              if status =? 200 then (Ok tt, [posted url knowledgePackage])
              else
                let '(r, deliveries) :=
                  savePackageToFile env targetSystem knowledgePackage in
                (r, posted url knowledgePackage :: deliveries)
          | Throw _ => savePackageToFile env targetSystem knowledgePackage
          end
    end.

  (** *** Differences between systems *)

Definition areSimilarPatterns (rt : JS.Runtime) (patternA patternB : Pattern.t)
    : bool :=
    let metricsA :=
      JS.sort_strings rt
        (map MetricCondition.metric
             (TriggerCondition.metrics (Pattern.trigger patternA))) in
    let metricsB :=
      JS.sort_strings rt
        (map MetricCondition.metric
             (TriggerCondition.metrics (Pattern.trigger patternB))) in
    let commonMetrics := filter (fun m => JS.mem m metricsB) metricsA in
    let similarity :=
      JS.num_of_nat (List.length commonMetrics)
      / JS.Math_max (JS.num_of_nat (List.length metricsA))
                    (JS.num_of_nat (List.length metricsB)) in
    JS.gt similarity 0.7.

Definition getSystemPatterns (system : string) : list Pattern.t := [].

Record KnowledgeDiff : Type := mkDiff {
    uniqueToA : list Pattern.t;
    uniqueToB : list Pattern.t;
    common : list Pattern.t
  }.

  (** [calculateKnowledgeDiff] after its two [await]s. *)
Definition diff_of (rt : JS.Runtime) (patternsA patternsB : list Pattern.t)
    : KnowledgeDiff :=
    let '(uniqueToA, common) :=
      fold_left
        (fun '(uniqueToA, common) patternA =>
           match find (fun p => areSimilarPatterns rt patternA p) patternsB with
           | Some similar => (uniqueToA, common ++ [patternA])
           | None => (uniqueToA ++ [patternA], common)
           end)
        patternsA ([], []) in
    let uniqueToB :=
      fold_left
        (fun uniqueToB patternB =>
           match find (fun p => areSimilarPatterns rt patternB p) patternsA with
           | Some similar => uniqueToB
           | None => uniqueToB ++ [patternB]
           end)
        patternsB [] in
    mkDiff uniqueToA uniqueToB common.

Definition calculateKnowledgeDiff (rt : JS.Runtime) (systemA systemB : string)
    : KnowledgeDiff :=
    diff_of rt (getSystemPatterns systemA) (getSystemPatterns systemB).

End KnowledgeTransfer.

(* ================================================================== *)
(** ** The controller ([SelfEvolutionSystem]) *)
(* ================================================================== *)

Module SelfEvolutionSystem.

Local Open Scope float_scope.

  (** What a run does that is seen from outside, in the order it happens:
      an event emitted (with the id of its subject), a file write issued,
      a learning appended to [this.learnings]. *)
Inductive Effect : Type :=
  | emit (event : string) (subject : string)
  | persist (path : string)
  | learned (learning : Learning.t).

Record state : Type := mk {
    challenges : list (string * SystemChallenge.t);
    solutions : list (string * list Solution.t);
    learnings : list Learning.t;
    isRunning : bool;
    executionQueue : list string;
    learningEngine : Engine.state;
    effects : list Effect
  }.

  (** The fields after the constructor's synchronous part. *)
Definition initial : state := mk [] [] [] false [] Engine.initial [].

Definition set_challenges x (st : state) : state :=
    mk x (solutions st) (learnings st) (isRunning st) (executionQueue st)
       (learningEngine st) (effects st).

Definition set_solutions x (st : state) : state :=
    mk (challenges st) x (learnings st) (isRunning st) (executionQueue st)
       (learningEngine st) (effects st).

Definition set_learnings x (st : state) : state :=
    mk (challenges st) (solutions st) x (isRunning st) (executionQueue st)
       (learningEngine st) (effects st).

Definition set_executionQueue x (st : state) : state :=
    mk (challenges st) (solutions st) (learnings st) (isRunning st) x
       (learningEngine st) (effects st).

Definition set_learningEngine x (st : state) : state :=
    mk (challenges st) (solutions st) (learnings st) (isRunning st)
       (executionQueue st) x (effects st).

Definition did (e : Effect) (st : state) : state :=
    mk (challenges st) (solutions st) (learnings st) (isRunning st)
       (executionQueue st) (learningEngine st) (effects st ++ [e]).

  (** Assigning to a field of the challenge stored under [key]. *)
Definition update_challenge
      (key : string) (f : SystemChallenge.t -> SystemChallenge.t) (st : state)
      : state :=
    match JS.get (challenges st) key with
    | Some c => set_challenges (JS.set (challenges st) key (f c)) st
    | None => st
    end.

Definition knowledge_path (dir id : string) : string :=
    ("knowledge-base/" ++ dir ++ "/" ++ id ++ ".json")%string.

  (** *** Deduplication *)

Section Similarity.

  (** [rt] is the runtime whose [toLowerCase] and [split] the method
      calls. *)
Variable rt : JS.Runtime.

Definition calculateSimilarity (str1 str2 : string) : float :=
    let words1 := JS.split_ws rt (JS.toLowerCase rt str1) in
    let words2 := JS.split_ws rt (JS.toLowerCase rt str2) in
    let set1 := JS.Set_of words1 in
    let set2 := JS.Set_of words2 in
    let intersection := JS.Set_of (filter (fun x => JS.mem x set2) set1) in
    let union := JS.Set_of (set1 ++ set2) in
    JS.num_of_nat (List.length intersection) / JS.num_of_nat (List.length union).

Definition or_empty (s : option string) : string :=
    match s with Some d => d | None => ""%string end.

  (** Whether [existing] passes the test of the loop of
      [findSimilarChallenge]. *)
Definition isSimilarTo
      (challenge : PartialChallenge.t) (existing : SystemChallenge.t) : bool :=
    match PartialChallenge.type challenge with
    | Some t => ChallengeType_eqb (SystemChallenge.type existing) t
    | None => false
    end
    && negb (ChallengeStatus_eqb (SystemChallenge.status existing) resolved)
    && JS.gt (calculateSimilarity (SystemChallenge.description existing)
                (or_empty (PartialChallenge.description challenge)))
             0.8.

  (** The first entry of the map that passes, with its key. *)
Fixpoint findSimilarChallenge
      (stored : list (string * SystemChallenge.t)) (challenge : PartialChallenge.t)
      : option (string * SystemChallenge.t) :=
    match stored with
    | [] => None
    | (key, existing) :: rest =>
        if isSimilarTo challenge existing then Some (key, existing)
        else findSimilarChallenge rest challenge
    end.

End Similarity.

  (** *** Scoring *)

Definition calculateRiskScore (solution : Solution.t) : float :=
    let riskScore :=
      fold_left
        (fun riskScore risk =>
           let probabilityWeight := Risk.probability risk in
           let impactWeight :=
             match Risk.impact risk with
             | impact_high => 1
             | impact_medium => 0.5
             | impact_low => 0.2
             end in
           riskScore + probabilityWeight * impactWeight)
        (Solution.risks solution) 0 in
    JS.Math_min (riskScore / JS.num_of_nat (List.length (Solution.risks solution))) 1.

  (** The body of the callback of [evaluateSolutions]. *)
Definition evaluate
      (engine : Engine.state) (history : list Learning.t) (solution : Solution.t)
      : Solution.t :=
    let historicalSuccess :=
      LearningEngine.calculateSuccessRate (Engine.patterns engine) solution history in
    let riskScore := calculateRiskScore solution in
    Solution.set_confidence (historicalSuccess * 0.7 + (1 - riskScore) * 0.3)
                            solution.

Definition evaluateSolutions
      (engine : Engine.state) (history : list Learning.t)
      (challenge : SystemChallenge.t) (solutions : list Solution.t)
      : list Solution.t :=
    let evaluated := map (evaluate engine history) solutions in
    sort (fun a b => Solution.confidence b - Solution.confidence a) evaluated.

Definition shouldAutoExecute
      (st : state) (challenge : SystemChallenge.t) (solution : Solution.t) : bool :=
    JS.gt (Solution.confidence solution) 0.8
    && negb (Severity_eqb (SystemChallenge.severity challenge) critical)
    && forallb (fun r => negb (RiskImpact_eqb (Risk.impact r) impact_high))
               (Solution.risks solution)
    && isRunning st.

  (** *** Analysis *)

  (** [analyzeChallenge] up to its first [await]. *)
Definition analyzeChallenge_start (challengeId : string) (st : state) : state :=
    match JS.get (challenges st) challengeId with
    | None => st
    | Some _ =>
        did (emit "challenge:analyzing" challengeId)
            (update_challenge challengeId (SystemChallenge.set_status analyzing) st)
    end.

  (** The [catch] of [analyzeChallenge]. *)
Definition analysis_failed (challengeId : string) (st : state) : state :=
    did (emit "challenge:failed" challengeId)
        (update_challenge challengeId (SystemChallenge.set_status failed) st).

  (** [analyzeChallenge] from its first [await] to
      [this.executionQueue.push(challengeId)]; the call of
      [processExecutionQueue] that follows the push is [processExecutionQueue]
      below.  [generate] is the Solution Generator.  An empty ranking makes
      [shouldAutoExecute] read a field of [undefined], which lands in the
      [catch]. *)
Definition analyzeChallenge_resume
      (generate : SystemChallenge.t -> list Solution.t -> result (list Solution.t))
      (challengeId : string) (st : state) : state :=
    match JS.get (challenges st) challengeId with
    | None => st
    | Some challenge =>
        let historicalSolutions :=
          LearningEngine.findRelevantSolutions challenge (learnings st) in
        match generate challenge historicalSolutions with
        | Throw _ => analysis_failed challengeId st
        | Ok generatedSolutions =>
            let rankedSolutions :=
              evaluateSolutions (learningEngine st) (learnings st)
                                challenge generatedSolutions in
            let st :=
              update_challenge challengeId
                (SystemChallenge.set_proposedSolutions (SolutionsOf challengeId)) st in
            let st := set_solutions (JS.set (solutions st) challengeId rankedSolutions) st in
            let st := update_challenge challengeId (SystemChallenge.set_status ready) st in
            let st := did (emit "challenge:ready" challengeId) st in
            match rankedSolutions with
            | [] => analysis_failed challengeId st
            | top :: _ =>
                if shouldAutoExecute st challenge top
                then set_executionQueue (executionQueue st ++ [challengeId]) st
                else st
            end
        end
    end.

Definition analyzeChallenge generate (challengeId : string) (st : state) : state :=
    match JS.get (challenges st) challengeId with
    | None => st
    | Some _ =>
        analyzeChallenge_resume generate challengeId
                                (analyzeChallenge_start challengeId st)
    end.

  (** *** Recording *)

Definition or_default (A : Type) (o : option A) (d : A) : A :=
    match o with Some x => x | None => d end.

  (** The object built for a challenge that is new: the defaults, each
      overridden by the property of the same name that the partial has
      ([...challenge] comes last).  [id] is the value of
      [generateChallengeId], [now] of [new Date()]. *)
Definition fullChallenge
      (id : string) (now : Date) (challenge : PartialChallenge.t) : SystemChallenge.t :=
    SystemChallenge.mk
      (or_default (PartialChallenge.id challenge) id)
      (or_default (PartialChallenge.type challenge) error)
      (or_default (PartialChallenge.severity challenge) medium)
      (or_empty (PartialChallenge.description challenge))
      (or_default (PartialChallenge.detectedAt challenge) now)
      (or_default (PartialChallenge.context challenge) [])
      (or_default (PartialChallenge.proposedSolutions challenge) (OwnArray []))
      (or_default (PartialChallenge.status challenge) pending)
      (or_default (PartialChallenge.learnings challenge) [])
      (or_default (PartialChallenge.source challenge) auto).

  (** The two assignments made to the context of a challenge that is seen
      again; [ref] is the identity of the new [Date] object. *)
Definition noteOccurrence
      (now : Date) (ref : nat) (existingChallenge : SystemChallenge.t)
      : SystemChallenge.t :=
    let context := SystemChallenge.context existingChallenge in
    let context :=
      JS.set context "occurrences"
             (JS.or_one_plus_one (JS.get context "occurrences")) in
    let context := JS.set context "lastOccurred" (JS.JDate ref now) in
    SystemChallenge.set_context context existingChallenge.

  (** The call returns while the analysis it started waits at its first
      [await]; [saveChallenge] is not awaited. *)
Definition recordChallenge
      (rt : JS.Runtime) (id : string) (now : Date) (ref : nat)
      (challenge : PartialChallenge.t) (st : state) : string * state :=
    match findSimilarChallenge rt (challenges st) challenge with
    | Some (key, existingChallenge) =>
        (SystemChallenge.id existingChallenge,
         set_challenges
           (JS.set (challenges st) key (noteOccurrence now ref existingChallenge))
           st)
    | None =>
        let fullChallenge := fullChallenge id now challenge in
        let st := set_challenges (JS.set (challenges st) id fullChallenge) st in
        let st := did (emit "challenge:recorded" id) st in
        let st := analyzeChallenge_start id st in
        let st :=
          did (persist (knowledge_path "challenges"
                          (SystemChallenge.id fullChallenge))) st in
        (id, st)
    end.

  (** *** Execution *)

  (** What the environment supplies to one run of [executeSolution]. *)
Record Run : Type := mkRun {
    learningId : string;                      (* generateLearningId() *)
    timestamp : Date;                         (* new Date() *)
    elapsed : float;                          (* Date.now() - startTime *)
    beforeMetrics : result SystemMetrics.t;   (* first getCurrentMetrics() *)
    afterMetrics : result SystemMetrics.t;    (* second getCurrentMetrics() *)
    step_raises : nat -> ExecutionStep.t -> option Exn;
    save_fails : option string;               (* rejection of saveLearning *)
    patternIds : nat -> string                (* ids for extracted patterns *)
  }.

  (** [executeStep].  The body in the source stands for the action on the
      target: it notes the target, then walks [step.validation].
      [step_raises k step] is the exception, if any, that the [k]-th step
      run raises after the target is noted ([k] counts the steps run so
      far, which is the number of targets noted). *)
Definition executeStep (env : Run) (step : ExecutionStep.t) (learning : Learning.t)
    : result unit * Learning.t :=
    let k := List.length (Learning.affectedComponents learning) in
    let learning := Learning.push_component (ExecutionStep.target step) learning in
    match step_raises env k step with
    | Some e => (Throw e, learning)
    | None => (Ok tt, learning)
    end.

  (** [for (const step of steps) { await this.executeStep(step, learning) }] *)
Fixpoint run_steps (env : Run) (steps : list ExecutionStep.t) (learning : Learning.t)
    : result unit * Learning.t :=
    match steps with
    | [] => (Ok tt, learning)
    | step :: rest =>
        match executeStep env step learning with
        | (Ok _, learning) => run_steps env rest learning
        | (Throw e, learning) => (Throw e, learning)
        end
    end.

Definition calculateImprovement (before after : SystemMetrics.t)
    : list (string * float) :=
    [ ("cpuImprovement"%string,
       ((SystemMetrics.cpu before - SystemMetrics.cpu after)
        / SystemMetrics.cpu before) * 100);
      ("memoryImprovement"%string,
       ((SystemMetrics.memory before - SystemMetrics.memory after)
        / SystemMetrics.memory before) * 100);
      ("responseTimeImprovement"%string,
       ((SystemMetrics.responseTime before - SystemMetrics.responseTime after)
        / SystemMetrics.responseTime before) * 100);
      ("errorRateImprovement"%string,
       ((SystemMetrics.errorRate before - SystemMetrics.errorRate after)
        / JS.Math_max (SystemMetrics.errorRate before) 0.1) * 100) ].

Definition isSuccessful (metrics : list (string * float)) (expectedImpact : Impact.t)
    : bool :=
    let improvements := filter (fun v => JS.gt v 0) (JS.values metrics) in
    Nat.ltb 0 (List.length improvements)
    && existsb (fun v => JS.gt v 10) improvements.

  (** The [catch] block: the learning after it (the challenge becomes
      [failed]). *)
Definition on_error (env : Run) (solution : Solution.t) (e : Exn)
             (learning : Learning.t) : Learning.t :=
    let learning := Learning.set_outcome failure learning in
    let learning :=
      Learning.push_lesson ("Execution failed: " ++ message e)%string learning in
    match run_steps env (Implementation.rollbackPlan (Solution.implementation solution))
                    learning with
    | (Ok _, learning) => learning
    | (Throw _, learning) => Learning.push_lesson "Rollback also failed" learning
    end.

  (** The [try] / [catch] of [executeSolution]: the learning after it and
      the status it assigns to the challenge, if it assigns one. *)
Definition attempt (env : Run) (challenge : SystemChallenge.t)
             (solution : Solution.t) (learning : Learning.t)
    : Learning.t * option ChallengeStatus :=
    match beforeMetrics env with
    | Throw e => (on_error env solution e learning, Some failed)
    | Ok before =>
        match run_steps env (Implementation.steps (Solution.implementation solution))
                        learning with
        | (Throw e, learning) => (on_error env solution e learning, Some failed)
        | (Ok _, learning) =>
            match afterMetrics env with
            | Throw e => (on_error env solution e learning, Some failed)
            | Ok after =>
                let learning :=
                  Learning.set_metrics (calculateImprovement before after) learning in
                if isSuccessful (Learning.metrics learning)
                                (Solution.estimatedImpact solution)
                then (Learning.push_lesson
                        ("Successfully resolved: " ++
                         SystemChallenge.description challenge)%string
                        (Learning.set_outcome success learning),
                      Some resolved)
                else (Learning.push_lesson
                        "Solution partially effective, further optimization needed"
                        (Learning.set_outcome partial learning),
                      None)
            end
        end
    end.

  (** Assigning to a field of the first element that passes [p]. *)
Fixpoint update_first (A : Type) (p : A -> bool) (f : A -> A) (l : list A) : list A :=
    match l with
    | [] => []
    | x :: r => if p x then f x :: r else x :: update_first p f r
    end.

Definition set_status_opt (challengeId : string) (s : option ChallengeStatus)
             (st : state) : state :=
    match s with
    | Some s => update_challenge challengeId (SystemChallenge.set_status s) st
    | None => st
    end.

Definition executeSolution
      (env : Run) (challengeId solutionId : string) (st : state)
      : result unit * state :=
    let has_id := fun s => String.eqb (Solution.id s) solutionId in
    let challenge := JS.get (challenges st) challengeId in
    let solutions := JS.get (solutions st) challengeId in
    let solution :=
      match solutions with
      | Some l => find has_id l
      | None => None
      end in
    match challenge, solutions, solution with
    | Some challenge, Some solutions, Some solution =>
        let st :=
          update_challenge challengeId (SystemChallenge.set_status executing) st in
        let st := did (emit "solution:executing" challengeId) st in
        let learning :=
          Learning.mk (learningId env) challengeId solutionId failure [] []
                      (timestamp env) [] in
        let '(learning, status) := attempt env challenge solution learning in
        let st := set_status_opt challengeId status st in
        let st :=
          set_solutions
            (JS.set (SelfEvolutionSystem.solutions st) challengeId
                    (update_first has_id (Solution.set_executionTime (elapsed env))
                                  solutions))
            st in
        let st := did (learned learning) (set_learnings (learnings st ++ [learning]) st) in
        let st := update_challenge challengeId (SystemChallenge.push_learning learning) st in
        let st := did (persist (knowledge_path "learnings" (Learning.id learning))) st in
        match save_fails env with
        | Some reason => (Throw (Rejected reason), st)
        | None =>
            let st := did (emit "solution:completed" (Learning.id learning)) st in
            (Ok tt,
             set_learningEngine
               (LearningEngine.updateKnowledge (patternIds env) learning
                                               (learningEngine st))
               st)
        end
    | _, _, _ => (Throw (Error "Challenge or solution not found"), st)
    end.

  (** [processExecutionQueue] without the timer it sets for the next item. *)
Definition processExecutionQueue (env : Run) (st : state) : result unit * state :=
    match executionQueue st with
    | [] => (Ok tt, st)
    | challengeId :: rest =>
        let st := set_executionQueue rest st in
        if String.eqb challengeId "" then (Ok tt, st)
        else
          match JS.get (challenges st) challengeId, JS.get (solutions st) challengeId with
          | Some _, Some (top :: _) =>
              executeSolution env challengeId (Solution.id top) st
          | _, _ => (Ok tt, st)
          end
    end.

  (** *** Monitoring, diagnosis, learning cycle, sharing *)

  (** What the environment supplies to one call of [recordChallenge]: the
      value of [generateChallengeId], of [new Date()], and the identity of
      the [Date] object. *)
Record Fresh : Type := mkFresh {
    fresh_id : string;
    fresh_now : Date;
    fresh_ref : nat
  }.

  (** A call of [recordChallenge] whose result is dropped. *)
Definition report (rt : JS.Runtime) (f : Fresh) (challenge : PartialChallenge.t)
             (st : state) : state :=
    snd (recordChallenge rt (fresh_id f) (fresh_now f) (fresh_ref f) challenge st).

  (** The object literal [{ type, severity, description, context }]. *)
Definition finding
      (type : ChallengeType) (severity : Severity) (description : string)
      (context : JS.object) : PartialChallenge.t :=
    PartialChallenge.mk None (Some type) (Some severity) (Some description)
                        None (Some context) None None None None.

  (** The metrics object as a value; [ref] is its identity. *)
Definition metrics_value (ref : nat) (metrics : SystemMetrics.t) : JS.jsval :=
    JS.JObj ref
      [ ("cpu", JS.JNum (SystemMetrics.cpu metrics));
        ("memory", JS.JNum (SystemMetrics.memory metrics));
        ("diskUsage", JS.JNum (SystemMetrics.diskUsage metrics));
        ("networkLatency", JS.JNum (SystemMetrics.networkLatency metrics));
        ("errorRate", JS.JNum (SystemMetrics.errorRate metrics));
        ("responseTime", JS.JNum (SystemMetrics.responseTime metrics));
        ("activeUsers", JS.JNum (SystemMetrics.activeUsers metrics));
        ("videoProcessingQueue",
         JS.JNum (SystemMetrics.videoProcessingQueue metrics)) ]%string.

  (** What the environment supplies to one call of [analyzeMetrics]:
      [`${x}`] for a number, the identity of the metrics object, and what
      each of the five possible calls of [recordChallenge] draws. *)
Record Sampling : Type := mkSampling {
    Number_toString : float -> string;
    metricsRef : nat;
    for_cpu : Fresh;
    for_memory : Fresh;
    for_errorRate : Fresh;
    for_responseTime : Fresh;
    for_queue : Fresh
  }.

Definition analyzeMetrics (rt : JS.Runtime) (env : Sampling)
             (metrics : SystemMetrics.t) (st : state) : state :=
    let show := Number_toString env in
    let context component : JS.object :=
      [ ("metrics", metrics_value (metricsRef env) metrics);
        ("component", JS.JStr component) ]%string in
    let st :=
      if JS.gt (SystemMetrics.cpu metrics) 80
      then report rt (for_cpu env)
             (finding performance
                (if JS.gt (SystemMetrics.cpu metrics) 90 then critical else high)
                ("High CPU usage detected: " ++ show (SystemMetrics.cpu metrics)
                 ++ "%")%string
                (context "system"%string))
             st
      else st in
    let st :=
      if JS.gt (SystemMetrics.memory metrics) 85
      then report rt (for_memory env)
             (finding performance
                (if JS.gt (SystemMetrics.memory metrics) 95 then critical else high)
                ("High memory usage detected: "
                 ++ show (SystemMetrics.memory metrics) ++ "%")%string
                (context "system"%string))
             st
      else st in
    let st :=
      if JS.gt (SystemMetrics.errorRate metrics) 5
      then report rt (for_errorRate env)
             (finding error
                (if JS.gt (SystemMetrics.errorRate metrics) 10 then critical else high)
                ("High error rate detected: "
                 ++ show (SystemMetrics.errorRate metrics) ++ "%")%string
                (context "application"%string))
             st
      else st in
    let st :=
      if JS.gt (SystemMetrics.responseTime metrics) 1000
      then report rt (for_responseTime env)
             (finding performance
                (if JS.gt (SystemMetrics.responseTime metrics) 3000
                 then high else medium)
                ("Slow response time detected: "
                 ++ show (SystemMetrics.responseTime metrics) ++ "ms")%string
                (context "api"%string))
             st
      else st in
    if JS.gt (SystemMetrics.videoProcessingQueue metrics) 50
    then report rt (for_queue env)
           (finding video_processing
              (if JS.gt (SystemMetrics.videoProcessingQueue metrics) 100
               then high else medium)
              ("Video processing queue backlog: "
               ++ show (SystemMetrics.videoProcessingQueue metrics)
               ++ " items")%string
              (context "video-processor"%string))
           st
    else st.

  (** The object returned by [getSystemHealth]. *)
Record Health : Type := mkHealth {
    totalChallenges : float;
    resolvedChallenges : float;
    pendingChallenges : float;
    successRate : float;
    health_isRunning : bool;
    uptime : float;
    memoryUsage : JS.jsval;
    knowledgeBaseSize : float * float
  }.

  (** The number of stored challenges in status [s]. *)
Definition count_status (s : ChallengeStatus) (st : state) : float :=
    JS.num_of_nat
      (List.length
         (filter (fun c => ChallengeStatus_eqb (SystemChallenge.status c) s)
                 (JS.values (challenges st)))).

  (** [process_uptime] and [process_memoryUsage] are the values of
      [process.uptime()] and [process.memoryUsage()]. *)
Definition getSystemHealth
      (process_uptime : float) (process_memoryUsage : JS.jsval) (st : state)
      : Health :=
    let totalChallenges := JS.num_of_nat (List.length (challenges st)) in
    let resolvedChallenges := count_status resolved st in
    let pendingChallenges := count_status pending st in
    let successfulLearnings :=
      JS.num_of_nat
        (List.length
           (filter (fun l => Outcome_eqb (Learning.outcome l) success)
                   (learnings st))) in
    let totalLearnings := JS.num_of_nat (List.length (learnings st)) in
    mkHealth
      totalChallenges
      resolvedChallenges
      pendingChallenges
      (if JS.gt totalLearnings 0 then successfulLearnings / totalLearnings else 0)
      (isRunning st)
      process_uptime
      process_memoryUsage
      (JS.num_of_nat (List.length (challenges st)),
       JS.num_of_nat (List.length (learnings st))).

  (** The health object as a value; [ref] and [sizeRef] are the identities
      of the object and of its [knowledgeBaseSize]. *)
Definition health_value (ref sizeRef : nat) (health : Health) : JS.jsval :=
    JS.JObj ref
      [ ("totalChallenges", JS.JNum (totalChallenges health));
        ("resolvedChallenges", JS.JNum (resolvedChallenges health));
        ("pendingChallenges", JS.JNum (pendingChallenges health));
        ("successRate", JS.JNum (successRate health));
        ("isRunning", JS.JBool (health_isRunning health));
        ("uptime", JS.JNum (uptime health));
        ("memoryUsage", memoryUsage health);
        ("knowledgeBaseSize",
         JS.JObj sizeRef
           [ ("challenges", JS.JNum (fst (knowledgeBaseSize health)));
             ("learnings", JS.JNum (snd (knowledgeBaseSize health))) ]) ]%string.

  (** What the environment supplies to one call of
      [performSelfDiagnosis]. *)
Record Diagnosis : Type := mkDiagnosis {
    process_uptime : float;
    process_memoryUsage : JS.jsval;
    healthRef : nat;
    sizeRef : nat;
    for_successRate : Fresh;
    for_pending : Fresh
  }.

  (** Events that are about no challenge carry the empty subject. *)
Definition performSelfDiagnosis (rt : JS.Runtime) (env : Diagnosis) (st : state)
    : state :=
    let st := did (emit "diagnosis:started" "") st in
    let health :=
      getSystemHealth (process_uptime env) (process_memoryUsage env) st in
    let context : JS.object :=
      [("health"%string, health_value (healthRef env) (sizeRef env) health)] in
    let st :=
      if successRate health <? 0.7
      then report rt (for_successRate env)
             (finding performance medium "Low solution success rate detected"
                      context)
             st
      else st in
    let st :=
      if JS.gt (pendingChallenges health) 10
      then report rt (for_pending env)
             (finding scalability medium "High number of pending challenges"
                      context)
             st
      else st in
    did (emit "diagnosis:completed" "") st.

  (** [stop], the cron jobs and the monitor left out. *)
Definition stop (st : state) : state :=
    did (emit "system:stopped" "")
        (mk (challenges st) (solutions st) (learnings st) false
            (executionQueue st) (learningEngine st) (effects st)).

  (** [performLearning]: the controller, the transfer object and the
      generator's [patterns] map after it. *)
Definition performLearning
      (patternIds : nat -> string) (write_fails : string -> option string)
      (now : Date)
      (st : state) (transfer : KnowledgeTransfer.state)
      (generatorPatterns : list (string * Pattern.t))
      : result unit * state * KnowledgeTransfer.state
        * list (string * Pattern.t) :=
    let st := did (emit "learning:started" "") st in
    let '(patterns, held) :=
      LearningEngine.extractPatterns patternIds (learnings st)
                                     (Engine.patterns (learningEngine st)) in
    let st :=
      set_learningEngine
        (Engine.mk held (Engine.learningHistory (learningEngine st))) st in
    match KnowledgeTransfer.integratePatterns write_fails patterns transfer with
    | (Throw e, transfer) => (Throw e, st, transfer, generatorPatterns)
    | (Ok _, transfer) =>
        let generatorPatterns :=
          SolutionGenerator.updatePatterns patterns generatorPatterns in
        (Ok tt, did (emit "learning:completed" "") st, transfer, generatorPatterns)
    end.

  (** What the environment supplies to one call of [shareKnowledge]. *)
Record Sharing : Type := mkSharing {
    share_toString : float -> string;
    share_fresh : nat -> string;
    share_created : Date;
    share_network : KnowledgeTransfer.Network
  }.

Definition shareKnowledge
      (rt : JS.Runtime) (env : Sharing) (targetSystem : string)
      (st : state) (transfer : KnowledgeTransfer.state)
      : result unit * state * KnowledgeTransfer.state
        * list KnowledgeTransfer.Delivery :=
    let '(knowledgePackage, transfer) :=
      KnowledgeTransfer.createPackage
        rt (share_toString env) (share_fresh env) (share_created env)
        (KnowledgeTransfer.mkParams
           "self-evolution-system" targetSystem
           (JS.values (challenges st))
           (List.concat (JS.values (solutions st)))
           (learnings st))
        transfer in
    match KnowledgeTransfer.sendPackage (share_network env) targetSystem
                                        knowledgePackage transfer with
    | (Throw e, deliveries) => (Throw e, st, transfer, deliveries)
    | (Ok _, deliveries) =>
        (Ok tt, did (emit "knowledge:shared" targetSystem) st, transfer, deliveries)
    end.

End SelfEvolutionSystem.

(* ================================================================== *)
(** ** Vocabulary of the specification and sample data *)
(* ================================================================== *)

Module SES := SelfEvolutionSystem.
Module LE := LearningEngine.
Module KT := KnowledgeTransfer.
Module SG := SolutionGenerator.

(** The specification-level floats that are not below zero, and those
    whose sign bit is clear. *)
Definition sf_nonneg (f : spec_float) : Prop :=
  match f with
  | S754_zero _ => True
  | S754_infinity s | S754_finite s _ _ => s = false
  | S754_nan => False
  end.

Definition sf_plus (f : spec_float) : Prop :=
  match f with
  | S754_zero s | S754_infinity s | S754_finite s _ _ => s = false
  | S754_nan => False
  end.

Section SpecWords.

Local Open Scope float_scope.

  (** The weight of an impact tier. *)
Definition impactWeight (i : RiskImpact) : float :=
    match i with
    | impact_high => 1.0
    | impact_medium => 0.5
    | impact_low => 0.2
    end.

  (** The sum over the risks of probability times impact weight. *)
Definition weightedRisk (risks : list Risk.t) : float :=
    fold_left (fun acc r => acc + Risk.probability r * impactWeight (Risk.impact r))
              risks 0.

  (** The automatic-execution test, condition by condition. *)
Definition clears_gate
      (st : SES.state) (challenge : SystemChallenge.t) (top : Solution.t) : Prop :=
    JS.gt (Solution.confidence top) 0.8 = true
    /\ SystemChallenge.severity challenge <> critical
    /\ (forall r, In r (Solution.risks top) -> Risk.impact r <> impact_high)
    /\ SES.isRunning st = true.

(** A stored challenge that a new report duplicates: the type the report
    names, not resolved, description similarity greater than 0.8. *)
Definition duplicate_of
    (rt : JS.Runtime)
    (challenge : PartialChallenge.t) (existing : SystemChallenge.t) : Prop :=
  PartialChallenge.type challenge = Some (SystemChallenge.type existing)
  /\ SystemChallenge.status existing <> resolved
  /\ JS.gt (SES.calculateSimilarity rt
              (SystemChallenge.description existing)
              (SES.or_empty (PartialChallenge.description challenge)))
           0.8 = true.

(** The value an outcome counts for: 1 for success, 0 otherwise. *)
Definition outcomeValue (o : Outcome) : float :=
  match o with success => 1 | _ => 0 end.

(** The mean of [count] observations of mean [rate] and one more
    observation, where a partial outcome is not an observation. *)
Definition runningMean (o : Outcome) (rate count : float) : float :=
  match o with
  | success => (rate * count + 1) / (count + 1)
  | failure => (rate * count) / (count + 1)
  | partial => rate
  end.

(** Two patterns that differ at most in [successRate] and [usageCount]. *)
Definition same_rule (p q : Pattern.t) : Prop :=
  Pattern.id q = Pattern.id p
  /\ Pattern.name q = Pattern.name p
  /\ Pattern.description q = Pattern.description p
  /\ Pattern.trigger q = Pattern.trigger p
  /\ Pattern.solution q = Pattern.solution p.

End SpecWords.

(** A run that ends with [Ok] or with a rejection passed on from a
    collaborator: it raises no [Error] of this code. *)
Definition no_error (r : result unit) : Prop :=
  forall m, r <> Throw (Error m).

(** The entry a successful write adds to the files. *)
Definition written (dir id : string) (doc : KT.Document) : string * KT.Document :=
  ((dir ++ "/" ++ id ++ ".json")%string, doc).

Definition with_files (st : KT.state) (more : list (string * KT.Document)) : KT.state :=
  KT.mk (KT.transferHistory st) (KT.knowledgeEndpoints st)
        (KT.compatibilityVersion st) (KT.files st ++ more).

(** The files a package adds when every write succeeds. *)
Definition integrated (now : Date) (knowledgePackage : KnowledgeTransferPackage.t)
  : list (string * KT.Document) :=
  map (fun p => written "knowledge-base/patterns" (Pattern.id p) (KT.DocPattern p))
      (KnowledgeTransferPackage.patterns knowledgePackage)
  ++ map (fun s => written "knowledge-base/solutions"
                     (Solution.id (KT.adaptSolutionToLocal s))
                     (KT.DocSolution (KT.adaptSolutionToLocal s)))
         (KnowledgeTransferPackage.solutions knowledgePackage)
  ++ map (fun l => written "knowledge-base/learnings" (Learning.id l)
                     (KT.DocLearning l
                        (Some (KT.mkMeta true now
                                 (JS.first_piece "_" (Learning.id l))))))
         (KnowledgeTransferPackage.learnings knowledgePackage).

(** Two learnings that differ at most in [affectedComponents]. *)
Definition same_record (l l' : Learning.t) : Prop :=
  Learning.id l' = Learning.id l
  /\ Learning.challengeId l' = Learning.challengeId l
  /\ Learning.solutionId l' = Learning.solutionId l
  /\ Learning.outcome l' = Learning.outcome l
  /\ Learning.metrics l' = Learning.metrics l
  /\ Learning.lessons l' = Learning.lessons l
  /\ Learning.timestamp l' = Learning.timestamp l.

(** The learning record as [executeSolution] creates it, before the
    [try]. *)
Definition started (env : SES.Run) (challengeId solutionId : string) : Learning.t :=
  Learning.mk (SES.learningId env) challengeId solutionId failure [] []
              (SES.timestamp env) [].

(** Where the [try] block of [executeSolution] raises, if it does: the
    exception and the learning record at that point. *)
Definition raised (env : SES.Run) (solution : Solution.t) (learning : Learning.t)
  : option (Exn * Learning.t) :=
  match SES.beforeMetrics env with
  | Throw e => Some (e, learning)
  | Ok _ =>
      match SES.run_steps env (Implementation.steps (Solution.implementation solution))
                          learning with
      | (Throw e, l) => Some (e, l)
      | (Ok _, l) =>
          match SES.afterMetrics env with
          | Throw e => Some (e, l)
          | Ok _ => None
          end
      end
  end.

(** The number of leading documents whose paths can all be written. *)
Fixpoint writable_prefix (write_fails : string -> option string)
         (docs : list (string * KT.Document)) : nat :=
  match docs with
  | [] => 0
  | (path, _) :: rest =>
      match write_fails path with
      | None => S (writable_prefix write_fails rest)
      | Some _ => 0
      end
  end.

(** The result of writing documents in order until a write fails. *)
Fixpoint write_result (write_fails : string -> option string)
         (docs : list (string * KT.Document)) : result unit :=
  match docs with
  | [] => Ok tt
  | (path, _) :: rest =>
      match write_fails path with
      | None => write_result write_fails rest
      | Some reason => Throw (Rejected reason)
      end
  end.

(** The calls that change a controller's fields.  [analysis_resumes] is
    an analysis going on after the call of the generator it waited for. *)
Inductive Call : Type :=
| recordChallenge_call (f : SES.Fresh) (challenge : PartialChallenge.t)
| analysis_resumes
    (generate : SystemChallenge.t -> list Solution.t -> result (list Solution.t))
    (challengeId : string)
| executeSolution_call (env : SES.Run) (challengeId solutionId : string)
| processExecutionQueue_call (env : SES.Run)
| analyzeMetrics_call (env : SES.Sampling) (metrics : SystemMetrics.t)
| performSelfDiagnosis_call (env : SES.Diagnosis)
| stop_call.

Definition after (rt : JS.Runtime) (c : Call) (st : SES.state) : SES.state :=
  match c with
  | recordChallenge_call f challenge => SES.report rt f challenge st
  | analysis_resumes generate challengeId =>
      SES.analyzeChallenge_resume generate challengeId st
  | executeSolution_call env challengeId solutionId =>
      snd (SES.executeSolution env challengeId solutionId st)
  | processExecutionQueue_call env => snd (SES.processExecutionQueue env st)
  | analyzeMetrics_call env metrics => SES.analyzeMetrics rt env metrics st
  | performSelfDiagnosis_call env => SES.performSelfDiagnosis rt env st
  | stop_call => SES.stop st
  end.

(** The controller after a sequence of calls. *)
Definition after_all (rt : JS.Runtime) (calls : list Call) (st : SES.state)
  : SES.state :=
  fold_left (fun st c => after rt c st) calls st.

(** The controller after the analyses of [resumed] went on, each given
    as what the generator answers and the id of its challenge. *)
Definition resumed_all
    (resumed : list ((SystemChallenge.t -> list Solution.t -> result (list Solution.t))
                     * string))
    (st : SES.state) : SES.state :=
  fold_left (fun st '(generate, challengeId) =>
               SES.analyzeChallenge_resume generate challengeId st)
            resumed st.

(** No stored challenge is in status [pending]. *)
Definition no_pending (st : SES.state) : Prop :=
  forall key c, In (key, c) (SES.challenges st) ->
                SystemChallenge.status c <> pending.

(** ASCII text without white space. *)
Fixpoint no_space (s : string) : bool :=
  match s with
  | EmptyString => true
  | String c r => negb (JS.ascii_space c) && no_space r
  end.

(** Whether [c] occurs in [w]. *)
Fixpoint has_char (c : ascii) (w : string) : bool :=
  match w with
  | EmptyString => false
  | String d r => Ascii.eqb c d || has_char c r
  end.

(** Of the five thresholds of [analyzeMetrics], only the CPU's is
    exceeded. *)
Definition cpu_only (metrics : SystemMetrics.t) : Prop :=
  JS.gt (SystemMetrics.cpu metrics) 80 = true
  /\ JS.gt (SystemMetrics.memory metrics) 85 = false
  /\ JS.gt (SystemMetrics.errorRate metrics) 5 = false
  /\ JS.gt (SystemMetrics.responseTime metrics) 1000 = false
  /\ JS.gt (SystemMetrics.videoProcessingQueue metrics) 50 = false.

(** The description [analyzeMetrics] gives to a CPU reading. *)
Definition cpu_description (env : SES.Sampling) (metrics : SystemMetrics.t) : string :=
  ("High CPU usage detected: "
   ++ SES.Number_toString env (SystemMetrics.cpu metrics) ++ "%")%string.

(** What [analyzeMetrics] passes to [recordChallenge] for a CPU reading. *)
Definition cpu_finding (env : SES.Sampling) (metrics : SystemMetrics.t)
  : PartialChallenge.t :=
  SES.finding performance
    (if JS.gt (SystemMetrics.cpu metrics) 90 then critical else high)
    (cpu_description env metrics)
    [ ("metrics"%string, SES.metrics_value (SES.metricsRef env) metrics);
      ("component"%string, JS.JStr "system") ].

(** The context of the challenge has no usable [metric] property. *)
Definition no_metric_name (c : SystemChallenge.t) : Prop :=
  JS.truthy (JS.get (SystemChallenge.context c) "metric") = false.

(** No stored performance challenge is open. *)
Definition no_open_performance (st : SES.state) : Prop :=
  forall key c, In (key, c) (SES.challenges st) ->
                SystemChallenge.type c = performance ->
                SystemChallenge.status c = resolved.

(** What holds of the map [unique] of [deduplicateAndRank] after the
    solutions [seen]: every entry is a solution seen, stored under its own
    key, and no solution seen has a confidence above that of the entry for
    its key. *)
Definition ranks (md5 : string -> string)
           (unique : list (string * Solution.t)) (seen : list Solution.t) : Prop :=
  NoDup (JS.keys unique)
  /\ (forall k v, In (k, v) unique ->
                  k = SG.getSolutionKey md5 v /\ In v seen)
  /\ (forall s, In s seen ->
                exists kept,
                  JS.get unique (SG.getSolutionKey md5 s) = Some kept
                  /\ JS.gt (Solution.confidence s) (Solution.confidence kept) = false).

Module Sample.

Local Open Scope float_scope.

Definition lowRisk : Risk.t :=
    Risk.mk "session handling gets harder" 0.2 impact_low "use a session store".

Definition deploy : ExecutionStep.t :=
    ExecutionStep.mk 1 "deploy" "load-balancer"
      [("algorithm"%string, JS.JStr "least-connections")]
      [ValidationRule.mk v_health_check (JS.JStr "healthy") equals].

Definition revert : ExecutionStep.t :=
    ExecutionStep.mk 1 "revert" "simple-balancing" [] [].

  (** A candidate with one low-impact risk and the given confidence. *)
Definition candidate (confidence : float) : Solution.t :=
    Solution.mk "solution_1" "challenge_1" "Load balancing"
      "Intelligent load distribution"
      (Implementation.mk infrastructure [deploy] [revert] 15)
      confidence
      (Impact.mk 30 40 25 (-5) 10)
      ["multiple-instances"%string]
      [lowRisk]
      0%Z
      None.

Definition challengeOf (severity : Severity) (status : ChallengeStatus)
    : SystemChallenge.t :=
    SystemChallenge.mk "challenge_1" performance severity
      "High CPU usage detected: 92%" 0%Z
      [("cpu"%string, JS.JNum 92); ("component"%string, JS.JStr "system")]
      (OwnArray []) status [] monitor.

  (** An earlier successful run of the candidate. *)
Definition earlier : Learning.t :=
    Learning.mk "learning_0" "challenge_0" "solution_1" success
      [("cpuImprovement"%string, 80)] ["Successfully resolved"%string] 0%Z
      ["load-balancer"%string].

Definition system (running : bool) (severity : Severity) (status : ChallengeStatus)
    : SES.state :=
    SES.mk [("challenge_1"%string, challengeOf severity status)]
           [] [earlier] running [] Engine.initial [].

  (** What a monitor handler passes to [recordChallenge]. *)
Definition report (type : ChallengeType) (description : string)
    : PartialChallenge.t :=
    PartialChallenge.mk None (Some type) (Some high) (Some description) None
      (Some [("component"%string, JS.JStr "system")]) None None None None.

  (** A report that names no type (it is stored as an [error]). *)
Definition untyped (description : string) : PartialChallenge.t :=
    PartialChallenge.mk None None None (Some description) None None None None None None.

Definition generate (c : SystemChallenge.t) (historical : list Solution.t)
    : result (list Solution.t) :=
    Ok [candidate 0.86].

  (** Lookups backed by the records above. *)
Definition knownChallenge (id : string) : option SystemChallenge.t :=
    if String.eqb id "challenge_1" then Some (challengeOf high resolved) else None.

Definition knownSolution (id : string) : option Solution.t :=
    if String.eqb id "solution_1" then Some (candidate 0.86) else None.

  (** A successful run on [challenge_1] that freed 80% of the CPU. *)
Definition success_run (id : string) : Learning.t :=
    Learning.mk id "challenge_1" "solution_1" success
      [("cpuImprovement"%string, 80)]
      ["Successfully resolved: High CPU usage detected: 92%"%string] 0%Z
      ["load-balancer"%string].

Definition two_runs : list Learning.t :=
    [success_run "learning_1"; success_run "learning_2"].

Definition three_runs : list Learning.t :=
    [success_run "learning_1"; success_run "learning_2"; success_run "learning_3"].

Definition patternIds (k : nat) : string := "pattern_1".

  (** A package from a peer, stamped with the given version. *)
Definition package (version : string) : KnowledgeTransferPackage.t :=
    KnowledgeTransferPackage.mk "peer-system" "self-evolution-system"
      [challengeOf high resolved] [candidate 0.86] [success_run "peer_learning_1"]
      (JS.values Engine.basePatterns) 0%Z version.

Definition disk_ok (path : string) : option string := None.

  (** A disk on which the solutions directory cannot be written. *)
Definition no_solutions_dir (path : string) : option string :=
    if String.prefix "knowledge-base/solutions/" path
    then Some "ENOENT: no such file or directory"%string else None.

Definition metrics (cpu : float) : SystemMetrics.t :=
    SystemMetrics.mk cpu 70 40 20 2 800 120 10.

  (** A stored, analysed challenge with its ranked candidate. *)
Definition ready_system (severity : Severity) : SES.state :=
    SES.mk [("challenge_1"%string,
             SystemChallenge.set_proposedSolutions (SolutionsOf "challenge_1")
               (challengeOf severity ready))]
           [("challenge_1"%string, [candidate 0.86])]
           [] true [] Engine.initial [].

  (** A run in which nothing fails and the CPU load goes from 92 to 60. *)
Definition smooth_run : SES.Run :=
    SES.mkRun "learning_1" 5%Z 1200 (Ok (metrics 92)) (Ok (metrics 60))
              (fun _ _ => None) None patternIds.

  (** A run whose first step raises, and whose rollback raises too. *)
Definition broken_run : SES.Run :=
    SES.mkRun "learning_1" 5%Z 1200 (Ok (metrics 92)) (Ok (metrics 60))
              (fun _ _ => Some (Rejected "connection refused")) None patternIds.

  (** The template the generator stores under [performance:cpu]. *)
Definition cpuTemplate : SolutionGenerator.Template :=
    SolutionGenerator.mkTemplate "CPU使用率の最適化"
      [ SolutionGenerator.mkStep "analyze" "process-list" [("sortBy", JS.JStr "cpu")];
        SolutionGenerator.mkStep "optimize" "worker-pool" [("size", JS.JStr "auto")];
        SolutionGenerator.mkStep "scale" "compute-resources"
          [("type", JS.JStr "horizontal")] ]%string.

Definition fresh (id : string) : SES.Fresh := SES.mkFresh id 9%Z 1.

  (** [`${x}`] at the readings used here. *)
Definition show (x : float) : string :=
    if x =? 92 then "92"%string
    else if x =? 93 then "93"%string
    else if x =? 96 then "96"%string
    else "0"%string.

Definition sampling (id : string) : SES.Sampling :=
    SES.mkSampling show 2 (fresh id) (fresh "challenge_m") (fresh "challenge_e")
                   (fresh "challenge_r") (fresh "challenge_q").

Definition diagnosis (id : string) : SES.Diagnosis :=
    SES.mkDiagnosis 3600 JS.JNull 3 4 (fresh id) (fresh "challenge_p").

End Sample.

(* ================================================================== *)
(** * Properties *)
(* ================================================================== *)

(** ** Numbers *)

Section FloatFacts.

Local Open Scope float_scope.

Lemma add_nan_r : forall x : float, x + nan = nan.
Proof.
    intro x. apply Prim2SF_inj. rewrite add_spec.
    change (Prim2SF nan) with S754_nan.
    unfold SF64add, SFadd. destruct (Prim2SF x); reflexivity.
Qed.

Lemma mul_comm : forall x y : float, x * y = y * x.
Proof.
    intros x y. apply Prim2SF_inj. rewrite !mul_spec.
    unfold SF64mul, SFmul.
    destruct (Prim2SF x) as [sx|sx| |sx mx ex], (Prim2SF y) as [sy|sy| |sy my ey];
      try reflexivity; try (rewrite xorb_comm; reflexivity).
    rewrite xorb_comm, Pos.mul_comm, Z.add_comm. reflexivity.
Qed.

Lemma gt_10_gt_0 : forall v : float, JS.gt v 10 = true -> JS.gt v 0 = true.
Proof.
    unfold JS.gt. intros v. rewrite !ltb_spec.
    change (Prim2SF 10) with (S754_finite false 5629499534213120 (-49)).
    change (Prim2SF 0) with (S754_zero false).
    unfold SFltb, SFcompare.
    destruct (Prim2SF v) as [s|s| |s m e]; try discriminate.
    - destruct s; [discriminate | reflexivity].
    - destruct s; [discriminate | reflexivity].
Qed.

End FloatFacts.

Section MinFacts.

Local Open Scope float_scope.

Lemma not_nan_spec : forall x : float, is_nan x = false -> Prim2SF x <> S754_nan.
Proof.
    unfold is_nan. intros x H E. rewrite eqb_spec, E in H. discriminate.
Qed.

Lemma ltb_leb : forall x y : float, (x <? y) = true -> (x <=? y) = true.
Proof.
    intros x y. rewrite ltb_spec, leb_spec. unfold SFltb, SFleb.
    destruct (SFcompare (Prim2SF x) (Prim2SF y)) as [[ | | ]|]; congruence.
Qed.

Lemma not_above_one : forall x : float,
      is_nan x = false -> (1 <? x) = false -> (x <=? 1) = true.
Proof.
    intros x Hn. apply not_nan_spec in Hn. rewrite ltb_spec, leb_spec.
    change (Prim2SF 1) with (S754_finite false 4503599627370496 (-52)).
    generalize 4503599627370496%positive (-52)%Z. intros m1 e1.
    unfold SFltb, SFleb, SFcompare.
    destruct (Prim2SF x) as [s|s| |s m e].
    - reflexivity.
    - destruct s; [reflexivity | discriminate].
    - contradiction.
    - destruct s; [reflexivity|].
      rewrite (Z.compare_antisym e e1).
      destruct (e ?= e1)%Z; cbn [CompOpp]; try reflexivity; try discriminate.
      rewrite <- (Pos.compare_cont_antisym _ _ Eq).
      destruct (Pos.compare_cont Eq m m1); cbn [CompOpp];
        try reflexivity; discriminate.
Qed.

  (** [Math.min(x, 1)] is NaN only for NaN, and otherwise at most 1. *)
Lemma Math_min_one_le : forall x : float,
      is_nan x = false -> (JS.Math_min x 1 <=? 1) = true.
Proof.
    intros x Hn. unfold JS.Math_min. rewrite Hn.
    change (is_nan 1) with false. cbn [orb].
    destruct (x <? 1) eqn:Hlt.
    - apply ltb_leb; exact Hlt.
    - destruct (1 <? x) eqn:Hgt; [reflexivity|].
      destruct (get_sign x); [|reflexivity].
      apply not_above_one; assumption.
Qed.

Lemma Math_min_one_ge : forall x : float,
      (0 <=? x) = true -> (0 <=? JS.Math_min x 1) = true.
Proof.
    intros x H. unfold JS.Math_min.
    assert (Hn : is_nan x = false).
    { unfold is_nan. rewrite eqb_spec. rewrite leb_spec in H.
      unfold SFleb, SFeqb in *.
      destruct (Prim2SF x) as [s|s| |s m e]; simpl in *; try congruence.
      - destruct s; reflexivity.
      - destruct s; simpl; rewrite Z.compare_refl, ?Pos.compare_cont_refl; reflexivity. }
    rewrite Hn. change (is_nan 1) with false. cbn [orb].
    destruct (x <? 1); [assumption|].
    destruct (1 <? x); [reflexivity|].
    destruct (get_sign x); [assumption|reflexivity].
Qed.

Lemma above_one_nonneg : forall x : float, (1 <? x) = true -> (0 <=? x) = true.
Proof.
    intros x. rewrite ltb_spec, leb_spec.
    change (Prim2SF 0) with (S754_zero false).
    change (Prim2SF 1) with (S754_finite false 4503599627370496 (-52)).
    generalize 4503599627370496%positive (-52)%Z. intros m1 e1.
    unfold SFltb, SFleb, SFcompare.
    destruct (Prim2SF x) as [s|s| |s m e]; try discriminate.
    - destruct s; [discriminate | reflexivity].
    - destruct s; [discriminate | reflexivity].
Qed.

Lemma not_below_one_nonneg : forall x : float,
      is_nan x = false -> (x <? 1) = false -> (0 <=? x) = true.
Proof.
    intros x Hn. apply not_nan_spec in Hn. rewrite ltb_spec, leb_spec.
    change (Prim2SF 0) with (S754_zero false).
    change (Prim2SF 1) with (S754_finite false 4503599627370496 (-52)).
    generalize 4503599627370496%positive (-52)%Z. intros m1 e1.
    unfold SFltb, SFleb, SFcompare.
    destruct (Prim2SF x) as [s|s| |s m e].
    - discriminate.
    - destruct s; [discriminate | reflexivity].
    - contradiction.
    - destruct s; [discriminate | reflexivity].
Qed.

Lemma below_one_not_above : forall x : float,
      (x <? 1) = true -> (1 <? x) = false.
Proof.
    intros x. rewrite !ltb_spec.
    change (Prim2SF 1) with (S754_finite false 4503599627370496 (-52)).
    generalize 4503599627370496%positive (-52)%Z. intros m1 e1.
    unfold SFltb, SFcompare.
    destruct (Prim2SF x) as [s|s| |s m e]; intro H.
    - reflexivity.
    - destruct s; [reflexivity | discriminate H].
    - reflexivity.
    - destruct s; [reflexivity|].
      rewrite (Z.compare_antisym e e1).
      destruct (e ?= e1)%Z; cbn [CompOpp]; try reflexivity; try discriminate H.
      rewrite <- (Pos.compare_cont_antisym _ _ Eq).
      destruct (Pos.compare_cont Eq m m1); cbn [CompOpp];
        try reflexivity; discriminate H.
Qed.

Lemma negative_is_below_one : forall x : float,
      (x <? 0) = true -> is_nan x = false /\ (x <? 1) = true.
Proof.
    intros x. unfold is_nan. rewrite !ltb_spec, eqb_spec.
    change (Prim2SF 0) with (S754_zero false).
    change (Prim2SF 1) with (S754_finite false 4503599627370496 (-52)).
    generalize 4503599627370496%positive (-52)%Z. intros m1 e1.
    unfold SFltb, SFeqb, SFcompare.
    destruct (Prim2SF x) as [s|s| |s m e]; try discriminate.
    - destruct s; [split; reflexivity | discriminate].
    - destruct s; [|discriminate]. intros _.
      rewrite Z.compare_refl, Pos.compare_cont_refl. split; reflexivity.
Qed.

Lemma nonneg_not_nan : forall x : float, (0 <=? x) = true -> is_nan x = false.
Proof.
    intros x H. unfold is_nan. rewrite eqb_spec. rewrite leb_spec in H.
    unfold SFleb, SFeqb in *.
    destruct (Prim2SF x) as [s|s| |s m e]; simpl in *; try congruence.
    - destruct s; reflexivity.
    - destruct s; simpl; rewrite Z.compare_refl, ?Pos.compare_cont_refl; reflexivity.
Qed.

  (** What is at least 0 after [Math.min(x, 1)] was so before. *)
Lemma Math_min_nonneg_inv : forall x : float,
      (0 <=? JS.Math_min x 1) = true -> (0 <=? x) = true.
Proof.
    intros x. unfold JS.Math_min. destruct (is_nan x) eqn:Hn; [discriminate|].
    change (is_nan 1) with false. cbn [orb].
    destruct (x <? 1) eqn:Hlt; [auto|].
    destruct (1 <? x) eqn:Hgt.
    - intros _. apply above_one_nonneg, Hgt.
    - destruct (get_sign x); [auto|]. intros _.
      apply not_below_one_nonneg; assumption.
Qed.

  (** [Math.min(x, 1)] is never above 1, is NaN exactly for NaN, and
      passes a negative [x] through. *)
Lemma Math_min_one_not_above : forall x : float, (1 <? JS.Math_min x 1) = false.
Proof.
    intro x. unfold JS.Math_min. destruct (is_nan x); [reflexivity|].
    change (is_nan 1) with false. cbn [orb].
    destruct (x <? 1) eqn:Hlt; [apply below_one_not_above, Hlt|].
    destruct (1 <? x) eqn:Hgt; [reflexivity|].
    destruct (get_sign x); [exact Hgt|reflexivity].
Qed.

Lemma Math_min_one_nan : forall x : float, is_nan (JS.Math_min x 1) = is_nan x.
Proof.
    intro x. unfold JS.Math_min. destruct (is_nan x) eqn:Hn; [reflexivity|].
    change (is_nan 1) with false. cbn [orb].
    destruct (x <? 1); [exact Hn|].
    destruct (1 <? x); [reflexivity|].
    destruct (get_sign x); [exact Hn|reflexivity].
Qed.

Lemma Math_min_one_negative : forall x : float,
      (x <? 0) = true -> JS.Math_min x 1 = x.
Proof.
    intros x H. destruct (negative_is_below_one H) as [Hn Hlt].
    unfold JS.Math_min. rewrite Hn. change (is_nan 1) with false. cbn [orb].
    rewrite Hlt. reflexivity.
Qed.

End MinFacts.

(** ** Lists and maps *)

Section ListFacts.

Variable A : Type.

Lemma sort_insert_perm : forall (cmp : A -> A -> float) (x : A) (l : list A),
      Permutation (sort_insert cmp x l) (x :: l).
Proof.
    intros cmp x l. induction l as [|y r IH]; cbn [sort_insert].
    - apply Permutation_refl.
    - destruct (JS.gt (cmp y x) 0).
      + apply Permutation_refl.
      + eapply Permutation_trans; [apply perm_skip, IH | apply perm_swap].
Qed.

Lemma sort_perm : forall (cmp : A -> A -> float) (l : list A),
      Permutation (sort cmp l) l.
Proof.
    intros cmp l. unfold sort.
    assert (H : forall acc, Permutation (fold_left (fun acc x => sort_insert cmp x acc) l acc)
                                        (acc ++ l)).
    { induction l as [|x r IH]; intro acc; cbn [fold_left].
      - rewrite app_nil_r. apply Permutation_refl.
      - eapply Permutation_trans; [apply IH|].
        eapply Permutation_trans;
          [apply Permutation_app_tail, sort_insert_perm|].
        cbn [app]. apply Permutation_middle. }
    apply (H []).
Qed.

Lemma append_one_neq : forall (l : list A) (x : A), l ++ [x] <> l.
Proof.
    intros l x H. apply (f_equal (@List.length A)) in H.
    rewrite length_app in H. cbn in H. lia.
Qed.

End ListFacts.

(** ** The controller's field updates *)

Section Frames.

Variables (key : string) (f : SystemChallenge.t -> SystemChallenge.t) (st : SES.state).

Lemma update_challenge_queue :
    SES.executionQueue (SES.update_challenge key f st) = SES.executionQueue st.
Proof. unfold SES.update_challenge. destruct (JS.get _ _); reflexivity. Qed.

Lemma update_challenge_running :
    SES.isRunning (SES.update_challenge key f st) = SES.isRunning st.
Proof. unfold SES.update_challenge. destruct (JS.get _ _); reflexivity. Qed.

Lemma update_challenge_learnings :
    SES.learnings (SES.update_challenge key f st) = SES.learnings st.
Proof. unfold SES.update_challenge. destruct (JS.get _ _); reflexivity. Qed.

Lemma update_challenge_effects :
    SES.effects (SES.update_challenge key f st) = SES.effects st.
Proof. unfold SES.update_challenge. destruct (JS.get _ _); reflexivity. Qed.

Lemma update_challenge_solutions :
    SES.solutions (SES.update_challenge key f st) = SES.solutions st.
Proof. unfold SES.update_challenge. destruct (JS.get _ _); reflexivity. Qed.

Lemma update_challenge_engine :
    SES.learningEngine (SES.update_challenge key f st) = SES.learningEngine st.
Proof. unfold SES.update_challenge. destruct (JS.get _ _); reflexivity. Qed.

End Frames.

Lemma analysis_failed_queue : forall key st,
    SES.executionQueue (SES.analysis_failed key st) = SES.executionQueue st.
Proof. intros. unfold SES.analysis_failed. cbn. apply update_challenge_queue. Qed.

(** ** Scoring *)

Section Scoring.

Local Open Scope float_scope.

Lemma calculateRiskScore_eq : forall s : Solution.t,
      SES.calculateRiskScore s =
      JS.Math_min (weightedRisk (Solution.risks s)
                   / JS.num_of_nat (List.length (Solution.risks s))) 1.
Proof. reflexivity. Qed.

Lemma evaluate_ignores_seed : forall engine history s seeded,
      Solution.confidence (SES.evaluate engine history (Solution.set_confidence seeded s))
      = Solution.confidence (SES.evaluate engine history s).
Proof. reflexivity. Qed.

Lemma no_risk_score : forall s : Solution.t,
      Solution.risks s = [] -> SES.calculateRiskScore s = nan.
Proof.
    intros s H. unfold SES.calculateRiskScore. rewrite H. reflexivity.
Qed.

Lemma no_risk_confidence : forall engine history (s : Solution.t),
      Solution.risks s = [] ->
      Solution.confidence (SES.evaluate engine history s) = nan.
Proof.
    intros engine history s H. unfold SES.evaluate. cbn [Solution.confidence Solution.set_confidence].
    rewrite (no_risk_score s H).
    change ((1 - nan) * 0.3) with nan. apply add_nan_r.
Qed.

End Scoring.

(** ** The automatic-execution gate *)

Section MapFacts.

Variable V : Type.

Lemma get_set_same : forall (m : list (string * V)) k v,
      JS.get (JS.set m k v) k = Some v.
Proof.
    intros m k v. induction m as [|[k' v'] r IH]; cbn [JS.set JS.get].
    - rewrite String.eqb_refl. reflexivity.
    - destruct (String.eqb k' k) eqn:E; cbn [JS.get]; rewrite E; [reflexivity|exact IH].
Qed.

Lemma get_set_other : forall (m : list (string * V)) k k' v,
      k <> k' -> JS.get (JS.set m k v) k' = JS.get m k'.
Proof.
    intros m k k' v Hne. induction m as [|[k0 v0] r IH]; cbn [JS.set JS.get].
    - destruct (String.eqb k k') eqn:E; [apply String.eqb_eq in E; contradiction|reflexivity].
    - destruct (String.eqb k0 k) eqn:E; cbn [JS.get].
      + apply String.eqb_eq in E. subst k0.
        destruct (String.eqb k k') eqn:E'; [apply String.eqb_eq in E'; contradiction|reflexivity].
      + destruct (String.eqb k0 k'); [reflexivity|exact IH].
Qed.

Lemma keys_set_present : forall (m : list (string * V)) k v v0,
      JS.get m k = Some v0 -> JS.keys (JS.set m k v) = JS.keys m.
Proof.
    intros m k v v0. induction m as [|[k' v'] r IH]; cbn [JS.set JS.get JS.keys map].
    - discriminate.
    - destruct (String.eqb k' k) eqn:E; intro H; cbn [map fst].
      + reflexivity.
      + f_equal. apply IH. exact H.
Qed.

Lemma set_absent : forall (m : list (string * V)) k v,
      JS.get m k = None -> JS.set m k v = m ++ [(k, v)].
Proof.
    intros m k v. induction m as [|[k' v'] r IH]; cbn [JS.set JS.get app].
    - reflexivity.
    - destruct (String.eqb k' k); [discriminate|]. intro H. f_equal. apply IH, H.
Qed.

End MapFacts.

Lemma Severity_eqb_neq : forall s t, Severity_eqb s t = false <-> s <> t.
Proof. intros [] []; cbn; split; congruence. Qed.

Lemma RiskImpact_eqb_neq : forall s t, RiskImpact_eqb s t = false <-> s <> t.
Proof. intros [] []; cbn; split; congruence. Qed.

Lemma shouldAutoExecute_spec : forall st challenge solution,
    SES.shouldAutoExecute st challenge solution = true
    <-> clears_gate st challenge solution.
Proof.
  intros st challenge solution. unfold SES.shouldAutoExecute, clears_gate.
  rewrite !andb_true_iff, forallb_forall, negb_true_iff, Severity_eqb_neq.
  split.
  - intros [[[H1 H2] H3] H4]. repeat split; try assumption.
    intros r Hr. apply RiskImpact_eqb_neq, negb_true_iff, H3, Hr.
  - intros (H1 & H2 & H3 & H4). repeat split; try assumption.
    intros r Hr. apply negb_true_iff, RiskImpact_eqb_neq, H3, Hr.
Qed.

Lemma shouldAutoExecute_frame : forall st st' challenge solution,
    SES.isRunning st' = SES.isRunning st ->
    SES.shouldAutoExecute st' challenge solution
    = SES.shouldAutoExecute st challenge solution.
Proof. intros st st' c s H. unfold SES.shouldAutoExecute. rewrite H. reflexivity. Qed.

Lemma start_get : forall challengeId st challenge,
    JS.get (SES.challenges st) challengeId = Some challenge ->
    JS.get (SES.challenges (SES.analyzeChallenge_start challengeId st)) challengeId
    = Some (SystemChallenge.set_status analyzing challenge).
Proof.
  intros id st c H. unfold SES.analyzeChallenge_start, SES.update_challenge.
  rewrite H. cbn. apply get_set_same.
Qed.

Lemma start_frame : forall challengeId st,
    let st' := SES.analyzeChallenge_start challengeId st in
    SES.executionQueue st' = SES.executionQueue st
    /\ SES.isRunning st' = SES.isRunning st
    /\ SES.learnings st' = SES.learnings st
    /\ SES.learningEngine st' = SES.learningEngine st.
Proof.
  intros id st. unfold SES.analyzeChallenge_start, SES.update_challenge.
  destruct (JS.get (SES.challenges st) id); repeat split.
Qed.

Lemma resume_queue : forall generate challengeId st challenge generated,
    JS.get (SES.challenges st) challengeId = Some challenge ->
    generate challenge
             (LearningEngine.findRelevantSolutions challenge (SES.learnings st))
    = Ok generated ->
    SES.executionQueue (SES.analyzeChallenge_resume generate challengeId st)
    = match SES.evaluateSolutions (SES.learningEngine st) (SES.learnings st)
                                  challenge generated with
      | [] => SES.executionQueue st
      | top :: _ =>
          if SES.shouldAutoExecute st challenge top
          then SES.executionQueue st ++ [challengeId]
          else SES.executionQueue st
      end.
Proof.
  intros generate id st c generated Hget Hgen.
  unfold SES.analyzeChallenge_resume. rewrite Hget, Hgen.
  destruct (SES.evaluateSolutions _ _ c generated) as [|top rest].
  - rewrite analysis_failed_queue. cbn.
    rewrite !update_challenge_queue. cbn. apply update_challenge_queue.
  - match goal with
    | |- context [SES.shouldAutoExecute ?s c top] =>
        rewrite (shouldAutoExecute_frame st s c top)
    end.
    + destruct (SES.shouldAutoExecute st c top); cbn;
        rewrite !update_challenge_queue; cbn; rewrite update_challenge_queue;
        reflexivity.
    + cbn. rewrite update_challenge_running. cbn. apply update_challenge_running.
Qed.

(** ** Signs through rounding *)

Section Rounding.

Variables prec emax : Z.

Lemma shr_1_nonneg : forall mrs,
    (0 <= shr_m mrs)%Z -> (0 <= shr_m (shr_1 mrs))%Z.
Proof.
  intros [m r s]. cbn [shr_m]. destruct m as [|p|p]; intro H.
  - cbn. lia.
  - destruct p; cbn; lia.
  - lia.
Qed.

Lemma iter_pos_keeps : forall (A : Type) (P : A -> Prop) (f : A -> A),
    (forall x, P x -> P (f x)) ->
    forall (n : positive) (x : A), P x -> P (iter_pos f n x).
Proof.
  intros A P f Hf n. induction n as [n IH|n IH|]; intros x Hx; cbn [iter_pos].
  - apply IH, IH, Hf, Hx.
  - apply IH, IH, Hx.
  - apply Hf, Hx.
Qed.

Lemma shr_fexp_nonneg : forall m e l,
    (0 <= m)%Z -> (0 <= shr_m (fst (shr_fexp prec emax m e l)))%Z.
Proof.
  intros m e l Hm. unfold shr_fexp, shr.
  assert (H0 : (0 <= shr_m (shr_record_of_loc m l))%Z).
  { destruct l as [|[]]; exact Hm. }
  destruct (fexp prec emax (Zdigits2 m + e) - e)%Z as [|p|p]; cbn [fst];
    try exact H0.
  apply (iter_pos_keeps (fun mrs => (0 <= shr_m mrs)%Z)); [apply shr_1_nonneg|exact H0].
Qed.

Lemma round_nearest_even_nonneg : forall mx lx,
    (0 <= mx)%Z -> (0 <= round_nearest_even mx lx)%Z.
Proof.
  intros mx lx H. unfold round_nearest_even.
  destruct lx as [|[]]; try lia. destruct (Z.even mx); lia.
Qed.

(** Rounding a magnitude that is not negative gives a zero, a finite
    number or an infinity of the sign asked for. *)
Lemma binary_round_aux_sign : forall sx mx ex lx,
    (0 <= mx)%Z ->
    match binary_round_aux prec emax sx mx ex lx with
    | S754_zero s | S754_infinity s | S754_finite s _ _ => s = sx
    | S754_nan => False
    end.
Proof.
  intros sx mx ex lx Hm. unfold binary_round_aux.
  pose proof (@shr_fexp_nonneg mx ex lx Hm) as H1.
  destruct (shr_fexp prec emax mx ex lx) as [mrs' e']. cbn [fst] in H1.
  pose proof (@shr_fexp_nonneg
                (round_nearest_even (shr_m mrs') (loc_of_shr_record mrs')) e' loc_Exact
                (@round_nearest_even_nonneg _ _ H1)) as H2.
  destruct (shr_fexp prec emax _ e' loc_Exact) as [mrs'' e'']. cbn [fst] in H2.
  destruct (shr_m mrs'') as [|m|m].
  - reflexivity.
  - destruct (e'' <=? emax - prec)%Z; reflexivity.
  - lia.
Qed.

Lemma binary_normalize_plus : forall m e,
    (0 <= m)%Z -> sf_plus (binary_normalize prec emax m e false).
Proof.
  intros m e Hm. unfold binary_normalize. destruct m as [|p|p].
  - reflexivity.
  - unfold binary_round. destruct (shl_align _ _ _) as [mz ez].
    pose proof (@binary_round_aux_sign false (Zpos mz) ez loc_Exact
                  (Pos2Z.is_nonneg mz)) as H.
    destruct (binary_round_aux _ _ _ _ _ _); exact H.
  - lia.
Qed.

Lemma sf_plus_nonneg : forall f, sf_plus f -> sf_nonneg f.
Proof. intros [s|s| |s m e]; cbn; auto. Qed.

(** Products, sums and quotients of floats that are not negative. *)
Lemma SFmul_nonneg : forall x y,
    sf_nonneg x -> sf_nonneg y ->
    (forall s, x <> S754_infinity s) -> (forall s, y <> S754_infinity s) ->
    sf_nonneg (SFmul prec emax x y).
Proof.
  intros [sx|sx| |sx mx ex] [sy|sy| |sy my ey] Hx Hy Fx Fy; cbn in Hx, Hy |- *;
    try exact I; try contradiction;
    try (exfalso; eapply Fx; reflexivity); try (exfalso; eapply Fy; reflexivity).
  subst sx sy. cbn [xorb].
  pose proof (@binary_round_aux_sign false (Zpos (mx * my)) (ex + ey)%Z loc_Exact
                (Pos2Z.is_nonneg _)) as H.
  destruct (binary_round_aux _ _ _ _ _ _); cbn; auto.
Qed.

Lemma SFadd_nonneg : forall x y,
    sf_nonneg x -> sf_nonneg y -> sf_nonneg (SFadd prec emax x y).
Proof.
  intros [sx|sx| |sx mx ex] [sy|sy| |sy my ey] Hx Hy; cbn in Hx, Hy |- *;
    try exact I; try contradiction; subst; try reflexivity.
  - destruct sx, sy; exact I.
  - cbn [cond_Zopp].
    apply sf_plus_nonneg, binary_normalize_plus. lia.
Qed.

Lemma SFdiv_nonneg : forall x y,
    sf_nonneg x -> sf_plus y ->
    SFdiv prec emax x y = S754_nan \/ sf_nonneg (SFdiv prec emax x y).
Proof.
  intros [sx|sx| |sx mx ex] [sy|sy| |sy my ey] Hx Hy; cbn in Hx, Hy |- *;
    try contradiction; subst; try (left; reflexivity); try (right; exact I);
    try (right; reflexivity).
  right. unfold SFdiv_core_binary.
  match goal with
  | |- context [Z.div_eucl ?a ?b] =>
      assert (Ha : (0 <= a)%Z);
      [|pose proof (Z.div_pos a b Ha (Pos2Z.is_pos _)) as Hq;
        unfold Z.div in Hq; destruct (Z.div_eucl a b) as [q r]]
  end.
  - destruct (ex - ey - _)%Z; try lia. apply Z.shiftl_nonneg. lia.
  - pose proof (@binary_round_aux_sign false q
                  (Z.min (fexp prec emax (Zdigits2 (Z.pos mx) + ex
                                          - (Zdigits2 (Z.pos my) + ey)))
                         (ex - ey))
                  (new_location (Z.pos my) r) Hq) as H.
    cbn [xorb].
    destruct (binary_round_aux _ _ _ _ _ _); cbn; auto.
Qed.

End Rounding.

Section Claims_scoring.

Local Open Scope float_scope.





End Claims_scoring.

Section Claims_gate.

Local Open Scope float_scope.




End Claims_gate.

(** ** Deduplication *)

Lemma ChallengeType_eqb_eq : forall a b, ChallengeType_eqb a b = true <-> a = b.
Proof. intros [] []; cbn; split; congruence. Qed.

Lemma ChallengeStatus_eqb_neq : forall a b, ChallengeStatus_eqb a b = false <-> a <> b.
Proof. intros [] []; cbn; split; congruence. Qed.

(** *** The runtime on ASCII text *)

Lemma ascii_runtime_conforms : JS.conforms JS.ascii_runtime.
Proof. intros s _. split; reflexivity. Qed.

Lemma lower_ascii_idem : forall c, JS.lower_ascii (JS.lower_ascii c) = JS.lower_ascii c.
Proof.
  intros [[] [] [] [] [] [] [] []]; reflexivity.
Qed.

Lemma lower_ascii_below : forall c,
    Nat.ltb (nat_of_ascii (JS.lower_ascii c)) 128 = Nat.ltb (nat_of_ascii c) 128.
Proof.
  intros [[] [] [] [] [] [] [] []]; reflexivity.
Qed.

Lemma ascii_toLowerCase_idem : forall s,
    JS.ascii_toLowerCase (JS.ascii_toLowerCase s) = JS.ascii_toLowerCase s.
Proof.
  induction s as [|c r IH]; cbn [JS.ascii_toLowerCase]; [reflexivity|].
  rewrite lower_ascii_idem, IH. reflexivity.
Qed.

Lemma is_ascii_lower : forall s, JS.is_ascii (JS.ascii_toLowerCase s) = JS.is_ascii s.
Proof.
  induction s as [|c r IH]; cbn [JS.ascii_toLowerCase JS.is_ascii]; [reflexivity|].
  rewrite lower_ascii_below, IH. reflexivity.
Qed.

Section Conforming.

Variable rt : JS.Runtime.
Hypothesis Hrt : JS.conforms rt.

Lemma conforming_lower : forall s,
    JS.is_ascii s = true -> JS.toLowerCase rt s = JS.ascii_toLowerCase s.
Proof. intros s H. apply (Hrt s H). Qed.

Lemma conforming_words : forall s,
    JS.is_ascii s = true ->
    JS.split_ws rt (JS.toLowerCase rt s)
    = JS.ascii_split_ws (JS.ascii_toLowerCase s).
Proof.
  intros s H. rewrite (conforming_lower s H).
  apply (Hrt (JS.ascii_toLowerCase s)). rewrite is_ascii_lower. exact H.
Qed.

Lemma conforming_lower_idem : forall s,
    JS.is_ascii s = true ->
    JS.toLowerCase rt (JS.toLowerCase rt s) = JS.toLowerCase rt s.
Proof.
  intros s H. rewrite (conforming_lower s H).
  rewrite conforming_lower by (rewrite is_ascii_lower; exact H).
  apply ascii_toLowerCase_idem.
Qed.

(** On ASCII descriptions every conforming runtime computes the
    similarity that the ASCII built-ins give. *)
Lemma conforming_similarity : forall str1 str2,
    JS.is_ascii str1 = true -> JS.is_ascii str2 = true ->
    SES.calculateSimilarity rt str1 str2
    = SES.calculateSimilarity JS.ascii_runtime str1 str2.
Proof.
  intros str1 str2 H1 H2. unfold SES.calculateSimilarity.
  rewrite (conforming_words str1 H1), (conforming_words str2 H2). reflexivity.
Qed.

End Conforming.

(** *** Finding a similar challenge *)

Lemma isSimilarTo_spec : forall rt challenge existing,
    SES.isSimilarTo rt challenge existing = true <-> duplicate_of rt challenge existing.
Proof.
  intros rt p e. unfold SES.isSimilarTo, duplicate_of.
  rewrite !andb_true_iff, negb_true_iff, ChallengeStatus_eqb_neq.
  destruct (PartialChallenge.type p) as [t|].
  - rewrite ChallengeType_eqb_eq. split.
    + intros [[H1 H2] H3]. subst t. auto.
    + intros (H1 & H2 & H3). injection H1 as ->. auto.
  - split; [intros [[H _] _]|intros [H _]]; discriminate.
Qed.

Section Finding.

Variable rt : JS.Runtime.
Variable challenge : PartialChallenge.t.

Lemma find_some_in : forall stored key first,
    SES.findSimilarChallenge rt stored challenge = Some (key, first) ->
    In (key, first) stored /\ SES.isSimilarTo rt challenge first = true.
Proof.
  induction stored as [|[k c] r IH]; cbn [SES.findSimilarChallenge]; intros key first H.
  - discriminate.
  - destruct (SES.isSimilarTo rt challenge c) eqn:E.
    + injection H as <- <-. split; [left; reflexivity|exact E].
    + destruct (IH _ _ H) as [H1 H2]. split; [right; exact H1|exact H2].
Qed.

Lemma find_none_iff : forall stored,
    SES.findSimilarChallenge rt stored challenge = None
    <-> forall key c, In (key, c) stored -> SES.isSimilarTo rt challenge c = false.
Proof.
  induction stored as [|[k c] r IH]; cbn [SES.findSimilarChallenge].
  - split; [intros _ key c []|reflexivity].
  - destruct (SES.isSimilarTo rt challenge c) eqn:E.
    + split; [discriminate|]. intro H. rewrite (H k c) in E; [discriminate|left; reflexivity].
    + rewrite IH. split.
      * intros H key c' [H'|H']; [injection H' as <- <-; exact E|apply (H key), H'].
      * intros H key c' H'. apply (H key). right. exact H'.
Qed.

Lemma find_app : forall stored more,
    SES.findSimilarChallenge rt (stored ++ more) challenge
    = match SES.findSimilarChallenge rt stored challenge with
      | Some hit => Some hit
      | None => SES.findSimilarChallenge rt more challenge
      end.
Proof.
  induction stored as [|[k c] r IH]; intro more; cbn [SES.findSimilarChallenge app].
  - reflexivity.
  - destruct (SES.isSimilarTo rt challenge c); [reflexivity|apply IH].
Qed.

End Finding.

Section MapFacts2.

Variable V : Type.

Lemma get_in_nodup : forall (m : list (string * V)) k v,
    NoDup (JS.keys m) -> In (k, v) m -> JS.get m k = Some v.
Proof.
  induction m as [|[k' v'] r IH]; intros k v Hnd Hin; [destruct Hin|].
  cbn [JS.keys map fst] in Hnd. inversion Hnd as [|? ? Hnot Hnd']; subst.
  cbn [JS.get]. destruct Hin as [H|H].
  - injection H as -> ->. rewrite String.eqb_refl. reflexivity.
  - destruct (String.eqb k' k) eqn:E.
    + apply String.eqb_eq in E. subst k'. exfalso. apply Hnot.
      change k with (fst (k, v)). apply in_map. exact H.
    + apply IH; assumption.
Qed.

Lemma length_set_present : forall (m : list (string * V)) k v v0,
    JS.get m k = Some v0 -> List.length (JS.set m k v) = List.length m.
Proof.
  intros m k v v0 H.
  rewrite <- (length_map fst (JS.set m k v)), <- (length_map fst m).
  change (map fst (JS.set m k v)) with (JS.keys (JS.set m k v)).
  rewrite (keys_set_present m k v H). reflexivity.
Qed.

Lemma set_set_same : forall (m : list (string * V)) k v v',
    JS.set (JS.set m k v) k v' = JS.set m k v'.
Proof.
  intros m k v v'. induction m as [|[k0 v0] r IH]; cbn [JS.set].
  - rewrite String.eqb_refl. reflexivity.
  - destruct (String.eqb k0 k) eqn:E; cbn [JS.set]; rewrite E; [reflexivity|].
    f_equal. exact IH.
Qed.

End MapFacts2.

Lemma did_challenges : forall e st, SES.challenges (SES.did e st) = SES.challenges st.
Proof. reflexivity. Qed.

Lemma start_challenges : forall challengeId st challenge,
    JS.get (SES.challenges st) challengeId = Some challenge ->
    SES.challenges (SES.analyzeChallenge_start challengeId st)
    = JS.set (SES.challenges st) challengeId
             (SystemChallenge.set_status analyzing challenge).
Proof.
  intros id st c H. unfold SES.analyzeChallenge_start, SES.update_challenge.
  rewrite H. reflexivity.
Qed.

(** The store after a report that duplicates nothing: the new challenge,
    already marked [analyzing], sits under the generated id. *)
Lemma recordChallenge_new : forall rt id now ref challenge st,
    SES.findSimilarChallenge rt (SES.challenges st) challenge = None ->
    fst (SES.recordChallenge rt id now ref challenge st) = id
    /\ SES.challenges (snd (SES.recordChallenge rt id now ref challenge st))
       = JS.set (SES.challenges st) id
                (SystemChallenge.set_status analyzing (SES.fullChallenge id now challenge)).
Proof.
  intros rt id now ref p st H. unfold SES.recordChallenge. rewrite H.
  cbv zeta. cbn [fst snd]. split; [reflexivity|].
  rewrite did_challenges.
  rewrite (start_challenges id _ (challenge := SES.fullChallenge id now p)).
  - rewrite did_challenges. cbn [SES.challenges SES.set_challenges].
    apply set_set_same.
  - rewrite did_challenges. cbn [SES.challenges SES.set_challenges].
    apply get_set_same.
Qed.

Lemma recordChallenge_seen : forall rt id now ref challenge st key first,
    SES.findSimilarChallenge rt (SES.challenges st) challenge = Some (key, first) ->
    SES.recordChallenge rt id now ref challenge st
    = (SystemChallenge.id first,
       SES.set_challenges
         (JS.set (SES.challenges st) key (SES.noteOccurrence now ref first)) st).
Proof.
  intros rt id now ref p st key first H. unfold SES.recordChallenge. rewrite H. reflexivity.
Qed.

Lemma noteOccurrence_context : forall now ref existing,
    JS.get (SystemChallenge.context (SES.noteOccurrence now ref existing)) "occurrences"
    = Some (JS.or_one_plus_one
              (JS.get (SystemChallenge.context existing) "occurrences"))
    /\ JS.get (SystemChallenge.context (SES.noteOccurrence now ref existing)) "lastOccurred"
       = Some (JS.JDate ref now).
Proof.
  intros now ref e. unfold SES.noteOccurrence. cbn [SystemChallenge.context SystemChallenge.set_context].
  split.
  - rewrite get_set_other by discriminate. apply get_set_same.
  - apply get_set_same.
Qed.

Section Claims_dedup.

Local Open Scope float_scope.




End Claims_dedup.

(** ** The learning engine *)

Section StubLookups.

(** With lookups that find nothing, no pattern is related to a learning. *)
Lemma stub_not_related : forall learning pattern,
    Engine.isRelatedPattern LE.findChallengeById learning pattern = false.
Proof. reflexivity. Qed.

Lemma stub_update_related : forall learning f pats,
    Engine.update_related LE.findChallengeById learning f pats = pats.
Proof.
  intros learning f pats. unfold Engine.update_related.
  induction pats as [|[k p] r IH]; cbn [map]; [reflexivity|].
  rewrite stub_not_related. f_equal. exact IH.
Qed.

Lemma stub_updateExistingPatterns : forall learnings pats,
    Engine.updateExistingPatterns LE.findChallengeById learnings pats = pats.
Proof.
  intros learnings. unfold Engine.updateExistingPatterns.
  induction learnings as [|l r IH]; intro pats; cbn [fold_left]; [reflexivity|].
  rewrite stub_update_related. apply IH.
Qed.

Lemma stub_groups : forall learnings,
    Engine.groupSuccessfulLearnings LE.findChallengeById learnings = [].
Proof.
  intro learnings. unfold Engine.groupSuccessfulLearnings.
  match goal with
  | |- fold_left ?step _ _ = _ =>
      assert (H : forall acc, fold_left step learnings acc = acc)
  end.
  { induction learnings as [|l r IH]; intro acc; cbn [fold_left]; [reflexivity|].
    change (LE.findChallengeById (Learning.challengeId l)) with (@None SystemChallenge.t).
    destruct (negb (Outcome_eqb (Learning.outcome l) success)); apply IH. }
  apply H.
Qed.

Lemma stub_filterRelevantLearnings : forall challenge learnings,
    Engine.filterRelevantLearnings LE.findChallengeById challenge learnings = [].
Proof.
  intros challenge learnings. unfold Engine.filterRelevantLearnings.
  induction learnings as [|l r IH]; cbn [filter]; [reflexivity|exact IH].
Qed.

Lemma stub_extractPatterns : forall ids learnings pats,
    LE.extractPatterns ids learnings pats = ([], pats).
Proof.
  intros ids learnings pats. unfold LE.extractPatterns, Engine.extractPatterns.
  rewrite stub_groups. cbn [Engine.promote_groups fold_left].
  rewrite stub_updateExistingPatterns. reflexivity.
Qed.

Lemma stub_updateKnowledge : forall ids learning st,
    LE.updateKnowledge ids learning st
    = Engine.mk (Engine.patterns st) (Engine.learningHistory st ++ [learning]).
Proof.
  intros ids learning st. unfold LE.updateKnowledge, Engine.updateKnowledge.
  rewrite stub_update_related.
  destruct (JS.divisible _ 10); [|reflexivity].
  fold (LE.extractPatterns ids
          (slice_last 50 (Engine.learningHistory st ++ [learning])) (Engine.patterns st)).
  rewrite stub_extractPatterns. reflexivity.
Qed.

End StubLookups.

Section Claims_lookup.

(** C10.  [findChallengeById] returns [null] for every id, so
    [filterRelevantLearnings] keeps no learning and
    [findRelevantSolutions] is the empty list for every challenge and
    every history; the generator is therefore always called with no
    historical solution. *)
Theorem findRelevantSolutions_is_empty :
  (forall id, LE.findChallengeById id = None)
  /\ (forall challenge learnings,
         Engine.filterRelevantLearnings LE.findChallengeById challenge learnings = [])
  /\ (forall challenge learnings,
         LE.findRelevantSolutions challenge learnings = [])
  /\ (forall generate challengeId st,
         SES.analyzeChallenge_resume generate challengeId st
         = SES.analyzeChallenge_resume (fun c _ => generate c []) challengeId st).
Proof.
  split; [reflexivity|]. split; [apply stub_filterRelevantLearnings|].
  assert (H : forall challenge learnings,
             LE.findRelevantSolutions challenge learnings = []).
  { intros challenge learnings.
    unfold LE.findRelevantSolutions, Engine.findRelevantSolutions.
    rewrite stub_filterRelevantLearnings. reflexivity. }
  split; [exact H|].
  intros generate id st. unfold SES.analyzeChallenge_resume.
  destruct (JS.get (SES.challenges st) id) as [c|]; [|reflexivity].
  rewrite H. reflexivity.
Qed.

End Claims_lookup.

Section EngineFacts.

Local Open Scope float_scope.

Variable findChallengeById : string -> option SystemChallenge.t.
Variable findSolutionById : string -> option Solution.t.

Lemma update_related_get : forall learning f pats key,
    JS.get (Engine.update_related findChallengeById learning f pats) key
    = option_map
        (fun p => if Engine.isRelatedPattern findChallengeById learning p
                  then f p else p)
        (JS.get pats key).
Proof.
  intros learning f pats key. unfold Engine.update_related.
  induction pats as [|[k p] r IH]; cbn [map JS.get option_map]; [reflexivity|].
  destruct (Engine.isRelatedPattern findChallengeById learning p) eqn:E;
    cbn [JS.get]; destruct (String.eqb k key); cbn [option_map];
    rewrite ?E; try reflexivity; exact IH.
Qed.

Lemma update_related_keys : forall learning f pats,
    JS.keys (Engine.update_related findChallengeById learning f pats) = JS.keys pats.
Proof.
  intros learning f pats. unfold Engine.update_related, JS.keys.
  induction pats as [|[k p] r IH]; cbn [map fst]; [reflexivity|].
  destruct (Engine.isRelatedPattern findChallengeById learning p);
    cbn [fst]; f_equal; exact IH.
Qed.

Lemma isRelatedPattern_found : forall learning challenge pattern,
    findChallengeById (Learning.challengeId learning) = Some challenge ->
    Engine.isRelatedPattern findChallengeById learning pattern
    = Engine.matchesPatternTrigger challenge (Pattern.trigger pattern).
Proof.
  intros learning challenge pattern H. unfold Engine.isRelatedPattern.
  rewrite H. reflexivity.
Qed.

End EngineFacts.

Section Claims_engine.

Local Open Scope float_scope.

(** What [updateKnowledge] writes where the lookup it calls finds the
    challenge of the learning (the lookup of the source never does): the
    learning is appended to the history and, when the new history length
    is not a multiple of 10, exactly the patterns whose trigger matches
    that challenge's context are rewritten: successRate becomes the
    usage-weighted running mean and usageCount grows by one.  The
    fixed-weight update rate x (1 - w) + outcome x w with w = 0.1 is the
    one [updateExistingPatterns] makes, to the same patterns and without
    touching usageCount. *)
Lemma updateKnowledge_with_a_lookup :
  forall (findChallengeById : string -> option SystemChallenge.t)
         (findSolutionById : string -> option Solution.t)
         (ids : nat -> string) (learning : Learning.t) (st : Engine.state)
         (challenge : SystemChallenge.t),
    findChallengeById (Learning.challengeId learning) = Some challenge ->
    let st1 := Engine.updateKnowledge findChallengeById findSolutionById ids learning st in
    let history := Engine.learningHistory st ++ [learning] in
    let absorbed :=
      Engine.update_related findChallengeById learning
        (Engine.absorb learning) (Engine.patterns st) in
    Engine.learningHistory st1 = history
    /\ (JS.divisible (List.length history) 10 = false -> Engine.patterns st1 = absorbed)
    /\ (JS.divisible (List.length history) 10 = true ->
        Engine.patterns st1
        = snd (Engine.extractPatterns findChallengeById findSolutionById ids
                 (slice_last 50 history) absorbed))
    /\ JS.keys absorbed = JS.keys (Engine.patterns st)
    /\ (forall key p,
           JS.get (Engine.patterns st) key = Some p ->
           exists p',
             JS.get absorbed key = Some p'
             /\ if Engine.matchesPatternTrigger challenge (Pattern.trigger p)
                then Pattern.successRate p'
                     = runningMean (Learning.outcome learning)
                                   (Pattern.successRate p) (Pattern.usageCount p)
                     /\ Pattern.usageCount p' = Pattern.usageCount p + 1
                     /\ same_rule p p'
                else p' = p)
    /\ (forall pats key p,
           JS.get pats key = Some p ->
           exists p',
             JS.get (Engine.updateExistingPatterns findChallengeById [learning] pats) key
             = Some p'
             /\ if Engine.matchesPatternTrigger challenge (Pattern.trigger p)
                then Pattern.successRate p'
                     = Pattern.successRate p * (1 - 0.1)
                       + outcomeValue (Learning.outcome learning) * 0.1
                     /\ Pattern.usageCount p' = Pattern.usageCount p
                     /\ same_rule p p'
                else p' = p).
Proof.
  intros fc fs ids learning st challenge Hfound st1 history absorbed.
  split; [|split; [|split; [|split; [|split]]]].
  - subst st1. unfold Engine.updateKnowledge.
    destruct (JS.divisible _ 10); reflexivity.
  - intro Hd. subst st1. unfold Engine.updateKnowledge.
    fold history. rewrite Hd. reflexivity.
  - intro Hd. subst st1. unfold Engine.updateKnowledge.
    fold history. rewrite Hd. reflexivity.
  - apply update_related_keys.
  - intros key p Hget. subst absorbed.
    rewrite update_related_get, Hget. cbn [option_map].
    rewrite (isRelatedPattern_found fc learning p Hfound).
    destruct (Engine.matchesPatternTrigger challenge (Pattern.trigger p)).
    + eexists. split; [reflexivity|].
      unfold Engine.absorb, runningMean, same_rule.
      cbn [Pattern.successRate Pattern.usageCount Pattern.set_successRate
           Pattern.set_usageCount Pattern.id Pattern.name Pattern.description
           Pattern.trigger Pattern.solution].
      destruct (Learning.outcome learning); repeat split.
    + eexists. split; reflexivity.
  - intros pats key p Hget. unfold Engine.updateExistingPatterns. cbn [fold_left].
    rewrite update_related_get, Hget. cbn [option_map].
    rewrite (isRelatedPattern_found fc learning p Hfound).
    destruct (Engine.matchesPatternTrigger challenge (Pattern.trigger p)).
    + eexists. split; [reflexivity|].
      unfold Engine.reweigh, outcomeValue, same_rule.
      cbn [Pattern.successRate Pattern.usageCount Pattern.set_successRate
           Pattern.id Pattern.name Pattern.description
           Pattern.trigger Pattern.solution].
      destruct (Learning.outcome learning); repeat split.
    + eexists. split; reflexivity.
Qed.

(** C4: the claim fails for the code as it stands.  [updateKnowledge]
    finds the patterns to update through [findChallengeById], which
    returns [null] for every id: no pattern is ever related to a learning,
    so whatever the learning and the library, every pattern keeps its
    successRate and its usageCount, and only the history grows.  On the
    first success for a challenge whose context (cpu = 92) matches the
    trigger of the CPU pattern (cpu > 80), the claim asks for rate
    0.85 x 0.9 + 0.1 and count 1; the pattern stays at rate 0.85 and
    count 0.  The same method over a lookup that finds the challenge
    rewrites that pattern, and then to rate 1, the running mean, with
    count 1. *)
Theorem updateKnowledge_updates_no_pattern :
  (forall learning pattern,
      Engine.isRelatedPattern LE.findChallengeById learning pattern = false)
  /\ (forall pats learning,
         Engine.findRelatedPatterns LE.findChallengeById pats learning = [])
  /\ (forall ids learning st,
         Engine.patterns (LE.updateKnowledge ids learning st) = Engine.patterns st
         /\ Engine.learningHistory (LE.updateKnowledge ids learning st)
            = Engine.learningHistory st ++ [learning])
  /\ (let learning := Sample.success_run "learning_1" in
      let read (st : Engine.state) :=
        option_map (fun p => (Pattern.successRate p, Pattern.usageCount p))
                   (JS.get (Engine.patterns st) "high-cpu-scale") in
      let claimed := 0.85 * (1 - 0.1) + 1 * 0.1 in
      option_map (fun p => Engine.matchesPatternTrigger
                             (Sample.challengeOf high resolved) (Pattern.trigger p))
                 (JS.get Engine.basePatterns "high-cpu-scale") = Some true
      /\ read Engine.initial = Some (0.85, 0)
      /\ read (LE.updateKnowledge Sample.patternIds learning Engine.initial)
         = Some (0.85, 0)
      /\ (claimed =? 0.85) = false
      /\ read (Engine.updateKnowledge Sample.knownChallenge Sample.knownSolution
                 Sample.patternIds learning Engine.initial)
         = Some (1, 1)
      /\ (claimed =? 1) = false).
Proof.
  split; [apply stub_not_related|].
  split.
  { intros pats learning. unfold Engine.findRelatedPatterns.
    induction (JS.values pats) as [|p r IH]; cbn [filter]; [reflexivity|].
    rewrite stub_not_related. exact IH. }
  split.
  { intros ids learning st. rewrite stub_updateKnowledge. split; reflexivity. }
  cbv zeta. repeat split; vm_compute; reflexivity.
Qed.

(** C5: the claim holds for lookups that find the records, and fails for
    the code as it stands.  Whatever the learnings, [extractPatterns]
    returns no pattern and registers none, because no learning is ever
    grouped.  Three successful learnings of one challenge with group
    success rate 0.8 are promoted to one registered pattern by the same
    method over working lookups, and two are not. *)
Theorem extractPatterns_promotes_nothing :
  (forall ids learnings pats, LE.extractPatterns ids learnings pats = ([], pats))
  /\ (forall learnings,
         Engine.groupSuccessfulLearnings LE.findChallengeById learnings = [])
  /\ Engine.calculateGroupSuccessRate Sample.three_runs = 0.8
  /\ JS.ge (Engine.calculateGroupSuccessRate Sample.three_runs)
           Engine.successThreshold = true
  /\ LE.extractPatterns Sample.patternIds Sample.three_runs Engine.basePatterns
     = ([], Engine.basePatterns)
  /\ (let r := Engine.extractPatterns Sample.knownChallenge Sample.knownSolution
                 Sample.patternIds Sample.three_runs Engine.basePatterns in
      map Pattern.id (fst r) = ["pattern_1"%string]
      /\ map Pattern.usageCount (fst r) = [3]
      /\ JS.keys (snd r) = JS.keys Engine.basePatterns ++ ["pattern_1"%string]
      /\ option_map Some (JS.get (snd r) "pattern_1") = Some (hd_error (fst r)))
  /\ (let r := Engine.extractPatterns Sample.knownChallenge Sample.knownSolution
                 Sample.patternIds Sample.two_runs Engine.basePatterns in
      fst r = [] /\ JS.keys (snd r) = JS.keys Engine.basePatterns).
Proof.
  split; [apply stub_extractPatterns|].
  split; [apply stub_groups|].
  split; [vm_compute; reflexivity|].
  split; [vm_compute; reflexivity|].
  split; [apply stub_extractPatterns|].
  split; cbv zeta; repeat split; vm_compute; reflexivity.
Qed.

End Claims_engine.

(** ** Knowledge transfer *)

Section TransferFacts.

Variable write_fails : string -> option string.
Variable now : Date.

Lemma writeFile_no_error : forall dir id doc st,
    no_error (fst (KT.writeFile write_fails dir id doc st)).
Proof.
  intros dir id doc st m. unfold KT.writeFile.
  destruct (write_fails _); cbn [fst]; discriminate.
Qed.

Lemma for_each_no_error : forall (A : Type) (body : A -> KT.state -> result unit * KT.state),
    (forall x st, no_error (fst (body x st))) ->
    forall xs st, no_error (fst (KT.for_each body xs st)).
Proof.
  intros A body Hbody xs. induction xs as [|x r IH]; intros st m; cbn [KT.for_each].
  - cbn [fst]. discriminate.
  - pose proof (Hbody x st) as Hx.
    destruct (body x st) as [[[]|e] st']; cbn [fst] in *.
    + apply IH.
    + apply Hx.
Qed.

Lemma integrateKnowledge_no_error : forall knowledgePackage st,
    no_error (fst (KT.integrateKnowledge write_fails now knowledgePackage st)).
Proof.
  intros pkg st m. unfold KT.integrateKnowledge.
  assert (H1 : forall ps st', no_error (fst (KT.integratePatterns write_fails ps st'))).
  { intros ps st'. apply for_each_no_error. intros x s.
    destruct (KT.findSimilarPattern x); [cbn; discriminate|apply writeFile_no_error]. }
  assert (H2 : forall ss st', no_error (fst (KT.adaptSolutions write_fails ss st'))).
  { intros ss st'. apply for_each_no_error. intros x s. apply writeFile_no_error. }
  assert (H3 : forall ls st', no_error (fst (KT.recordTransferredLearnings write_fails now ls st'))).
  { intros ls st'. apply for_each_no_error. intros x s. apply writeFile_no_error. }
  pose proof (H1 (KnowledgeTransferPackage.patterns pkg) st) as G1.
  destruct (KT.integratePatterns write_fails _ st) as [[[]|e] st1]; cbn [fst] in *;
    [|apply G1].
  pose proof (H2 (KnowledgeTransferPackage.solutions pkg) st1) as G2.
  destruct (KT.adaptSolutions write_fails _ st1) as [[[]|e] st2]; cbn [fst] in *;
    [|apply G2].
  apply H3.
Qed.

End TransferFacts.

Section WritesSucceed.

Variable now : Date.

Lemma with_files_nil : forall st, with_files st [] = st.
Proof. intros []. unfold with_files. cbn. rewrite app_nil_r. reflexivity. Qed.

Lemma with_files_app : forall st a b,
    with_files (with_files st a) b = with_files st (a ++ b).
Proof. intros st a b. unfold with_files. cbn. rewrite app_assoc. reflexivity. Qed.

Lemma for_each_writes : forall (A : Type) (dir : string) (id : A -> string)
                               (doc : A -> KT.Document) (xs : list A) (st : KT.state),
    KT.for_each (fun x => KT.writeFile Sample.disk_ok dir (id x) (doc x)) xs st
    = (Ok tt, with_files st (map (fun x => written dir (id x) (doc x)) xs)).
Proof.
  intros A dir id doc xs. induction xs as [|x r IH]; intro st; cbn [KT.for_each map].
  - rewrite with_files_nil. reflexivity.
  - unfold KT.writeFile at 1. cbn [Sample.disk_ok]. rewrite IH.
    f_equal. unfold with_files, written.
    cbn [KT.transferHistory KT.knowledgeEndpoints KT.compatibilityVersion KT.files].
    rewrite <- app_assoc. reflexivity.
Qed.

Lemma integrateKnowledge_writes : forall knowledgePackage st,
    KT.integrateKnowledge Sample.disk_ok now knowledgePackage st
    = (Ok tt, with_files st (integrated now knowledgePackage)).
Proof.
  intros pkg st. unfold KT.integrateKnowledge, KT.integratePatterns,
    KT.adaptSolutions, KT.recordTransferredLearnings, KT.savePattern,
    KT.saveSolution, KT.saveLearning, KT.findSimilarPattern.
  rewrite (for_each_writes "knowledge-base/patterns" Pattern.id KT.DocPattern).
  rewrite (for_each_writes "knowledge-base/solutions"
             (fun s => Solution.id (KT.adaptSolutionToLocal s))
             (fun s => KT.DocSolution (KT.adaptSolutionToLocal s))).
  rewrite (for_each_writes "knowledge-base/learnings" Learning.id
             (fun l => KT.DocLearning l
                         (Some (KT.mkMeta true now
                                  (JS.first_piece "_" (Learning.id l)))))).
  rewrite !with_files_app. reflexivity.
Qed.

End WritesSucceed.

Section Claims_transfer.

(** C8.  [receivePackage] throws the incompatible-version error exactly
    when the part of the package version before its first dot differs from
    that of the local compatibility version (["1.0.0"] after construction),
    and then leaves the state as it was; otherwise it integrates the package
    and raises no error of its own.  A package of version ["2.0.0"] is
    rejected; one of version ["1.3.0"] is accepted, and when the writes
    succeed its patterns, adapted solutions and tagged learnings are the
    files added. *)
Theorem receivePackage_checks_major_version :
  forall (write_fails : string -> option string) (now : Date)
         (knowledgePackage : KnowledgeTransferPackage.t) (st : KT.state),
    let version := KnowledgeTransferPackage.version knowledgePackage in
    let major := JS.first_piece "." in
    let incompatible :=
      Throw (Error ("Incompatible knowledge version: " ++ version)%string) in
    let r := KT.receivePackage write_fails now knowledgePackage st in
    KT.compatibilityVersion KT.initial = "1.0.0"%string
    /\ (fst r = incompatible <-> major version <> major (KT.compatibilityVersion st))
    /\ (forall m, fst r = Throw (Error m) -> fst r = incompatible)
    /\ (major version <> major (KT.compatibilityVersion st) -> snd r = st)
    /\ (major version = major (KT.compatibilityVersion st) ->
        r = KT.integrateKnowledge write_fails now knowledgePackage st)
    /\ (KT.compatibilityVersion st = "1.0.0"%string ->
        version = "2.0.0"%string -> r = (incompatible, st))
    /\ (KT.compatibilityVersion st = "1.0.0"%string ->
        version = "1.3.0"%string ->
        fst r <> incompatible
        /\ KT.receivePackage Sample.disk_ok now knowledgePackage st
           = (Ok tt, with_files st (integrated now knowledgePackage))).
Proof.
  intros write_fails now pkg st version major incompatible r.
  assert (Hcompat : KT.isVersionCompatible st version = true
                    <-> major version = major (KT.compatibilityVersion st)).
  { unfold KT.isVersionCompatible. apply String.eqb_eq. }
  assert (Hyes : major version = major (KT.compatibilityVersion st) ->
                 forall wf, KT.receivePackage wf now pkg st
                            = KT.integrateKnowledge wf now pkg st).
  { intros H wf. unfold KT.receivePackage. fold version.
    apply Hcompat in H. rewrite H. reflexivity. }
  assert (Hno : major version <> major (KT.compatibilityVersion st) ->
                r = (incompatible, st)).
  { intro H. subst r. unfold KT.receivePackage. fold version.
    destruct (KT.isVersionCompatible st version); [|reflexivity].
    exfalso. apply H, Hcompat. reflexivity. }
  assert (Hdec : major version = major (KT.compatibilityVersion st)
                 \/ major version <> major (KT.compatibilityVersion st)).
  { destruct (string_dec (major version) (major (KT.compatibilityVersion st)));
      [left|right]; assumption. }
  assert (Hok : major version = major (KT.compatibilityVersion st) ->
                forall m, fst r <> Throw (Error m)).
  { intros H m. subst r. rewrite (Hyes H). apply integrateKnowledge_no_error. }
  split; [reflexivity|]. split; [|split; [|split; [|split; [|split]]]].
  - split.
    + intros H Heq. apply (Hok Heq _ H).
    + intro H. rewrite (Hno H). reflexivity.
  - intros m H. destruct Hdec as [Heq|Hne].
    + exfalso. apply (Hok Heq _ H).
    + rewrite (Hno Hne). reflexivity.
  - intro H. rewrite (Hno H). reflexivity.
  - intro H. apply (Hyes H).
  - intros Hc Hv. apply Hno. rewrite Hc, Hv. vm_compute. discriminate.
  - intros Hc Hv.
    assert (Heq : major version = major (KT.compatibilityVersion st)).
    { rewrite Hc, Hv. reflexivity. }
    split; [apply (Hok Heq)|].
    rewrite (Hyes Heq). apply integrateKnowledge_writes.
Qed.

(** A fresh receiver rejects the sample package stamped ["2.0.0"] and
    integrates the one stamped ["1.3.0"]: five files. *)
Lemma receivePackage_checks_major_version_witness :
  KT.receivePackage Sample.disk_ok 7%Z (Sample.package "2.0.0") KT.initial
  = (Throw (Error "Incompatible knowledge version: 2.0.0"), KT.initial)
  /\ fst (KT.receivePackage Sample.disk_ok 7%Z (Sample.package "1.3.0") KT.initial)
     = Ok tt
  /\ map fst (KT.files (snd (KT.receivePackage Sample.disk_ok 7%Z
                               (Sample.package "1.3.0") KT.initial)))
     = ["knowledge-base/patterns/high-cpu-scale.json";
        "knowledge-base/patterns/memory-leak-restart.json";
        "knowledge-base/patterns/video-queue-optimization.json";
        "knowledge-base/solutions/adapted_solution_1.json";
        "knowledge-base/learnings/peer_learning_1.json"]%string.
Proof.
  pose proof (receivePackage_checks_major_version
                Sample.disk_ok 7%Z (Sample.package "2.0.0") KT.initial) as H2.
  pose proof (receivePackage_checks_major_version
                Sample.disk_ok 7%Z (Sample.package "1.3.0") KT.initial) as H1.
  cbv zeta in H1, H2.
  destruct H2 as (_ & _ & _ & _ & _ & H2 & _).
  destruct H1 as (_ & _ & _ & _ & _ & _ & H1).
  split; [apply (H2 eq_refl eq_refl)|].
  destruct (H1 eq_refl eq_refl) as [_ E]. rewrite E. split; reflexivity.
Defined.

End Claims_transfer.

(** ** Execution *)

Section StatusFrames.

Variables (key : string) (s : option ChallengeStatus) (st : SES.state).

Lemma set_status_opt_learnings :
  SES.learnings (SES.set_status_opt key s st) = SES.learnings st.
Proof. destruct s; [apply update_challenge_learnings|reflexivity]. Qed.

Lemma set_status_opt_effects :
  SES.effects (SES.set_status_opt key s st) = SES.effects st.
Proof. destruct s; [apply update_challenge_effects|reflexivity]. Qed.

Lemma set_status_opt_solutions :
  SES.solutions (SES.set_status_opt key s st) = SES.solutions st.
Proof. destruct s; [apply update_challenge_solutions|reflexivity]. Qed.

End StatusFrames.

Lemma update_challenge_get : forall key f st,
    JS.get (SES.challenges (SES.update_challenge key f st)) key
    = option_map f (JS.get (SES.challenges st) key).
Proof.
  intros key f st. unfold SES.update_challenge.
  destruct (JS.get (SES.challenges st) key) as [c|] eqn:E; cbn [option_map].
  - cbn [SES.challenges SES.set_challenges]. apply get_set_same.
  - exact E.
Qed.

Lemma set_status_opt_get : forall key s st,
    JS.get (SES.challenges (SES.set_status_opt key s st)) key
    = option_map (fun c => match s with
                           | Some x => SystemChallenge.set_status x c
                           | None => c
                           end)
                 (JS.get (SES.challenges st) key).
Proof.
  intros key [x|] st; cbn [SES.set_status_opt].
  - apply update_challenge_get.
  - destruct (JS.get (SES.challenges st) key); reflexivity.
Qed.

Create Rewrite HintDb frames.

#[local] Hint Rewrite
  update_challenge_learnings update_challenge_effects update_challenge_solutions
  update_challenge_queue update_challenge_running update_challenge_engine
  set_status_opt_learnings set_status_opt_effects set_status_opt_solutions
  : frames.

Section Steps.

Variable env : SES.Run.

(** Running steps only notes targets: those of a prefix of the steps, of
    all of them when none raises, of at least one when one raises. *)
Lemma run_steps_notes_targets : forall steps learning,
    let r := SES.run_steps env steps learning in
    same_record learning (snd r)
    /\ exists k,
        k <= List.length steps
        /\ Learning.affectedComponents (snd r)
           = Learning.affectedComponents learning
             ++ map ExecutionStep.target (firstn k steps)
        /\ (fst r = Ok tt -> k = List.length steps)
        /\ (forall e, fst r = Throw e -> 0 < k).
Proof.
  induction steps as [|step rest IH]; intro learning; cbn [SES.run_steps].
  - cbn [fst snd]. split; [unfold same_record; tauto|]. exists 0.
    cbn [firstn map List.length]. rewrite app_nil_r.
    split; [lia|]. split; [reflexivity|]. split; [reflexivity|discriminate].
  - unfold SES.executeStep.
    destruct (SES.step_raises env _ step) as [e|].
    + cbn [fst snd]. split; [unfold same_record; cbn; tauto|]. exists 1.
      cbn [firstn map List.length Learning.affectedComponents Learning.push_component].
      split; [lia|]. split; [reflexivity|]. split; [discriminate|intros; lia].
    + specialize (IH (Learning.push_component (ExecutionStep.target step) learning)).
      cbv zeta in IH. destruct IH as [Hsame (k & Hk & Hc & Hok & Hthrow)].
      split.
      * unfold same_record in *. cbn [Learning.id Learning.challengeId
          Learning.solutionId Learning.outcome Learning.metrics Learning.lessons
          Learning.timestamp Learning.push_component] in Hsame. exact Hsame.
      * exists (S k). cbn [firstn map List.length].
        cbn [Learning.affectedComponents Learning.push_component] in Hc.
        rewrite <- app_assoc in Hc. cbn [app] in Hc.
        split; [lia|]. split; [exact Hc|].
        split; [intro H; f_equal; apply Hok, H|intros; lia].
Qed.

(** The learning the [catch] block leaves. *)
Lemma on_error_result : forall solution e learning,
    let rollback := Implementation.rollbackPlan (Solution.implementation solution) in
    let l' := SES.on_error env solution e learning in
    let undone :=
      SES.run_steps env rollback
        (Learning.push_lesson ("Execution failed: " ++ message e)%string
           (Learning.set_outcome failure learning)) in
    Learning.outcome l' = failure
    /\ Learning.metrics l' = Learning.metrics learning
    /\ Learning.id l' = Learning.id learning
    /\ Learning.lessons l'
       = Learning.lessons learning
         ++ ("Execution failed: " ++ message e)%string
            :: match fst undone with
               | Ok _ => []
               | Throw _ => ["Rollback also failed"%string]
               end
    /\ exists k,
        k <= List.length rollback
        /\ Learning.affectedComponents l'
           = Learning.affectedComponents learning
             ++ map ExecutionStep.target (firstn k rollback)
        /\ (fst undone = Ok tt -> k = List.length rollback).
Proof.
  intros solution e learning rollback l' undone.
  destruct (run_steps_notes_targets rollback
              (Learning.push_lesson ("Execution failed: " ++ message e)%string
                 (Learning.set_outcome failure learning)))
    as [Hsame (k & Hk & Hc & Hok & _)].
  fold undone in Hsame, Hc, Hok.
  destruct Hsame as (Hid & _ & _ & Ho & Hm & Hl & _).
  cbn [Learning.id Learning.outcome Learning.metrics Learning.lessons
       Learning.affectedComponents Learning.push_lesson Learning.set_outcome]
    in Hid, Ho, Hm, Hl, Hc.
  assert (El : l' = match fst undone with
                    | Ok _ => snd undone
                    | Throw _ => Learning.push_lesson "Rollback also failed" (snd undone)
                    end).
  { subst l'. unfold SES.on_error. fold rollback. fold undone.
    destruct undone as [[[]|e'] l2]; reflexivity. }
  rewrite El.
  destruct (fst undone) as [[]|e'];
    cbn [Learning.id Learning.outcome Learning.metrics Learning.lessons
         Learning.affectedComponents Learning.push_lesson].
  - split; [exact Ho|]. split; [exact Hm|]. split; [exact Hid|].
    split; [exact Hl|]. exists k. split; [exact Hk|]. split; assumption.
  - split; [exact Ho|]. split; [exact Hm|]. split; [exact Hid|].
    split; [rewrite Hl, <- app_assoc; reflexivity|].
    exists k. split; [exact Hk|]. split; [exact Hc|discriminate].
Qed.

End Steps.

(** Reading a field through a chain of field updates. *)
Ltac frame :=
  repeat progress
    (cbn [SES.did SES.set_challenges SES.set_solutions SES.set_learnings
          SES.set_executionQueue SES.set_learningEngine SES.set_status_opt
          SES.challenges SES.solutions SES.learnings SES.isRunning
          SES.executionQueue SES.learningEngine SES.effects];
     autorewrite with frames).

Section Running.

Local Open Scope float_scope.

Variable env : SES.Run.

Lemma isSuccessful_spec : forall metrics expectedImpact,
    SES.isSuccessful metrics expectedImpact = true
    <-> exists name v, In (name, v) metrics /\ JS.gt v 10 = true.
Proof.
  intros metrics impact. unfold SES.isSuccessful, JS.values.
  rewrite andb_true_iff, existsb_exists, Nat.ltb_lt. split.
  - intros [_ (v & Hin & Hv)]. apply filter_In in Hin. destruct Hin as [Hin _].
    apply in_map_iff in Hin. destruct Hin as ([name v'] & Hv' & Hin).
    cbn [snd] in Hv'. subst v'. exists name, v. split; assumption.
  - intros (name & v & Hin & Hv).
    assert (Hf : In v (filter (fun v => JS.gt v 0) (map snd metrics))).
    { apply filter_In. split; [|apply gt_10_gt_0, Hv].
      apply in_map_iff. exists (name, v). split; [reflexivity|exact Hin]. }
    split.
    + destruct (filter _ _); [destruct Hf|cbn; lia].
    + exists v. split; assumption.
Qed.

(** The two ways out of the [try] block. *)
Lemma attempt_cases : forall challenge solution learning,
    match raised env solution learning with
    | Some (e, l1) =>
        SES.attempt env challenge solution learning
        = (SES.on_error env solution e l1, Some failed)
    | None =>
        exists before after l1,
          SES.beforeMetrics env = Ok before
          /\ SES.afterMetrics env = Ok after
          /\ SES.run_steps env (Implementation.steps (Solution.implementation solution))
                           learning = (Ok tt, l1)
          /\ SES.attempt env challenge solution learning
             = if SES.isSuccessful (SES.calculateImprovement before after)
                                   (Solution.estimatedImpact solution)
               then (Learning.push_lesson
                       ("Successfully resolved: " ++
                        SystemChallenge.description challenge)%string
                       (Learning.set_outcome success
                          (Learning.set_metrics
                             (SES.calculateImprovement before after) l1)),
                     Some resolved)
               else (Learning.push_lesson
                       "Solution partially effective, further optimization needed"
                       (Learning.set_outcome partial
                          (Learning.set_metrics
                             (SES.calculateImprovement before after) l1)),
                     None)
    end.
Proof.
  intros challenge solution learning. unfold raised, SES.attempt.
  destruct (SES.beforeMetrics env) as [before|e]; [|reflexivity].
  destruct (SES.run_steps env _ learning) as [[[]|e] l1]; [|reflexivity].
  destruct (SES.afterMetrics env) as [after|e]; [|reflexivity].
  exists before, after, l1. repeat split.
Qed.

(** Where the [try] block raises, the record still has its initial
    fields, apart from the targets noted. *)
Lemma raised_record : forall solution learning e l1,
    raised env solution learning = Some (e, l1) -> same_record learning l1.
Proof.
  intros solution learning e l1. unfold raised.
  pose proof (run_steps_notes_targets env
                (Implementation.steps (Solution.implementation solution)) learning)
    as [Hsame _].
  destruct (SES.beforeMetrics env) as [before|e0].
  - destruct (SES.run_steps env _ learning) as [[[]|e1] l2]; cbn [snd] in Hsame.
    + destruct (SES.afterMetrics env); [discriminate|].
      intro H. injection H as <- <-. exact Hsame.
    + intro H. injection H as <- <-. exact Hsame.
  - intro H. injection H as <- <-. unfold same_record. tauto.
Qed.

(** What a run of [executeSolution] on stored records leaves. *)
Lemma executeSolution_found :
  forall challengeId solutionId st challenge solutions solution,
    JS.get (SES.challenges st) challengeId = Some challenge ->
    JS.get (SES.solutions st) challengeId = Some solutions ->
    find (fun s => String.eqb (Solution.id s) solutionId) solutions = Some solution ->
    let tried := SES.attempt env challenge solution (started env challengeId solutionId) in
    let learning := fst tried in
    let r := SES.executeSolution env challengeId solutionId st in
    fst r = match SES.save_fails env with
            | None => Ok tt
            | Some reason => Throw (Rejected reason)
            end
    /\ SES.learnings (snd r) = SES.learnings st ++ [learning]
    /\ SES.effects (snd r)
       = SES.effects st
         ++ [SES.emit "solution:executing" challengeId;
             SES.learned learning;
             SES.persist (SES.knowledge_path "learnings" (Learning.id learning))]
         ++ match SES.save_fails env with
            | None => [SES.emit "solution:completed" (Learning.id learning)]
            | Some _ => []
            end
    /\ JS.get (SES.challenges (snd r)) challengeId
       = Some (SystemChallenge.push_learning learning
                 (match snd tried with
                  | Some x => SystemChallenge.set_status x
                  | None => fun c => c
                  end (SystemChallenge.set_status executing challenge)))
    /\ SES.learningEngine (snd r)
       = match SES.save_fails env with
         | None => LE.updateKnowledge (SES.patternIds env) learning (SES.learningEngine st)
         | Some _ => SES.learningEngine st
         end.
Proof.
  intros cid sid st challenge solutions solution Hc Hs Hf tried learning r.
  subst r. unfold SES.executeSolution. rewrite Hc, Hs, Hf.
  fold (started env cid sid). fold tried.
  destruct tried as [l status] eqn:T. subst learning. cbn [fst snd].
  destruct (SES.save_fails env) as [reason|]; cbn [fst snd].
  - split; [reflexivity|]. split; [frame; reflexivity|].
    split; [frame; rewrite <- !app_assoc; reflexivity|].
    split; [|destruct status; frame; reflexivity].
    rewrite did_challenges, update_challenge_get, did_challenges.
    cbn [SES.challenges SES.set_learnings SES.set_solutions].
    rewrite set_status_opt_get, did_challenges, update_challenge_get, Hc.
    destruct status; reflexivity.
  - split; [reflexivity|]. split; [frame; reflexivity|].
    split; [frame; rewrite <- !app_assoc; reflexivity|].
    split; [|destruct status; frame; reflexivity].
    cbn [SES.challenges SES.set_learningEngine].
    rewrite did_challenges, did_challenges, update_challenge_get, did_challenges.
    cbn [SES.challenges SES.set_learnings SES.set_solutions].
    rewrite set_status_opt_get, did_challenges, update_challenge_get, Hc.
    destruct status; reflexivity.
Qed.

End Running.

Section Claims_execution.

Local Open Scope float_scope.




(** The floor under the error-rate denominator keeps it away from zero. *)
Lemma floor_is_not_zero : forall x : float, is_zero (JS.Math_max x 0.1) = false.
Proof.
  intro x. unfold JS.Math_max.
  destruct (is_nan x || is_nan 0.1); [reflexivity|].
  assert (Hz : is_zero x = true -> (x <? 0.1) = true).
  { unfold is_zero. rewrite eqb_spec, ltb_spec.
    change (Prim2SF zero) with (S754_zero false).
    change (Prim2SF 0.1) with (S754_finite false 7205759403792794 (-56)).
    generalize 7205759403792794%positive (-56)%Z. intros m0 e0.
    unfold SFeqb, SFltb, SFcompare.
    destruct (Prim2SF x) as [s|s| |s m e]; try discriminate; try reflexivity.
    - destruct s; discriminate.
    - destruct s; discriminate. }
  assert (Hp : (0.1 <? x) = true -> is_zero x = false).
  { unfold is_zero. rewrite eqb_spec, ltb_spec.
    change (Prim2SF zero) with (S754_zero false).
    change (Prim2SF 0.1) with (S754_finite false 7205759403792794 (-56)).
    generalize 7205759403792794%positive (-56)%Z. intros m0 e0.
    unfold SFeqb, SFltb, SFcompare.
    destruct (Prim2SF x) as [s|s| |s m e]; try discriminate; try reflexivity.
    - destruct s; reflexivity.
    - destruct s; reflexivity. }
  destruct (0.1 <? x) eqn:G; [apply Hp; reflexivity|].
  destruct (x <? 0.1) eqn:L; [reflexivity|].
  destruct (get_sign x); [reflexivity|].
  destruct (is_zero x); [|reflexivity].
  specialize (Hz eq_refl). discriminate.
Qed.

(** C7.  The learning a run on stored records produces has outcome success
    exactly when one of its improvement metrics is greater than 10.  When
    both snapshots are taken and no step raises, the metrics are (before -
    after) / before x 100 for cpu, memory and response time, and for the
    error rate the same with the denominator [Math.max(before, 0.1)], which
    is never zero. *)
Theorem improvement_decides_success :
  forall (env : SES.Run) (challengeId solutionId : string) (st : SES.state)
         (challenge : SystemChallenge.t) (solutions : list Solution.t)
         (solution : Solution.t),
    JS.get (SES.challenges st) challengeId = Some challenge ->
    JS.get (SES.solutions st) challengeId = Some solutions ->
    find (fun s => String.eqb (Solution.id s) solutionId) solutions = Some solution ->
    exists learning,
      SES.learnings (snd (SES.executeSolution env challengeId solutionId st))
      = SES.learnings st ++ [learning]
      /\ (Learning.outcome learning = success
          <-> exists name v, In (name, v) (Learning.metrics learning)
                             /\ JS.gt v 10 = true)
      /\ (forall before after,
             SES.beforeMetrics env = Ok before ->
             SES.afterMetrics env = Ok after ->
             fst (SES.run_steps env
                    (Implementation.steps (Solution.implementation solution))
                    (started env challengeId solutionId)) = Ok tt ->
             Learning.metrics learning
             = [ ("cpuImprovement"%string,
                  (SystemMetrics.cpu before - SystemMetrics.cpu after)
                  / SystemMetrics.cpu before * 100);
                 ("memoryImprovement"%string,
                  (SystemMetrics.memory before - SystemMetrics.memory after)
                  / SystemMetrics.memory before * 100);
                 ("responseTimeImprovement"%string,
                  (SystemMetrics.responseTime before - SystemMetrics.responseTime after)
                  / SystemMetrics.responseTime before * 100);
                 ("errorRateImprovement"%string,
                  (SystemMetrics.errorRate before - SystemMetrics.errorRate after)
                  / JS.Math_max (SystemMetrics.errorRate before) 0.1 * 100) ]
             /\ is_zero (JS.Math_max (SystemMetrics.errorRate before) 0.1) = false).
Proof.
  intros env cid sid st challenge solutions solution Hc Hs Hf.
  destruct (executeSolution_found env cid sid st Hc Hs Hf) as (_ & Hl & _).
  set (tried := SES.attempt env challenge solution (started env cid sid)) in *.
  exists (fst tried). split; [exact Hl|].
  pose proof (attempt_cases env challenge solution (started env cid sid)) as Hcases.
  fold tried in Hcases.
  destruct (raised env solution (started env cid sid)) as [[e l1]|] eqn:R.
  - pose proof (raised_record env solution _ R) as (_ & _ & _ & _ & Rm & _).
    cbn [started Learning.metrics] in Rm.
    destruct (on_error_result env solution e l1) as (Ho & Hm & _).
    rewrite Hcases. cbn [fst]. rewrite Ho, Hm, Rm. split.
    + split; [discriminate|]. intros (name & v & [] & _).
    + intros before after Hb Ha Hrun. exfalso. unfold raised in R.
      rewrite Hb, Ha in R. destruct (SES.run_steps env _ _) as [[[]|e1] l2];
        cbn [fst] in Hrun; discriminate.
  - destruct Hcases as (before & after & l1 & Hb & Ha & Hrun & Ht).
    assert (Hm : Learning.metrics (fst tried) = SES.calculateImprovement before after
                 /\ (Learning.outcome (fst tried) = success
                     <-> SES.isSuccessful (SES.calculateImprovement before after)
                                          (Solution.estimatedImpact solution) = true)).
    { rewrite Ht. destruct (SES.isSuccessful _ _); cbn [fst];
        cbn [Learning.metrics Learning.outcome Learning.push_lesson
             Learning.set_outcome Learning.set_metrics];
        (split; [reflexivity|]); split; congruence. }
    destruct Hm as [Hm Ho]. split.
    + rewrite Ho, Hm. apply isSuccessful_spec.
    + intros before' after' Hb' Ha' _.
      rewrite Hb in Hb'. rewrite Ha in Ha'. injection Hb' as <-. injection Ha' as <-.
      split; [exact Hm|apply floor_is_not_zero].
Qed.

(** CPU load 92 before and 60 after: the CPU improvement is about 34.8
    and the outcome is success. *)
Lemma improvement_decides_success_witness :
  let r := SES.executeSolution Sample.smooth_run "challenge_1" "solution_1"
                               (Sample.ready_system critical) in
  exists learning,
    SES.learnings (snd r) = [learning]
    /\ Learning.outcome learning = success
    /\ exists v, JS.get (Learning.metrics learning) "cpuImprovement" = Some v
                 /\ (34.78 <? v) = true /\ (v <? 34.79) = true.
Proof.
  cbv zeta.
  destruct (improvement_decides_success
              Sample.smooth_run "challenge_1" "solution_1"
              (Sample.ready_system critical)
              (challenge := SystemChallenge.set_proposedSolutions
                              (SolutionsOf "challenge_1")
                              (Sample.challengeOf critical ready))
              (solutions := [Sample.candidate 0.86])
              (solution := Sample.candidate 0.86)
              eq_refl eq_refl eq_refl)
    as (learning & Hl & Ho & Hm).
  destruct (Hm (Sample.metrics 92) (Sample.metrics 60) eq_refl eq_refl eq_refl)
    as [Hmetrics _].
  exists learning. split; [exact Hl|]. split.
  - apply Ho. exists "cpuImprovement"%string. eexists.
    rewrite Hmetrics. split; [left; reflexivity|vm_compute; reflexivity].
  - eexists. rewrite Hmetrics. split; [reflexivity|].
    split; vm_compute; reflexivity.
Defined.

End Claims_execution.

(** ** Further properties of recording *)

Section Extra_dedup.

Local Open Scope float_scope.

Lemma untyped_not_similar : forall rt challenge existing,
    PartialChallenge.type challenge = None ->
    SES.isSimilarTo rt challenge existing = false.
Proof.
  intros rt p e H. unfold SES.isSimilarTo. rewrite H. reflexivity.
Qed.

Lemma resolved_not_similar : forall rt challenge existing,
    SystemChallenge.status existing = resolved ->
    SES.isSimilarTo rt challenge existing = false.
Proof.
  intros rt p e H. unfold SES.isSimilarTo. rewrite H.
  destruct (match PartialChallenge.type p with Some t => _ | None => false end);
    reflexivity.
Qed.



(** X2.  A resolved challenge is never matched: when every stored
    challenge is resolved, a report is recorded as a new challenge under
    the generated id, even one that repeats a stored description word for
    word, and no stored challenge is touched. *)
Theorem resolved_challenges_absorb_nothing :
  forall (rt : JS.Runtime) (id : string) (now : Date) (ref : nat)
         (challenge : PartialChallenge.t) (st : SES.state),
    (forall key c, In (key, c) (SES.challenges st) ->
                   SystemChallenge.status c = resolved) ->
    JS.get (SES.challenges st) id = None ->
    let r := SES.recordChallenge rt id now ref challenge st in
    fst r = id
    /\ SES.challenges (snd r)
       = SES.challenges st
         ++ [(id, SystemChallenge.set_status analyzing
                    (SES.fullChallenge id now challenge))]
    /\ SES.effects (snd r)
       = SES.effects st
         ++ [SES.emit "challenge:recorded" id;
             SES.emit "challenge:analyzing" id;
             SES.persist (SES.knowledge_path "challenges"
                            (SES.or_default (PartialChallenge.id challenge) id))].
Proof.
  intros rt id now ref p st Hall Fresh r.
  assert (Hnone : SES.findSimilarChallenge rt (SES.challenges st) p = None).
  { apply find_none_iff. intros key c Hin. apply resolved_not_similar, (Hall key), Hin. }
  destruct (recordChallenge_new rt id now ref p st Hnone) as [R S].
  fold r in R, S. split; [exact R|].
  split; [rewrite S; apply set_absent, Fresh|].
  subst r. unfold SES.recordChallenge. rewrite Hnone. cbv zeta. cbn [snd].
  unfold SES.analyzeChallenge_start.
  rewrite did_challenges. cbn [SES.challenges SES.set_challenges].
  rewrite get_set_same. frame. rewrite <- !app_assoc. reflexivity.
Qed.

Lemma resolved_challenges_absorb_nothing_witness :
  let st := Sample.system true high resolved in
  let r := SES.recordChallenge JS.ascii_runtime "challenge_2" 9%Z 0%nat
             (Sample.report performance "High CPU usage detected: 92%") st in
  fst r = "challenge_2"%string
  /\ JS.keys (SES.challenges (snd r)) = ["challenge_1"; "challenge_2"]%string.
Proof.
  cbv zeta.
  pose proof (@resolved_challenges_absorb_nothing JS.ascii_runtime
                "challenge_2"%string 9%Z 0%nat
                (Sample.report performance "High CPU usage detected: 92%")
                (Sample.system true high resolved)) as H.
  cbv zeta in H. destruct H as (R & S & _).
  - intros key c [E|[]]. injection E as <- <-. reflexivity.
  - reflexivity.
  - split; [exact R|]. rewrite S. reflexivity.
Defined.

(** X3.  For ASCII descriptions the similarity does not depend on the
    case of the letters: on a runtime that treats ASCII text as ECMAScript
    prescribes, lower-casing either description beforehand changes
    nothing, so neither does it change what a report is merged into. *)
Theorem similarity_ignores_case :
  forall (rt : JS.Runtime) (str1 str2 : string),
    JS.conforms rt ->
    JS.is_ascii str1 = true -> JS.is_ascii str2 = true ->
    SES.calculateSimilarity rt (JS.toLowerCase rt str1) str2
    = SES.calculateSimilarity rt str1 str2
    /\ SES.calculateSimilarity rt str1 (JS.toLowerCase rt str2)
       = SES.calculateSimilarity rt str1 str2
    /\ SES.calculateSimilarity rt (JS.toLowerCase rt str1) (JS.toLowerCase rt str2)
       = SES.calculateSimilarity rt str1 str2.
Proof.
  intros rt str1 str2 Hrt H1 H2. unfold SES.calculateSimilarity.
  rewrite (conforming_lower_idem Hrt str1 H1), (conforming_lower_idem Hrt str2 H2).
  repeat split.
Qed.

End Extra_dedup.

Lemma similarity_ignores_case_witness :
  SES.calculateSimilarity JS.ascii_runtime
    (JS.toLowerCase JS.ascii_runtime "High CPU usage DETECTED") "high cpu usage"
  = SES.calculateSimilarity JS.ascii_runtime "High CPU usage DETECTED" "high cpu usage".
Proof.
  apply (@similarity_ignores_case JS.ascii_runtime
           "High CPU usage DETECTED" "high cpu usage" ascii_runtime_conforms
           eq_refl eq_refl).
Defined.

(** ** Further properties of analysis and execution *)

Section Extra_lifecycle.

Local Open Scope float_scope.

Lemma evaluateSolutions_nil_iff : forall engine history challenge solutions,
    SES.evaluateSolutions engine history challenge solutions = [] <-> solutions = [].
Proof.
  intros engine history challenge solutions. split.
  - intro H.
    pose proof (sort_perm (fun a b => Solution.confidence b - Solution.confidence a)
                  (map (SES.evaluate engine history) solutions)) as P.
    unfold SES.evaluateSolutions in H. rewrite H in P.
    apply Permutation_nil in P. destruct solutions; [reflexivity|discriminate].
  - intros ->. reflexivity.
Qed.



End Extra_lifecycle.

Section Extra_execution.

Local Open Scope float_scope.

(** The status assigned by the [try] / [catch] goes with the outcome. *)
Lemma attempt_status : forall env challenge solution learning,
    snd (SES.attempt env challenge solution learning)
    = match Learning.outcome (fst (SES.attempt env challenge solution learning)) with
      | success => Some resolved
      | partial => None
      | failure => Some failed
      end.
Proof.
  intros env challenge solution learning.
  pose proof (attempt_cases env challenge solution learning) as H.
  destruct (raised env solution learning) as [[e l1]|].
  - rewrite H. cbn [fst snd].
    destruct (on_error_result env solution e l1) as (Ho & _). rewrite Ho. reflexivity.
  - destruct H as (before & after & l1 & _ & _ & _ & Ht). rewrite Ht.
    destruct (SES.isSuccessful _ _); reflexivity.
Qed.

(** X5.  After [executeSolution] on stored records the status of the
    challenge follows the outcome of the learning produced: [resolved] for
    success, [failed] for failure, and for a partial outcome the challenge
    is left in status [executing].  The learning is also appended to the
    challenge's own list, and the executed solution gets its execution
    time. *)
Theorem execution_status_follows_outcome :
  forall (env : SES.Run) (challengeId solutionId : string) (st : SES.state)
         (challenge : SystemChallenge.t) (solutions : list Solution.t)
         (solution : Solution.t),
    JS.get (SES.challenges st) challengeId = Some challenge ->
    JS.get (SES.solutions st) challengeId = Some solutions ->
    find (fun s => String.eqb (Solution.id s) solutionId) solutions = Some solution ->
    let st' := snd (SES.executeSolution env challengeId solutionId st) in
    exists learning after,
      SES.learnings st' = SES.learnings st ++ [learning]
      /\ JS.get (SES.challenges st') challengeId = Some after
      /\ SystemChallenge.status after
         = match Learning.outcome learning with
           | success => resolved
           | partial => executing
           | failure => failed
           end
      /\ SystemChallenge.learnings after = SystemChallenge.learnings challenge ++ [learning]
      /\ option_map
           (fun l => option_map Solution.executionTime
                       (find (fun s => String.eqb (Solution.id s) solutionId) l))
           (JS.get (SES.solutions st') challengeId)
         = Some (Some (Some (SES.elapsed env))).
Proof.
  intros env cid sid st challenge solutions solution Hc Hs Hf st'.
  destruct (executeSolution_found env cid sid st Hc Hs Hf) as (_ & Hl & _ & Hg & _).
  fold st' in Hl, Hg.
  set (tried := SES.attempt env challenge solution (started env cid sid)) in *.
  eexists. eexists. split; [exact Hl|]. split; [exact Hg|].
  pose proof (attempt_status env challenge solution (started env cid sid)) as Hst.
  fold tried in Hst. rewrite Hst. split; [|split].
  - destruct (Learning.outcome (fst tried)); reflexivity.
  - destruct (Learning.outcome (fst tried)); reflexivity.
  - subst st'. unfold SES.executeSolution. rewrite Hc, Hs, Hf.
    fold (started env cid sid). fold tried.
    destruct tried as [l status].
    assert (Hfind : forall l0 s0,
               find (fun s => String.eqb (Solution.id s) sid) l0 = Some s0 ->
               option_map Solution.executionTime
                 (find (fun s => String.eqb (Solution.id s) sid)
                    (SES.update_first (fun s => String.eqb (Solution.id s) sid)
                       (Solution.set_executionTime (SES.elapsed env)) l0))
               = Some (Some (SES.elapsed env))).
    { induction l0 as [|x r IH]; intros s0 H0; [discriminate|].
      cbn [find SES.update_first] in *.
      destruct (String.eqb (Solution.id x) sid) eqn:E.
      - cbn [find Solution.id Solution.set_executionTime]. rewrite E. reflexivity.
      - cbn [find]. rewrite E. apply (IH s0 H0). }
    destruct (SES.save_fails env); cbn [snd]; frame;
      rewrite get_set_same; cbn [option_map]; rewrite (Hfind _ _ Hf); reflexivity.
Qed.

Lemma execution_status_follows_outcome_witness :
  option_map SystemChallenge.status
    (JS.get (SES.challenges
               (snd (SES.executeSolution Sample.smooth_run "challenge_1" "solution_1"
                       (Sample.ready_system critical))))
            "challenge_1")
  = Some resolved.
Proof.
  destruct (@execution_status_follows_outcome
              Sample.smooth_run "challenge_1"%string "solution_1"%string
              (Sample.ready_system critical)
              (SystemChallenge.set_proposedSolutions (SolutionsOf "challenge_1")
                 (Sample.challengeOf critical ready))
              [Sample.candidate 0.86] (Sample.candidate 0.86)
              eq_refl eq_refl eq_refl)
    as (learning & after & Hl & Hg & Hs & _).
  rewrite Hg. cbn [option_map]. rewrite Hs.
  injection Hl as <-. reflexivity.
Defined.

(** X6.  When the write of the learning fails, [executeSolution] rejects
    with that failure after the learning has been appended to the
    controller's history: no completion event is emitted and the learning
    engine is not told, so its history misses the learning. *)
Theorem failed_save_skips_the_engine :
  forall (env : SES.Run) (challengeId solutionId : string) (st : SES.state)
         (challenge : SystemChallenge.t) (solutions : list Solution.t)
         (solution : Solution.t) (reason : string),
    JS.get (SES.challenges st) challengeId = Some challenge ->
    JS.get (SES.solutions st) challengeId = Some solutions ->
    find (fun s => String.eqb (Solution.id s) solutionId) solutions = Some solution ->
    SES.save_fails env = Some reason ->
    let r := SES.executeSolution env challengeId solutionId st in
    exists learning,
      fst r = Throw (Rejected reason)
      /\ SES.learnings (snd r) = SES.learnings st ++ [learning]
      /\ SES.effects (snd r)
         = SES.effects st
           ++ [SES.emit "solution:executing" challengeId;
               SES.learned learning;
               SES.persist (SES.knowledge_path "learnings" (Learning.id learning))]
      /\ SES.learningEngine (snd r) = SES.learningEngine st.
Proof.
  intros env cid sid st challenge solutions solution reason Hc Hs Hf Hsave r.
  destruct (executeSolution_found env cid sid st Hc Hs Hf) as (Hr & Hl & He & _ & Hg).
  fold r in Hr, Hl, He, Hg. rewrite Hsave in Hr, He, Hg.
  eexists. split; [exact Hr|]. split; [exact Hl|].
  split; [rewrite He, app_nil_r; reflexivity|exact Hg].
Qed.

Lemma failed_save_skips_the_engine_witness :
  let env := SES.mkRun "learning_1" 5%Z 1200 (Ok (Sample.metrics 92))
               (Ok (Sample.metrics 60)) (fun _ _ => None) (Some "disk full"%string)
               Sample.patternIds in
  let r := SES.executeSolution env "challenge_1" "solution_1"
                               (Sample.ready_system critical) in
  fst r = Throw (Rejected "disk full")
  /\ List.length (SES.learnings (snd r)) = 1%nat
  /\ Engine.learningHistory (SES.learningEngine (snd r)) = [].
Proof.
  cbv zeta.
  destruct (@failed_save_skips_the_engine
              (SES.mkRun "learning_1" 5%Z 1200 (Ok (Sample.metrics 92))
                 (Ok (Sample.metrics 60)) (fun _ _ => None) (Some "disk full"%string)
                 Sample.patternIds)
              "challenge_1"%string "solution_1"%string
              (Sample.ready_system critical)
              (SystemChallenge.set_proposedSolutions (SolutionsOf "challenge_1")
                 (Sample.challengeOf critical ready))
              [Sample.candidate 0.86] (Sample.candidate 0.86) "disk full"%string
              eq_refl eq_refl eq_refl eq_refl)
    as (learning & Hr & Hl & _ & Hg).
  split; [exact Hr|]. split; [rewrite Hl; reflexivity|rewrite Hg; reflexivity].
Defined.

End Extra_execution.

Section Extra_queue.

Local Open Scope float_scope.

Lemma executeSolution_queue : forall env challengeId solutionId st,
    SES.executionQueue (snd (SES.executeSolution env challengeId solutionId st))
    = SES.executionQueue st.
Proof.
  intros env cid sid st. unfold SES.executeSolution.
  destruct (JS.get (SES.challenges st) cid) as [c|]; [|reflexivity].
  destruct (JS.get (SES.solutions st) cid) as [l|]; [|reflexivity].
  destruct (find _ l) as [s|]; [|reflexivity].
  destruct (SES.attempt env c s _) as [learning status].
  destruct (SES.save_fails env); cbn [snd]; destruct status; frame; reflexivity.
Qed.

(** X7.  [processExecutionQueue] does nothing on an empty queue and
    otherwise always removes the head of the queue, whatever happens next.
    A head that is the empty string, that names no stored challenge, or
    whose challenge has no stored candidate is dropped without any other
    change and without an error. *)
Theorem queue_head_is_always_consumed :
  forall (env : SES.Run) (st : SES.state),
    let r := SES.processExecutionQueue env st in
    (SES.executionQueue st = [] -> r = (Ok tt, st))
    /\ (forall challengeId rest,
           SES.executionQueue st = challengeId :: rest ->
           SES.executionQueue (snd r) = rest
           /\ (challengeId = ""%string
               \/ JS.get (SES.challenges st) challengeId = None
               \/ JS.get (SES.solutions st) challengeId = None
               \/ JS.get (SES.solutions st) challengeId = Some [] ->
               r = (Ok tt, SES.set_executionQueue rest st))).
Proof.
  intros env st r. subst r. unfold SES.processExecutionQueue. split.
  - intros ->. reflexivity.
  - intros id rest ->. split.
    + destruct (String.eqb id ""); [reflexivity|].
      cbn [SES.challenges SES.solutions SES.set_executionQueue].
      destruct (JS.get (SES.challenges st) id); [|reflexivity].
      destruct (JS.get (SES.solutions st) id) as [[|top others]|]; try reflexivity.
      rewrite executeSolution_queue. reflexivity.
    + intros [H|[H|[H|H]]].
      * subst id. reflexivity.
      * destruct (String.eqb id ""); [reflexivity|].
        cbn [SES.challenges SES.solutions SES.set_executionQueue].
        rewrite H. reflexivity.
      * destruct (String.eqb id ""); [reflexivity|].
        cbn [SES.challenges SES.solutions SES.set_executionQueue].
        rewrite H. destruct (JS.get (SES.challenges st) id); reflexivity.
      * destruct (String.eqb id ""); [reflexivity|].
        cbn [SES.challenges SES.solutions SES.set_executionQueue].
        rewrite H. destruct (JS.get (SES.challenges st) id); reflexivity.
Qed.

Lemma queue_head_is_always_consumed_witness :
  SES.processExecutionQueue Sample.smooth_run
    (SES.set_executionQueue ["challenge_9"; "challenge_1"]%string
                            (Sample.ready_system high))
  = (Ok tt, SES.set_executionQueue ["challenge_1"%string] (Sample.ready_system high)).
Proof.
  pose proof (@queue_head_is_always_consumed Sample.smooth_run
                (SES.set_executionQueue ["challenge_9"; "challenge_1"]%string
                                        (Sample.ready_system high))) as [_ H].
  destruct (H "challenge_9"%string ["challenge_1"%string] eq_refl) as [_ H'].
  apply H'. right. left. reflexivity.
Defined.

(** X8.  Whether a pattern's trigger matches a challenge depends on the
    metric conditions alone: the combinator, the log conditions and the
    event conditions are not read, so an [OR] trigger is treated as [AND].
    A trigger without metric conditions matches every challenge, and a
    trigger naming a metric that the challenge's context does not hold
    as a number matches none. *)
Theorem trigger_matching_reads_metrics_only :
  forall (challenge : SystemChallenge.t) (metrics : list MetricCondition.t)
         (logs logs' : list LogCondition.t) (events events' : list EventCondition.t)
         (combinator combinator' : Combinator),
    Engine.matchesPatternTrigger challenge
      (TriggerCondition.mk metrics logs events combinator)
    = Engine.matchesPatternTrigger challenge
        (TriggerCondition.mk metrics logs' events' combinator')
    /\ Engine.matchesPatternTrigger challenge
         (TriggerCondition.mk [] logs events combinator) = true
    /\ (forall m,
           In m metrics ->
           (forall x, JS.get (SystemChallenge.context challenge)
                             (MetricCondition.metric m) <> Some (JS.JNum x)) ->
           Engine.matchesPatternTrigger challenge
             (TriggerCondition.mk metrics logs events combinator) = false).
Proof.
  intros challenge metrics logs logs' events events' c c'.
  split; [reflexivity|]. split; [reflexivity|].
  intros m Hin Hno. unfold Engine.matchesPatternTrigger.
  cbn [TriggerCondition.metrics].
  apply not_true_is_false. intro H. rewrite forallb_forall in H.
  specialize (H m Hin).
  destruct (JS.get (SystemChallenge.context challenge) (MetricCondition.metric m))
    as [[]|]; try discriminate.
  eapply Hno. reflexivity.
Qed.

Lemma trigger_matching_reads_metrics_only_witness :
  let nested := SystemChallenge.set_context
                  [("metrics"%string, JS.JObj 0 [("cpu"%string, JS.JNum 92)]);
                   ("component"%string, JS.JStr "system")]
                  (Sample.challengeOf critical ready) in
  Engine.matchesPatternTrigger nested
    (TriggerCondition.mk [MetricCondition.mk "cpu" op_gt 80 (Some 300)] [] [] OR)
  = false.
Proof.
  cbv zeta.
  refine (proj2 (proj2 (@trigger_matching_reads_metrics_only _ _ [] [] [] [] OR OR))
            (MetricCondition.mk "cpu" op_gt 80 (Some 300)) _ _).
  - left. reflexivity.
  - intros x. discriminate.
Defined.

End Extra_queue.

(** ** The range of the risk score *)

Section Extra_risk.

Local Open Scope float_scope.

Lemma leb_zero_iff : forall x : float, (0 <=? x) = true <-> sf_nonneg (Prim2SF x).
Proof.
  intro x. rewrite leb_spec. change (Prim2SF 0) with (S754_zero false).
  unfold SFleb, SFcompare. destruct (Prim2SF x) as [s|s| |s m e]; cbn.
  - tauto.
  - destruct s; split; congruence.
  - split; [discriminate|contradiction].
  - destruct s; split; congruence.
Qed.

Lemma nan_spec : forall x : float, Prim2SF x = S754_nan -> is_nan x = true.
Proof.
  intros x H. unfold is_nan. rewrite eqb_spec, H. reflexivity.
Qed.

Lemma at_most_one_is_finite : forall x : float,
    (0 <=? x) = true -> (x <=? 1) = true -> forall s, Prim2SF x <> S754_infinity s.
Proof.
  intros x H0 H1 s E. apply leb_zero_iff in H0. rewrite leb_spec, E in H1.
  rewrite E in H0. cbn in H0. subst s.
  change (Prim2SF 1) with (S754_finite false 4503599627370496 (-52)) in H1.
  discriminate.
Qed.

Lemma impactWeight_finite : forall i,
    sf_nonneg (Prim2SF (impactWeight i))
    /\ forall s, Prim2SF (impactWeight i) <> S754_infinity s.
Proof.
  intros []; split; try reflexivity; intros s; vm_compute; discriminate.
Qed.

Lemma weightedRisk_nonneg : forall risks,
    (forall r, In r risks ->
               (0 <=? Risk.probability r) = true /\ (Risk.probability r <=? 1) = true) ->
    sf_nonneg (Prim2SF (weightedRisk risks)).
Proof.
  intros risks. unfold weightedRisk.
  assert (H : forall acc,
             sf_nonneg (Prim2SF acc) ->
             (forall r, In r risks ->
                        (0 <=? Risk.probability r) = true
                        /\ (Risk.probability r <=? 1) = true) ->
             sf_nonneg
               (Prim2SF (fold_left
                           (fun acc r => acc + Risk.probability r
                                               * impactWeight (Risk.impact r))
                           risks acc))).
  { induction risks as [|r rest IH]; intros acc Hacc Hall; cbn [fold_left].
    - exact Hacc.
    - apply IH; [|intros r' Hr'; apply Hall; right; exact Hr'].
      destruct (Hall r (or_introl eq_refl)) as [H0 H1].
      destruct (impactWeight_finite (Risk.impact r)) as [Hw Hf].
      rewrite add_spec, mul_spec. apply SFadd_nonneg; [exact Hacc|].
      apply SFmul_nonneg; [apply leb_zero_iff, H0|exact Hw| |exact Hf].
      apply at_most_one_is_finite; assumption. }
  apply H. exact I.
Qed.

Lemma num_of_nat_plus : forall n, sf_plus (Prim2SF (JS.num_of_nat n)).
Proof.
  intro n. unfold JS.num_of_nat. rewrite of_uint63_spec.
  apply binary_normalize_plus.
  apply (Uint63.to_Z_bounded (Uint63.of_Z (Z.of_nat n))).
Qed.

(** X9.  When every risk of a solution has a probability between 0 and 1,
    the risk score is either NaN or a number between 0 and 1: the sum of
    the weighted probabilities is never negative and [Math.min] cuts the
    mean at 1. *)
Theorem risk_score_range :
  forall s : Solution.t,
    (forall r, In r (Solution.risks s) ->
               (0 <=? Risk.probability r) = true /\ (Risk.probability r <=? 1) = true) ->
    is_nan (SES.calculateRiskScore s) = true
    \/ ((0 <=? SES.calculateRiskScore s) = true
        /\ (SES.calculateRiskScore s <=? 1) = true).
Proof.
  intros s Hall. rewrite calculateRiskScore_eq.
  set (mean := weightedRisk (Solution.risks s)
               / JS.num_of_nat (List.length (Solution.risks s))).
  destruct (@SFdiv_nonneg prec emax _ _ (@weightedRisk_nonneg _ Hall)
              (num_of_nat_plus (List.length (Solution.risks s)))) as [Hnan|Hpos].
  - left. assert (Hm : mean = nan).
    { apply Prim2SF_inj. subst mean. rewrite div_spec. exact Hnan. }
    rewrite Hm. reflexivity.
  - assert (Hm : (0 <=? mean) = true).
    { apply leb_zero_iff. subst mean. rewrite div_spec. exact Hpos. }
    right. split; [apply Math_min_one_ge, Hm|].
    apply Math_min_one_le. unfold is_nan. rewrite eqb_spec.
    apply leb_zero_iff in Hm. unfold SFeqb, SFcompare.
    destruct (Prim2SF mean) as [z|z| |z m e]; cbn in Hm; try contradiction.
    + reflexivity.
    + destruct z; reflexivity.
    + destruct z; cbn; rewrite Z.compare_refl, ?Pos.compare_cont_refl; reflexivity.
Qed.

Lemma risk_score_range_witness :
  (0 <=? SES.calculateRiskScore (Sample.candidate 0.86)) = true
  /\ (SES.calculateRiskScore (Sample.candidate 0.86) <=? 1) = true.
Proof.
  destruct (@risk_score_range (Sample.candidate 0.86)) as [Hn|H].
  - intros r [<-|[]]. split; reflexivity.
  - vm_compute in Hn. discriminate.
  - exact H.
Defined.

End Extra_risk.

(** ** Further properties of the learning engine and of integration *)

Section Extra_engine.

Local Open Scope float_scope.

Lemma zero_div_not_above_half : forall y : float, JS.gt (0 / y) 0.5 = false.
Proof.
  intro y. unfold JS.gt. rewrite ltb_spec, div_spec.
  change (Prim2SF 0) with (S754_zero false).
  change (Prim2SF 0.5) with (S754_finite false 4503599627370496 (-53)).
  generalize 4503599627370496%positive (-53)%Z. intros m0 e0.
  unfold SF64div, SFdiv, SFltb, SFcompare.
  destruct (Prim2SF y) as [s|s| |s m e]; try reflexivity.
Qed.

Lemma stepless_is_unrelated : forall solution pattern,
    Implementation.steps (Solution.implementation solution) = [] ->
    Engine.isSolutionRelatedToPattern solution pattern = false.
Proof.
  intros s p H. unfold Engine.isSolutionRelatedToPattern. rewrite H.
  cbn [map filter List.length]. change (JS.num_of_nat 0) with 0.
  apply zero_div_not_above_half.
Qed.

Lemma estimate_default : forall pats solution,
    (forall k p, In (k, p) pats ->
                 Engine.isSolutionRelatedToPattern solution p = false) ->
    Engine.estimateSuccessRateFromPatterns pats solution = 0.5.
Proof.
  intros pats s H. unfold Engine.estimateSuccessRateFromPatterns.
  assert (G : forall acc,
             fold_left
               (fun '(totalRate, count) '(_, pattern) =>
                  if Engine.isSolutionRelatedToPattern s pattern
                  then (totalRate + Pattern.successRate pattern, S count)
                  else (totalRate, count))
               pats acc = acc).
  { induction pats as [|[k p] r IH]; intro acc; cbn [fold_left]; [reflexivity|].
    destruct acc as [t c]. rewrite (H k p (or_introl eq_refl)).
    apply IH. intros k' p' Hin. apply (H k'). right. exact Hin. }
  rewrite G. reflexivity.
Qed.

(** X10.  For a solution that no learning of the history refers to and
    that no pattern of the library is related to, [calculateSuccessRate]
    is the default 0.5; a solution without steps is related to no
    pattern, whatever the library holds. *)
Theorem success_rate_defaults_to_half :
  forall (pats : list (string * Pattern.t)) (solution : Solution.t)
         (learnings : list Learning.t),
    (forall l, In l learnings -> Learning.solutionId l <> Solution.id solution) ->
    (forall k p, In (k, p) pats ->
                 Engine.isSolutionRelatedToPattern solution p = false)
    \/ Implementation.steps (Solution.implementation solution) = [] ->
    LE.calculateSuccessRate pats solution learnings = 0.5.
Proof.
  intros pats s learnings Hl Hp.
  unfold LE.calculateSuccessRate, Engine.calculateSuccessRate.
  assert (Hf : filter (fun l => Engine.isSimilarSolution (Learning.solutionId l) s)
                      learnings = []).
  { induction learnings as [|l r IH]; cbn [filter]; [reflexivity|].
    unfold Engine.isSimilarSolution at 1.
    destruct (String.eqb (Learning.solutionId l) (Solution.id s)) eqn:E.
    - apply String.eqb_eq in E. exfalso. apply (Hl l); [left; reflexivity|exact E].
    - apply IH. intros l' Hin. apply Hl. right. exact Hin. }
  rewrite Hf. cbn [List.length Nat.eqb].
  apply estimate_default. destruct Hp as [Hp|Hs]; [exact Hp|].
  intros k p _. apply stepless_is_unrelated, Hs.
Qed.

Lemma success_rate_defaults_to_half_witness :
  LE.calculateSuccessRate Engine.basePatterns (Sample.candidate 0.86) [] = 0.5.
Proof.
  apply (@success_rate_defaults_to_half Engine.basePatterns (Sample.candidate 0.86) []).
  - intros l [].
  - left. intros k p [E|[E|[E|[]]]]; injection E as <- <-; vm_compute; reflexivity.
Defined.

(** X11.  As the code stands, the learning engine's pattern library never
    changes: after any sequence of [updateKnowledge] calls the patterns are
    those it started with, and only the history has grown, by the learnings
    in order; [extractPatterns] likewise returns the library it was
    given. *)
Theorem pattern_library_is_constant :
  forall (ids : nat -> string) (learnings : list Learning.t) (st : Engine.state),
    let st' := fold_left (fun st l => LE.updateKnowledge ids l st) learnings st in
    Engine.patterns st' = Engine.patterns st
    /\ Engine.learningHistory st' = Engine.learningHistory st ++ learnings
    /\ snd (LE.extractPatterns ids learnings (Engine.patterns st)) = Engine.patterns st.
Proof.
  intros ids learnings. induction learnings as [|l r IH]; intro st; cbn [fold_left].
  - rewrite app_nil_r, stub_extractPatterns. repeat split.
  - destruct (IH (LE.updateKnowledge ids l st)) as (Hp & Hh & _).
    rewrite stub_updateKnowledge in Hp, Hh |- *.
    cbn [Engine.patterns Engine.learningHistory] in Hp, Hh.
    rewrite stub_extractPatterns. split; [exact Hp|].
    split; [rewrite Hh, <- app_assoc; reflexivity|reflexivity].
Qed.

End Extra_engine.

Section Extra_integration.

Variable write_fails : string -> option string.
Variable now : Date.

Lemma for_each_writes_until : forall (A : Type) (dir : string) (id : A -> string)
                                    (doc : A -> KT.Document) (xs : list A) (st : KT.state),
    let docs := map (fun x => written dir (id x) (doc x)) xs in
    KT.for_each (fun x => KT.writeFile write_fails dir (id x) (doc x)) xs st
    = (write_result write_fails docs,
       with_files st (firstn (writable_prefix write_fails docs) docs)).
Proof.
  intros A dir id doc xs. induction xs as [|x r IH]; intro st; cbn zeta;
    cbn [KT.for_each map writable_prefix write_result written].
  - cbn [firstn]. rewrite with_files_nil. reflexivity.
  - unfold KT.writeFile at 1.
    destruct (write_fails (dir ++ "/" ++ id x ++ ".json")%string) as [reason|].
    + cbn [firstn]. rewrite with_files_nil. reflexivity.
    + rewrite IH. cbn [firstn]. f_equal. unfold with_files, written.
      cbn [KT.transferHistory KT.knowledgeEndpoints KT.compatibilityVersion KT.files].
      rewrite <- app_assoc. reflexivity.
Qed.

Lemma write_result_app : forall a b,
    write_result write_fails (a ++ b)
    = match write_result write_fails a with
      | Ok _ => write_result write_fails b
      | Throw e => Throw e
      end.
Proof.
  induction a as [|[path d] r IH]; intro b; cbn [app write_result]; [reflexivity|].
  destruct (write_fails path); [reflexivity|apply IH].
Qed.

Lemma writable_prefix_app : forall a b,
    firstn (writable_prefix write_fails (a ++ b)) (a ++ b)
    = match write_result write_fails a with
      | Ok _ => a ++ firstn (writable_prefix write_fails b) b
      | Throw _ => firstn (writable_prefix write_fails a) a
      end.
Proof.
  induction a as [|[path d] r IH]; intro b;
    cbn [app write_result writable_prefix]; [reflexivity|].
  destruct (write_fails path); [reflexivity|].
  cbn [firstn]. rewrite IH. destruct (write_result write_fails r); reflexivity.
Qed.

Lemma writable_prefix_full : forall a u,
    write_result write_fails a = Ok u ->
    firstn (writable_prefix write_fails a) a = a.
Proof.
  induction a as [|[path d] r IH]; intros u H; cbn [write_result writable_prefix] in *;
    [reflexivity|].
  destruct (write_fails path); [discriminate|].
  cbn [firstn]. f_equal. apply (IH u H).
Qed.

(** X12.  [integrateKnowledge] writes the documents of a package in order
    (patterns, adapted solutions, tagged learnings) and stops at the first
    write that fails: what was written before stays, nothing after it is
    written, and the failure is the result.  Every incoming pattern is
    written as a new file; none is merged into an existing pattern. *)
Theorem integration_stops_at_first_failed_write :
  forall (knowledgePackage : KnowledgeTransferPackage.t) (st : KT.state),
    let docs := integrated now knowledgePackage in
    KT.integrateKnowledge write_fails now knowledgePackage st
    = (write_result write_fails docs,
       with_files st (firstn (writable_prefix write_fails docs) docs)).
Proof.
  intros pkg st docs. subst docs. unfold integrated, KT.integrateKnowledge,
    KT.integratePatterns, KT.adaptSolutions, KT.recordTransferredLearnings,
    KT.savePattern, KT.saveSolution, KT.saveLearning, KT.findSimilarPattern.
  rewrite (for_each_writes_until "knowledge-base/patterns" Pattern.id KT.DocPattern).
  cbv zeta. rewrite !write_result_app, !writable_prefix_app.
  destruct (write_result write_fails
              (map _ (KnowledgeTransferPackage.patterns pkg))) as [u|e] eqn:Ep;
    [|reflexivity].
  rewrite (writable_prefix_full _ Ep).
  rewrite (for_each_writes_until "knowledge-base/solutions"
             (fun s => Solution.id (KT.adaptSolutionToLocal s))
             (fun s => KT.DocSolution (KT.adaptSolutionToLocal s))).
  cbv zeta.
  destruct (write_result write_fails
              (map _ (KnowledgeTransferPackage.solutions pkg))) as [v|e] eqn:Es.
  - rewrite (writable_prefix_full _ Es).
    rewrite (for_each_writes_until "knowledge-base/learnings" Learning.id
               (fun l => KT.DocLearning l
                           (Some (KT.mkMeta true now
                                    (JS.first_piece "_" (Learning.id l)))))).
    cbv zeta. rewrite !with_files_app. reflexivity.
  - rewrite with_files_app. reflexivity.
Qed.

End Extra_integration.

(** A receiver without the solutions directory keeps the three pattern
    files and rejects with the failure of the first solution write. *)
Lemma integration_stops_at_first_failed_write_witness :
  let r := KT.integrateKnowledge Sample.no_solutions_dir 7%Z
             (Sample.package "1.3.0") KT.initial in
  fst r = Throw (Rejected "ENOENT: no such file or directory")
  /\ map fst (KT.files (snd r))
     = ["knowledge-base/patterns/high-cpu-scale.json";
        "knowledge-base/patterns/memory-leak-restart.json";
        "knowledge-base/patterns/video-queue-optimization.json"]%string.
Proof.
  cbv zeta.
  rewrite (@integration_stops_at_first_failed_write Sample.no_solutions_dir 7%Z
             (Sample.package "1.3.0") KT.initial).
  split; reflexivity.
Defined.

(** ** An invariant of the controller: no challenge stays pending *)

Section MapMembers.

Variable V : Type.

Lemma in_set_cases : forall (m : list (string * V)) k v k' v',
    In (k', v') (JS.set m k v) -> In (k', v') m \/ v' = v.
Proof.
  induction m as [|[k0 v0] r IH]; intros k v k' v'; cbn [JS.set].
  - intros [H|[]]. injection H as _ <-. right. reflexivity.
  - destruct (String.eqb k0 k).
    + intros [H|H]; [injection H as _ <-; right; reflexivity|left; right; exact H].
    + intros [H|H]; [left; left; exact H|].
      destruct (IH _ _ _ _ H) as [H'|H']; [left; right; exact H'|right; exact H'].
Qed.

Lemma get_in : forall (m : list (string * V)) k v,
    JS.get m k = Some v -> In (k, v) m.
Proof.
  induction m as [|[k0 v0] r IH]; intros k v; cbn [JS.get]; [discriminate|].
  destruct (String.eqb k0 k) eqn:E.
  - intro H. injection H as <-. apply String.eqb_eq in E. subst k0. left. reflexivity.
  - intro H. right. apply IH, H.
Qed.

End MapMembers.

Section NoPending.

Variable rt : JS.Runtime.

Lemma no_pending_frame : forall st st',
    SES.challenges st' = SES.challenges st -> no_pending st -> no_pending st'.
Proof. intros st st' E H key c. rewrite E. apply H. Qed.

Lemma no_pending_set : forall st k v,
    SystemChallenge.status v <> pending ->
    no_pending st ->
    no_pending (SES.set_challenges (JS.set (SES.challenges st) k v) st).
Proof.
  intros st k v Hv H key c Hin. cbn [SES.challenges SES.set_challenges] in Hin.
  destruct (in_set_cases _ _ _ _ _ Hin) as [H'|H'];
    [apply (H key), H'|subst c; exact Hv].
Qed.

Lemma no_pending_update : forall st k f,
    (forall c, SystemChallenge.status c <> pending ->
               SystemChallenge.status (f c) <> pending) ->
    no_pending st -> no_pending (SES.update_challenge k f st).
Proof.
  intros st k f Hf H. unfold SES.update_challenge.
  destruct (JS.get (SES.challenges st) k) as [c|] eqn:E; [|exact H].
  apply no_pending_set; [|exact H]. apply Hf, (H k), get_in, E.
Qed.

Lemma no_pending_status : forall st k s,
    s <> pending ->
    no_pending st -> no_pending (SES.update_challenge k (SystemChallenge.set_status s) st).
Proof. intros st k s Hs. apply no_pending_update. intros c _. exact Hs. Qed.

Ltac keeps :=
  repeat first
    [ assumption
    | apply no_pending_status; [discriminate|]
    | apply no_pending_update; [intros ? ?; assumption|]
    | match goal with
      | |- no_pending (SES.did _ ?s) => apply no_pending_frame with (st := s); [reflexivity|]
      | |- no_pending (SES.set_solutions _ ?s) => apply no_pending_frame with (st := s); [reflexivity|]
      | |- no_pending (SES.set_learnings _ ?s) => apply no_pending_frame with (st := s); [reflexivity|]
      | |- no_pending (SES.set_executionQueue _ ?s) =>
          apply no_pending_frame with (st := s); [reflexivity|]
      | |- no_pending (SES.set_learningEngine _ ?s) =>
          apply no_pending_frame with (st := s); [reflexivity|]
      end ].

Lemma report_no_pending : forall f challenge st,
    no_pending st -> no_pending (SES.report rt f challenge st).
Proof.
  intros f p st H. unfold SES.report.
  destruct (SES.findSimilarChallenge rt (SES.challenges st) p) as [[key first]|] eqn:E.
  - rewrite (recordChallenge_seen _ _ _ _ _ _ E). cbn [snd].
    apply no_pending_set; [|exact H].
    destruct (find_some_in _ _ _ E) as [Hin _]. exact (H key first Hin).
  - destruct (recordChallenge_new rt (SES.fresh_id f) (SES.fresh_now f) (SES.fresh_ref f)
                                  p st E) as [_ Hc].
    intros key c Hin. rewrite Hc in Hin.
    destruct (in_set_cases _ _ _ _ _ Hin) as [H'|H'];
      [apply (H key), H'|subst c; discriminate].
Qed.

Lemma resume_no_pending : forall generate challengeId st,
    no_pending st -> no_pending (SES.analyzeChallenge_resume generate challengeId st).
Proof.
  intros generate id st H. unfold SES.analyzeChallenge_resume, SES.analysis_failed.
  destruct (JS.get (SES.challenges st) id) as [c|]; [|exact H].
  destruct (generate c _) as [generated|e]; [|keeps].
  cbv zeta.
  destruct (SES.evaluateSolutions _ _ c generated) as [|top rest]; [keeps|].
  destruct (SES.shouldAutoExecute _ c top); keeps.
Qed.

Lemma attempt_not_pending : forall env challenge solution learning,
    snd (SES.attempt env challenge solution learning) <> Some pending.
Proof.
  intros env c s l. unfold SES.attempt.
  destruct (SES.beforeMetrics env); [|discriminate].
  destruct (SES.run_steps env _ l) as [[]]; [|discriminate].
  destruct (SES.afterMetrics env); [|discriminate].
  destruct (SES.isSuccessful _ _); discriminate.
Qed.

Lemma executeSolution_no_pending : forall env challengeId solutionId st,
    no_pending st -> no_pending (snd (SES.executeSolution env challengeId solutionId st)).
Proof.
  intros env cid sid st H. unfold SES.executeSolution.
  destruct (JS.get (SES.challenges st) cid) as [c|]; [|exact H].
  destruct (JS.get (SES.solutions st) cid) as [l|]; [|exact H].
  destruct (find _ l) as [s|]; [|exact H].
  cbv zeta.
  pose proof (attempt_not_pending env c s
                (Learning.mk (SES.learningId env) cid sid failure [] []
                             (SES.timestamp env) [])) as Ha.
  destruct (SES.attempt env c s _) as [learning status]. cbn [snd] in Ha.
  assert (Hs : forall st', no_pending st' -> no_pending (SES.set_status_opt cid status st')).
  { intros st' H'. unfold SES.set_status_opt. destruct status as [x|]; [|exact H'].
    apply no_pending_status; [congruence|exact H']. }
  destruct (SES.save_fails env); cbn [snd]; keeps; apply Hs; keeps.
Qed.

Lemma processExecutionQueue_no_pending : forall env st,
    no_pending st -> no_pending (snd (SES.processExecutionQueue env st)).
Proof.
  intros env st H. unfold SES.processExecutionQueue.
  destruct (SES.executionQueue st) as [|cid rest]; [exact H|].
  cbv zeta. destruct (String.eqb cid ""); [cbn [snd]; keeps|].
  destruct (JS.get _ cid); [|cbn [snd]; keeps].
  destruct (JS.get _ cid) as [[|top r]|]; [cbn [snd]; keeps| |cbn [snd]; keeps].
  apply executeSolution_no_pending. keeps.
Qed.

Lemma analyzeMetrics_no_pending : forall env metrics st,
    no_pending st -> no_pending (SES.analyzeMetrics rt env metrics st).
Proof.
  intros env m st H. unfold SES.analyzeMetrics. cbv zeta.
  repeat match goal with
         | |- no_pending (if ?b then _ else _) => destruct b
         | |- no_pending (SES.report rt _ _ _) => apply report_no_pending
         end; exact H.
Qed.

Lemma performSelfDiagnosis_no_pending : forall env st,
    no_pending st -> no_pending (SES.performSelfDiagnosis rt env st).
Proof.
  intros env st H. unfold SES.performSelfDiagnosis. cbv zeta.
  repeat match goal with
         | |- no_pending (SES.did _ ?s) => apply no_pending_frame with (st := s); [reflexivity|]
         | |- no_pending (if ?b then _ else _) => destruct b
         | |- no_pending (SES.report rt _ _ _) => apply report_no_pending
         end; exact H.
Qed.

Lemma after_no_pending : forall c st, no_pending st -> no_pending (after rt c st).
Proof.
  intros [f p|generate id|env cid sid|env|env m|env|] st H; cbn [after].
  - apply report_no_pending, H.
  - apply resume_no_pending, H.
  - apply executeSolution_no_pending, H.
  - apply processExecutionQueue_no_pending, H.
  - apply analyzeMetrics_no_pending, H.
  - apply performSelfDiagnosis_no_pending, H.
  - apply no_pending_frame with (st := st); [reflexivity|exact H].
Qed.

Lemma no_pending_count : forall st,
    no_pending st -> SES.count_status pending st = 0%float.
Proof.
  intros st H. unfold SES.count_status.
  assert (E : filter (fun c => ChallengeStatus_eqb (SystemChallenge.status c) pending)
                     (JS.values (SES.challenges st)) = []).
  { unfold no_pending in H. induction (SES.challenges st) as [|[k c] r IH];
      [reflexivity|].
    cbn [JS.values map snd filter].
    destruct (ChallengeStatus_eqb (SystemChallenge.status c) pending) eqn:Ec.
    - exfalso. apply (H k c); [left; reflexivity|].
      destruct (SystemChallenge.status c); try discriminate. reflexivity.
    - apply IH. intros key c' Hin. apply (H key). right. exact Hin. }
  rewrite E. reflexivity.
Qed.

(** X13.  [pending] is never the status of a challenge the controller has
    worked on: if no stored challenge is pending (as in a controller that
    starts empty), none is after any sequence of calls of
    [recordChallenge], resumed analyses, [executeSolution],
    [processExecutionQueue], [analyzeMetrics], [performSelfDiagnosis] and
    [stop].  So [getSystemHealth] reports 0 pending challenges, and the
    test [health.pendingChallenges > 10] of the diagnosis fails. *)
Theorem no_challenge_stays_pending :
  forall (calls : list Call) (st : SES.state),
    no_pending st ->
    let st' := after_all rt calls st in
    no_pending st'
    /\ forall uptime memoryUsage,
        let health := SES.getSystemHealth uptime memoryUsage st' in
        SES.pendingChallenges health = 0%float
        /\ JS.gt (SES.pendingChallenges health) 10 = false.
Proof.
  intros calls st H st'. subst st'.
  assert (Hn : no_pending (after_all rt calls st)).
  { unfold after_all. revert st H.
    induction calls as [|c r IH]; intros st H; cbn [fold_left]; [exact H|].
    apply IH, after_no_pending, H. }
  split; [exact Hn|]. intros uptime memoryUsage health. subst health.
  cbn [SES.getSystemHealth SES.pendingChallenges].
  rewrite (no_pending_count Hn). split; reflexivity.
Qed.

End NoPending.

(** A controller that starts empty, records a report, analyses it, runs
    the candidate and diagnoses itself. *)
Lemma no_challenge_stays_pending_witness :
  let st' :=
    after_all JS.ascii_runtime
      [ recordChallenge_call (Sample.fresh "challenge_1")
          (Sample.report performance "High CPU usage detected: 92%");
        analysis_resumes Sample.generate "challenge_1";
        executeSolution_call Sample.smooth_run "challenge_1" "solution_1";
        performSelfDiagnosis_call (Sample.diagnosis "challenge_2") ]
      SES.initial in
  no_pending st'
  /\ forall uptime memoryUsage,
      let health := SES.getSystemHealth uptime memoryUsage st' in
      SES.pendingChallenges health = 0%float
      /\ JS.gt (SES.pendingChallenges health) 10 = false.
Proof.
  apply (@no_challenge_stays_pending JS.ascii_runtime
           [ recordChallenge_call (Sample.fresh "challenge_1")
               (Sample.report performance "High CPU usage detected: 92%");
             analysis_resumes Sample.generate "challenge_1";
             executeSolution_call Sample.smooth_run "challenge_1" "solution_1";
             performSelfDiagnosis_call (Sample.diagnosis "challenge_2") ]
           SES.initial).
  intros key c [].
Defined.

(** ** Self-diagnosis *)

Section Diagnosis.

Variable rt : JS.Runtime.

Lemma in_set_same : forall (V : Type) (m : list (string * V)) k v,
    exists k', In (k', v) (JS.set m k v).
Proof.
  intros V m k v. induction m as [|[k0 v0] r IH]; cbn [JS.set].
  - exists k. left. reflexivity.
  - destruct (String.eqb k0 k).
    + exists k0. left. reflexivity.
    + destruct IH as [k' H]. exists k'. right. exact H.
Qed.

Lemma find_exists : forall challenge stored key c,
    In (key, c) stored -> SES.isSimilarTo rt challenge c = true ->
    exists hit, SES.findSimilarChallenge rt stored challenge = Some hit.
Proof.
  intros p stored key c Hin Hs.
  destruct (SES.findSimilarChallenge rt stored p) as [hit|] eqn:E; [exists hit; reflexivity|].
  rewrite find_none_iff in E. rewrite (E key c Hin) in Hs. discriminate.
Qed.

(** A finding reported again, with the same type and description, meets
    the challenge its first report stored or touched. *)
Lemma report_again : forall f challenge challenge' st t d,
    PartialChallenge.type challenge = Some t ->
    PartialChallenge.type challenge' = Some t ->
    PartialChallenge.description challenge = Some d ->
    PartialChallenge.description challenge' = Some d ->
    JS.gt (SES.calculateSimilarity rt d d) 0.8 = true ->
    exists hit,
      SES.findSimilarChallenge rt (SES.challenges (SES.report rt f challenge st)) challenge'
      = Some hit.
Proof.
  intros f p p' st t d Ht Ht' Hd Hd' Hsim. unfold SES.report.
  destruct (SES.findSimilarChallenge rt (SES.challenges st) p) as [[key first]|] eqn:E.
  - rewrite (recordChallenge_seen _ _ _ _ _ _ E). cbn [snd SES.challenges SES.set_challenges].
    destruct (find_some_in _ _ _ E) as [_ Hs].
    destruct (in_set_same (SES.challenges st) key
                          (SES.noteOccurrence (SES.fresh_now f) (SES.fresh_ref f) first))
      as [k' Hin].
    apply (@find_exists _ _ _ _ Hin).
    unfold SES.isSimilarTo in Hs |- *. rewrite Ht in Hs. rewrite Ht'.
    rewrite Hd in Hs. rewrite Hd'. exact Hs.
  - destruct (recordChallenge_new rt (SES.fresh_id f) (SES.fresh_now f) (SES.fresh_ref f)
                                  p st E) as [_ Hc].
    rewrite Hc.
    destruct (in_set_same (SES.challenges st) (SES.fresh_id f)
                (SystemChallenge.set_status analyzing
                   (SES.fullChallenge (SES.fresh_id f) (SES.fresh_now f) p)))
      as [k' Hin].
    apply (@find_exists _ _ _ _ Hin).
    unfold SES.isSimilarTo, SES.fullChallenge. rewrite Ht', Hd', Ht, Hd.
    cbn [SystemChallenge.type SystemChallenge.status SystemChallenge.description
         SystemChallenge.set_status SES.or_default SES.or_empty ChallengeStatus_eqb negb].
    rewrite Hsim.
    replace (ChallengeType_eqb t t) with true; [reflexivity|].
    symmetry. apply ChallengeType_eqb_eq. reflexivity.
Qed.

Lemma report_learnings : forall f challenge st,
    SES.learnings (SES.report rt f challenge st) = SES.learnings st.
Proof.
  intros f p st. unfold SES.report, SES.recordChallenge.
  destruct (SES.findSimilarChallenge rt (SES.challenges st) p) as [[key first]|];
    [reflexivity|].
  cbv zeta. cbn [snd]. unfold SES.analyzeChallenge_start.
  destruct (JS.get _ (SES.fresh_id f)); [|reflexivity].
  cbn [SES.learnings SES.did]. rewrite update_challenge_learnings. reflexivity.
Qed.

Lemma report_seen : forall f challenge st hit,
    SES.findSimilarChallenge rt (SES.challenges st) challenge = Some hit ->
    SES.effects (SES.report rt f challenge st) = SES.effects st
    /\ JS.keys (SES.challenges (SES.report rt f challenge st)) = JS.keys (SES.challenges st).
Proof.
  intros f p st [key first] E. unfold SES.report.
  rewrite (recordChallenge_seen _ _ _ _ _ _ E). cbn [snd]. split; [reflexivity|].
  cbn [SES.challenges SES.set_challenges].
  destruct (find_some_in _ _ _ E) as [Hin _].
  assert (G : forall (m : list (string * SystemChallenge.t)) k v v',
             In (k, v) m -> JS.keys (JS.set m k v') = JS.keys m).
  { induction m as [|[k0 v0] r IH]; intros k v v' H; [destruct H|].
    cbn [JS.set]. destruct (String.eqb k0 k) eqn:Ek; [reflexivity|].
    destruct H as [H|H]; [injection H as -> ->; rewrite String.eqb_refl in Ek;
                          discriminate|].
    cbn [JS.keys map fst]. f_equal. apply (IH _ _ _ H). }
  apply (G _ _ _ _ Hin).
Qed.

(** The diagnosis of a controller without pending challenges. *)
Lemma performSelfDiagnosis_no_pending_eq : forall env st,
    no_pending st ->
    SES.performSelfDiagnosis rt env st
    = let st0 := SES.did (SES.emit "diagnosis:started" "") st in
      let health :=
        SES.getSystemHealth (SES.process_uptime env) (SES.process_memoryUsage env) st0 in
      SES.did (SES.emit "diagnosis:completed" "")
        (if (SES.successRate health <? 0.7)%float
         then SES.report rt (SES.for_successRate env)
                (SES.finding performance medium "Low solution success rate detected"
                   [("health"%string,
                     SES.health_value (SES.healthRef env) (SES.sizeRef env) health)])
                st0
         else st0).
Proof.
  intros env st H. unfold SES.performSelfDiagnosis. cbv zeta.
  replace (JS.gt (SES.pendingChallenges _) 10) with false; [reflexivity|].
  cbn [SES.getSystemHealth SES.pendingChallenges].
  rewrite (@no_pending_count (SES.did (SES.emit "diagnosis:started" "") st)); [reflexivity|].
  exact H.
Qed.

Lemma successRate_frame : forall u m u' m' st st',
    SES.learnings st' = SES.learnings st ->
    SES.successRate (SES.getSystemHealth u' m' st')
    = SES.successRate (SES.getSystemHealth u m st).
Proof.
  intros u m u' m' st st' E. cbn [SES.getSystemHealth SES.successRate].
  rewrite E. reflexivity.
Qed.

Lemma in_set_keep : forall (V : Type) (m : list (string * V)) k v key c,
    In (key, c) m -> In (key, c) (JS.set m k v) \/ JS.get m k = Some c.
Proof.
  intros V m k v key c. induction m as [|[k0 v0] r IH]; intro H; [destruct H|].
  cbn [JS.set JS.get]. destruct (String.eqb k0 k).
  - destruct H as [H|H]; [injection H as _ <-; right; reflexivity|left; right; exact H].
  - destruct H as [H|H]; [left; left; exact H|].
    destruct (IH H) as [H'|H']; [left; right; exact H'|right; exact H'].
Qed.

Lemma update_challenge_eq : forall key f st c,
    JS.get (SES.challenges st) key = Some c ->
    SES.update_challenge key f st
    = SES.set_challenges (JS.set (SES.challenges st) key (f c)) st.
Proof. intros key f st c H. unfold SES.update_challenge. rewrite H. reflexivity. Qed.

(** What the rest of an analysis does to the store: the challenge keeps
    its type and description and gets a status that is not [resolved]. *)
Lemma resume_challenges : forall generate challengeId st c,
    JS.get (SES.challenges st) challengeId = Some c ->
    exists c',
      SES.challenges (SES.analyzeChallenge_resume generate challengeId st)
      = JS.set (SES.challenges st) challengeId c'
      /\ SystemChallenge.type c' = SystemChallenge.type c
      /\ SystemChallenge.description c' = SystemChallenge.description c
      /\ SystemChallenge.status c' <> resolved.
Proof.
  intros generate id st c H. unfold SES.analyzeChallenge_resume, SES.analysis_failed.
  rewrite H. destruct (generate c _) as [generated|e].
  - cbv zeta.
    set (c1 := SystemChallenge.set_proposedSolutions (SolutionsOf id) c).
    set (c2 := SystemChallenge.set_status ready c1).
    rewrite (update_challenge_eq id _ st H). fold c1.
    set (st1 := SES.set_solutions _ (SES.set_challenges _ st)).
    assert (H1 : JS.get (SES.challenges st1) id = Some c1) by apply get_set_same.
    rewrite (update_challenge_eq id _ st1 H1). fold c2.
    set (st2 := SES.did _ (SES.set_challenges _ st1)).
    assert (H2 : JS.get (SES.challenges st2) id = Some c2) by apply get_set_same.
    assert (E2 : SES.challenges st2 = JS.set (SES.challenges st) id c2)
      by apply set_set_same.
    destruct (SES.evaluateSolutions _ _ c generated) as [|top rest].
    + exists (SystemChallenge.set_status failed c2).
      rewrite (update_challenge_eq id _ st2 H2).
      cbn [SES.challenges SES.did SES.set_challenges]. rewrite E2, set_set_same.
      repeat split. discriminate.
    + exists c2.
      destruct (SES.shouldAutoExecute st2 c top);
        cbn [SES.challenges SES.set_executionQueue]; rewrite E2;
        repeat split; discriminate.
  - exists (SystemChallenge.set_status failed c).
    rewrite (update_challenge_eq id _ st H). repeat split. discriminate.
Qed.

Lemma resume_learnings : forall generate challengeId st,
    SES.learnings (SES.analyzeChallenge_resume generate challengeId st)
    = SES.learnings st.
Proof.
  intros generate id st. unfold SES.analyzeChallenge_resume, SES.analysis_failed.
  destruct (JS.get (SES.challenges st) id) as [c|]; [|reflexivity].
  destruct (generate c _) as [generated|e].
  - cbv zeta. destruct (SES.evaluateSolutions _ _ c generated) as [|top rest];
      [|destruct (SES.shouldAutoExecute _ c top)];
      repeat (progress (cbn [SES.learnings SES.did SES.set_solutions
                             SES.set_executionQueue];
                        rewrite ?update_challenge_learnings));
      reflexivity.
  - cbn [SES.learnings SES.did]. apply update_challenge_learnings.
Qed.

(** A stored challenge that a report would be merged into. *)
Lemma resume_keeps_match : forall generate challengeId st challenge,
    (exists key c, In (key, c) (SES.challenges st)
                   /\ SES.isSimilarTo rt challenge c = true) ->
    exists key c,
      In (key, c) (SES.challenges (SES.analyzeChallenge_resume generate challengeId st))
      /\ SES.isSimilarTo rt challenge c = true.
Proof.
  intros generate id st p (key & c & Hin & Hs).
  destruct (JS.get (SES.challenges st) id) as [c0|] eqn:E.
  - destruct (resume_challenges generate id st E) as (c' & Hc & Ht & Hd & Hr).
    rewrite Hc.
    destruct (in_set_keep (SES.challenges st) id c' key c Hin) as [H|H].
    + exists key, c. split; assumption.
    + rewrite E in H. injection H as ->.
      destruct (in_set_same (SES.challenges st) id c') as [k' Hin'].
      exists k', c'. split; [exact Hin'|].
      unfold SES.isSimilarTo in Hs |- *. rewrite Ht, Hd.
      apply andb_true_iff in Hs. destruct Hs as [Hs Hsim].
      apply andb_true_iff in Hs. destruct Hs as [Hty _].
      rewrite Hty, Hsim.
      replace (ChallengeStatus_eqb (SystemChallenge.status c') resolved) with false;
        [reflexivity|].
      symmetry. apply ChallengeStatus_eqb_neq, Hr.
  - exists key, c. unfold SES.analyzeChallenge_resume. rewrite E. split; assumption.
Qed.

Lemma resumed_all_keeps : forall resumed st challenge,
    no_pending st ->
    (exists key c, In (key, c) (SES.challenges st)
                   /\ SES.isSimilarTo rt challenge c = true) ->
    no_pending (resumed_all resumed st)
    /\ SES.learnings (resumed_all resumed st) = SES.learnings st
    /\ exists key c,
        In (key, c) (SES.challenges (resumed_all resumed st))
        /\ SES.isSimilarTo rt challenge c = true.
Proof.
  unfold resumed_all.
  induction resumed as [|[generate id] r IH]; intros st p Hn He; cbn [fold_left].
  - split; [exact Hn|]. split; [reflexivity|exact He].
  - destruct (IH (SES.analyzeChallenge_resume generate id st) p) as (H1 & H2 & H3).
    + apply resume_no_pending, Hn.
    + apply resume_keeps_match, He.
    + split; [exact H1|]. split; [|exact H3].
      rewrite H2. apply resume_learnings.
Qed.

Lemma resumed_all_plain : forall resumed st,
    no_pending st ->
    no_pending (resumed_all resumed st)
    /\ SES.learnings (resumed_all resumed st) = SES.learnings st.
Proof.
  unfold resumed_all.
  induction resumed as [|[generate id] r IH]; intros st Hn; cbn [fold_left].
  - split; [exact Hn|reflexivity].
  - destruct (IH (SES.analyzeChallenge_resume generate id st)) as (H1 & H2).
    + apply resume_no_pending, Hn.
    + split; [exact H1|]. rewrite H2. apply resume_learnings.
Qed.

(** X14.  A diagnosis that follows a diagnosis records nothing new, as
    long as nothing was executed in between: on a runtime that treats
    ASCII text as ECMAScript prescribes and a controller without pending
    challenges, after a first diagnosis and the analyses that went on
    since, a second diagnosis emits only [diagnosis:started] and
    [diagnosis:completed] and stores no further challenge, because a low
    success rate found again is merged into the challenge that the first
    run stored or touched.  A controller without learnings has success
    rate 0, so every diagnosis of it reports the low rate. *)
Theorem repeated_diagnosis_records_nothing_new :
  forall (env env' : SES.Diagnosis)
         (resumed : list ((SystemChallenge.t -> list Solution.t
                           -> result (list Solution.t)) * string))
         (st : SES.state),
    JS.conforms rt ->
    no_pending st ->
    let st1 := resumed_all resumed (SES.performSelfDiagnosis rt env st) in
    let st2 := SES.performSelfDiagnosis rt env' st1 in
    SES.effects st2
    = SES.effects st1 ++ [SES.emit "diagnosis:started" ""; SES.emit "diagnosis:completed" ""]
    /\ JS.keys (SES.challenges st2) = JS.keys (SES.challenges st1)
    /\ (SES.learnings st = [] ->
        SES.findSimilarChallenge rt (SES.challenges st1)
          (SES.finding performance medium "Low solution success rate detected" [])
        <> None).
Proof.
  intros env env' resumed st Hrt H st1 st2.
  assert (Hsim : JS.gt (SES.calculateSimilarity rt "Low solution success rate detected"
                                                "Low solution success rate detected")
                       0.8 = true).
  { rewrite (conforming_similarity Hrt) by reflexivity. vm_compute. reflexivity. }
  assert (H0 : no_pending (SES.performSelfDiagnosis rt env st))
    by (apply performSelfDiagnosis_no_pending, H).
  subst st2.
  assert (H1 : no_pending st1) by (apply (resumed_all_plain resumed H0)).
  rewrite (performSelfDiagnosis_no_pending_eq env' H1). cbv zeta.
  set (st1' := SES.did (SES.emit "diagnosis:started" "") st1).
  set (st0 := SES.did (SES.emit "diagnosis:started" "") st).
  set (health := SES.getSystemHealth (SES.process_uptime env)
                                     (SES.process_memoryUsage env) st0).
  set (low := SES.finding performance medium "Low solution success rate detected"
                [("health"%string,
                  SES.health_value (SES.healthRef env) (SES.sizeRef env) health)]).
  assert (Erate : SES.successRate
                    (SES.getSystemHealth (SES.process_uptime env')
                                         (SES.process_memoryUsage env') st1')
                  = SES.successRate health).
  { apply successRate_frame. subst st1' st1. cbn [SES.learnings SES.did].
    rewrite (proj2 (resumed_all_plain resumed H0)).
    rewrite (performSelfDiagnosis_no_pending_eq env H). cbv zeta.
    fold st0 health low.
    destruct (SES.successRate health <? 0.7)%float;
      cbn [SES.learnings SES.did]; rewrite ?report_learnings; reflexivity. }
  rewrite Erate.
  destruct (SES.successRate health <? 0.7)%float eqn:Elow.
  - (* the rate is low in both runs *)
    assert (Hm : forall challenge',
               PartialChallenge.type challenge' = Some performance ->
               PartialChallenge.description challenge'
               = Some "Low solution success rate detected"%string ->
               exists key c, In (key, c) (SES.challenges st1)
                             /\ SES.isSimilarTo rt challenge' c = true).
    { intros p' Ht Hd. subst st1.
      apply (resumed_all_keeps resumed p' H0).
      rewrite (performSelfDiagnosis_no_pending_eq env H). cbv zeta.
      fold st0 health low. rewrite Elow. cbn [SES.challenges SES.did].
      destruct (@report_again (SES.for_successRate env) low p' st0 performance
                  "Low solution success rate detected" eq_refl Ht eq_refl Hd Hsim)
        as [[key c] Hhit].
      exists key, c. apply (find_some_in _ _ _ Hhit). }
    match goal with
    | |- context [SES.report rt (SES.for_successRate env') ?p st1'] => set (low' := p)
    end.
    destruct (Hm low' eq_refl eq_refl) as (key & c & Hin & Hs).
    destruct (@find_exists low' (SES.challenges st1') key c Hin Hs) as [hit Hhit].
    destruct (report_seen (SES.for_successRate env') _ _ Hhit) as [He Hk].
    split; [|split].
    + cbn [SES.effects SES.did]. rewrite He. subst st1'. cbn [SES.effects SES.did].
      rewrite <- !app_assoc. reflexivity.
    + cbn [SES.challenges SES.did]. rewrite Hk. reflexivity.
    + intros _.
      destruct (Hm (SES.finding performance medium
                      "Low solution success rate detected" []) eq_refl eq_refl)
        as (key0 & c0 & Hin0 & Hs0).
      destruct (@find_exists _ _ key0 c0 Hin0 Hs0) as [hit0 Hhit0].
      rewrite Hhit0. discriminate.
  - (* the rate is not low in either run *)
    split; [|split].
    + subst st1'. cbn [SES.effects SES.did]. rewrite <- !app_assoc. reflexivity.
    + reflexivity.
    + intro Hl. exfalso. subst health st0.
      cbn [SES.getSystemHealth SES.successRate SES.learnings SES.did] in Elow.
      rewrite Hl in Elow. vm_compute in Elow. discriminate.
Qed.

End Diagnosis.

(** Two diagnoses of a controller that starts empty, the analysis of the
    challenge of the first having ended in between: one challenge. *)
Lemma repeated_diagnosis_records_nothing_new_witness :
  let st1 :=
    resumed_all [(Sample.generate, "challenge_1"%string)]
      (SES.performSelfDiagnosis JS.ascii_runtime (Sample.diagnosis "challenge_1")
                                SES.initial) in
  let st2 := SES.performSelfDiagnosis JS.ascii_runtime (Sample.diagnosis "challenge_2") st1 in
  JS.keys (SES.challenges st1) = ["challenge_1"%string]
  /\ SES.effects st2
     = SES.effects st1 ++ [SES.emit "diagnosis:started" ""; SES.emit "diagnosis:completed" ""]
  /\ JS.keys (SES.challenges st2) = JS.keys (SES.challenges st1).
Proof.
  cbv zeta. split; [vm_compute; reflexivity|].
  destruct (@repeated_diagnosis_records_nothing_new JS.ascii_runtime
              (Sample.diagnosis "challenge_1") (Sample.diagnosis "challenge_2")
              [(Sample.generate, "challenge_1"%string)]
              SES.initial ascii_runtime_conforms) as (He & Hk & _).
  - intros key c [].
  - split; [exact He|exact Hk].
Defined.

(** ** Reports of the monitor *)

Section Words.

Local Open Scope string_scope.

Lemma ascii_toLowerCase_app : forall s t,
    JS.ascii_toLowerCase (s ++ t) = JS.ascii_toLowerCase s ++ JS.ascii_toLowerCase t.
Proof.
  induction s as [|c r IH]; intro t; cbn [JS.ascii_toLowerCase append]; [reflexivity|].
  rewrite IH. reflexivity.
Qed.

Lemma is_space_lower : forall c, JS.ascii_space (JS.lower_ascii c) = JS.ascii_space c.
Proof. intros [[] [] [] [] [] [] [] []]; reflexivity. Qed.

Lemma no_space_lower : forall s, no_space (JS.ascii_toLowerCase s) = no_space s.
Proof.
  induction s as [|c r IH]; cbn [JS.ascii_toLowerCase no_space]; [reflexivity|].
  rewrite is_space_lower, IH. reflexivity.
Qed.

Lemma no_space_app : forall s t, no_space (s ++ t) = no_space s && no_space t.
Proof.
  induction s as [|c r IH]; intro t; cbn [append no_space]; [reflexivity|].
  rewrite IH, andb_assoc. reflexivity.
Qed.

Lemma append_assoc : forall s t u : string, (s ++ t) ++ u = s ++ (t ++ u).
Proof.
  induction s as [|c r IH]; intros t u; cbn [append]; [reflexivity|].
  rewrite IH. reflexivity.
Qed.

(** A piece without white space is read as one word. *)
Lemma split_ws_word : forall t cur sep,
    no_space t = true -> JS.ascii_split_ws_from t cur sep = [cur ++ t].
Proof.
  induction t as [|c r IH]; intros cur sep H; cbn [JS.ascii_split_ws_from].
  - assert (E : forall s : string, s ++ "" = s)
      by (induction s as [|a s' IHs]; cbn [append]; [|rewrite IHs]; reflexivity).
    rewrite E. reflexivity.
  - cbn [no_space] in H. apply andb_true_iff in H. destruct H as [Hc Hr].
    apply negb_true_iff in Hc. rewrite Hc, (IH _ _ Hr), append_assoc. reflexivity.
Qed.

(** A string that ends in [c] differs from every word without [c]. *)
Lemma ends_differently : forall (c : ascii) t w,
    has_char c w = false -> String.eqb (t ++ String c "") w = false.
Proof.
  intros c. induction t as [|a r IH]; intros w H; cbn [append].
  - destruct w as [|d w']; [reflexivity|]. cbn [has_char] in H.
    apply orb_false_iff in H. destruct H as [H _]. cbn [String.eqb]. rewrite H.
    reflexivity.
  - destruct w as [|d w']; [reflexivity|]. cbn [has_char] in H.
    apply orb_false_iff in H. destruct H as [_ H]. cbn [String.eqb].
    rewrite (IH _ H). destruct (Ascii.eqb a d); reflexivity.
Qed.

Lemma append_one_inj : forall (c : ascii) s t,
    s ++ String c "" = t ++ String c "" -> s = t.
Proof.
  intro c. induction s as [|a r IH]; intros [|b t'] H; cbn [append] in H.
  - reflexivity.
  - injection H as _ H. destruct t'; discriminate.
  - injection H as _ H. destruct r; discriminate.
  - injection H as -> H. f_equal. apply IH, H.
Qed.

Lemma split_char : forall c r cur sep,
    JS.ascii_space c = false ->
    JS.ascii_split_ws_from (String c r) cur sep
    = JS.ascii_split_ws_from r (cur ++ String c "") false.
Proof. intros c r cur sep H. cbn [JS.ascii_split_ws_from]. rewrite H. reflexivity. Qed.

Lemma split_space : forall c r cur,
    JS.ascii_space c = true ->
    JS.ascii_split_ws_from (String c r) cur false = cur :: JS.ascii_split_ws_from r "" true.
Proof. intros c r cur H. cbn [JS.ascii_split_ws_from]. rewrite H. reflexivity. Qed.

Lemma cpu_words : forall s,
    no_space s = true ->
    JS.ascii_split_ws (JS.ascii_toLowerCase ("High CPU usage detected: " ++ s ++ "%"))
    = ["high"; "cpu"; "usage"; "detected:"; JS.ascii_toLowerCase s ++ "%"].
Proof.
  intros s H. rewrite !ascii_toLowerCase_app.
  change (JS.ascii_toLowerCase "High CPU usage detected: ") with "high cpu usage detected: ".
  change (JS.ascii_toLowerCase "%") with "%".
  assert (Hw : no_space (JS.ascii_toLowerCase s ++ "%") = true).
  { rewrite no_space_app, no_space_lower, H. reflexivity. }
  generalize dependent (JS.ascii_toLowerCase s ++ "%"). intros w Hw.
  unfold JS.ascii_split_ws. cbn [append].
  repeat first [rewrite split_char by reflexivity | rewrite split_space by reflexivity].
  cbn [append]. rewrite (@split_ws_word w "" true Hw). reflexivity.
Qed.

(** Two CPU reports are similar exactly when their readings are written
    the same (up to case): the four fixed words are shared, the fifth is
    the reading. *)
Lemma cpu_similarity : forall a b,
    no_space a = true -> no_space b = true ->
    JS.gt (SES.calculateSimilarity JS.ascii_runtime ("High CPU usage detected: " ++ a ++ "%")
                                   ("High CPU usage detected: " ++ b ++ "%"))
          0.8
    = String.eqb (JS.ascii_toLowerCase a) (JS.ascii_toLowerCase b).
Proof.
  intros a b Ha Hb. unfold SES.calculateSimilarity.
  cbn [JS.toLowerCase JS.split_ws JS.ascii_runtime].
  rewrite (@cpu_words a Ha), (@cpu_words b Hb).
  pose proof (@ends_differently "%" (JS.ascii_toLowerCase a) "high" eq_refl) as A1.
  pose proof (@ends_differently "%" (JS.ascii_toLowerCase a) "cpu" eq_refl) as A2.
  pose proof (@ends_differently "%" (JS.ascii_toLowerCase a) "usage" eq_refl) as A3.
  pose proof (@ends_differently "%" (JS.ascii_toLowerCase a) "detected:" eq_refl) as A4.
  pose proof (@ends_differently "%" (JS.ascii_toLowerCase b) "high" eq_refl) as B1.
  pose proof (@ends_differently "%" (JS.ascii_toLowerCase b) "cpu" eq_refl) as B2.
  pose proof (@ends_differently "%" (JS.ascii_toLowerCase b) "usage" eq_refl) as B3.
  pose proof (@ends_differently "%" (JS.ascii_toLowerCase b) "detected:" eq_refl) as B4.
  destruct (String.eqb (JS.ascii_toLowerCase a) (JS.ascii_toLowerCase b)) eqn:E.
  - apply String.eqb_eq in E. rewrite <- E in *.
    generalize dependent (JS.ascii_toLowerCase a ++ "%"). intros x A1 A2 A3 A4 _ _ _ _.
    unfold JS.Set_of, JS.mem.
    cbn [fold_left app existsb filter String.eqb Ascii.eqb Bool.eqb orb andb List.length].
    rewrite ?A1, ?A2, ?A3, ?A4, ?String.eqb_refl.
    cbn [fold_left app existsb filter String.eqb Ascii.eqb Bool.eqb orb andb List.length].
    rewrite ?A1, ?A2, ?A3, ?A4, ?String.eqb_refl.
    cbn [fold_left app existsb filter String.eqb Ascii.eqb Bool.eqb orb andb List.length].
    rewrite ?A1, ?A2, ?A3, ?A4, ?String.eqb_refl.
    cbn [fold_left app existsb filter String.eqb Ascii.eqb Bool.eqb orb andb List.length].
    vm_compute. reflexivity.
  - assert (X : String.eqb (JS.ascii_toLowerCase a ++ "%") (JS.ascii_toLowerCase b ++ "%") = false).
    { apply String.eqb_neq. intro H. apply append_one_inj in H.
      apply String.eqb_neq in E. contradiction. }
    assert (Y : String.eqb (JS.ascii_toLowerCase b ++ "%") (JS.ascii_toLowerCase a ++ "%") = false).
    { rewrite String.eqb_sym. exact X. }
    generalize dependent (JS.ascii_toLowerCase b ++ "%").
    generalize dependent (JS.ascii_toLowerCase a ++ "%").
    intros x A1 A2 A3 A4 y B1 B2 B3 B4 X Y.
    unfold JS.Set_of, JS.mem.
    do 6 (cbn [fold_left app existsb filter String.eqb Ascii.eqb Bool.eqb orb andb
               List.length];
          rewrite ?A1, ?A2, ?A3, ?A4, ?B1, ?B2, ?B3, ?B4, ?X, ?Y, ?String.eqb_refl).
    cbn [fold_left app existsb filter String.eqb Ascii.eqb Bool.eqb orb andb List.length].
    vm_compute. reflexivity.
Qed.

Lemma is_ascii_app : forall s t,
    JS.is_ascii (s ++ t) = JS.is_ascii s && JS.is_ascii t.
Proof.
  induction s as [|c r IH]; intro t; cbn [append JS.is_ascii]; [reflexivity|].
  rewrite IH, andb_assoc. reflexivity.
Qed.

End Words.

Section Monitor.

Variable rt : JS.Runtime.

Lemma analyzeMetrics_cpu_only : forall env metrics st,
    cpu_only metrics ->
    SES.analyzeMetrics rt env metrics st
    = SES.report rt (SES.for_cpu env) (cpu_finding env metrics) st.
Proof.
  intros env m st (H1 & H2 & H3 & H4 & H5). unfold SES.analyzeMetrics. cbv zeta.
  rewrite H1, H2, H3, H4, H5. reflexivity.
Qed.

Lemma no_open_performance_find : forall st challenge,
    no_open_performance st ->
    PartialChallenge.type challenge = Some performance ->
    SES.findSimilarChallenge rt (SES.challenges st) challenge = None.
Proof.
  intros st p H Ht. apply find_none_iff. intros key c Hin.
  unfold SES.isSimilarTo. rewrite Ht.
  destruct (ChallengeType_eqb (SystemChallenge.type c) performance) eqn:E; [|reflexivity].
  apply ChallengeType_eqb_eq in E. rewrite (H key c Hin E). reflexivity.
Qed.

(** What a report that meets no stored challenge adds to the effects. *)
Lemma report_new_effects : forall f challenge st,
    SES.findSimilarChallenge rt (SES.challenges st) challenge = None ->
    PartialChallenge.id challenge = None ->
    SES.effects (SES.report rt f challenge st)
    = SES.effects st
      ++ [ SES.emit "challenge:recorded" (SES.fresh_id f);
           SES.emit "challenge:analyzing" (SES.fresh_id f);
           SES.persist (SES.knowledge_path "challenges" (SES.fresh_id f)) ].
Proof.
  intros f p st E Hid. unfold SES.report, SES.recordChallenge. rewrite E.
  cbv zeta. cbn [snd]. unfold SES.analyzeChallenge_start.
  cbn [SES.challenges SES.did SES.set_challenges]. rewrite get_set_same.
  cbn [SES.effects SES.did]. rewrite update_challenge_effects.
  cbn [SES.effects SES.did SES.set_challenges].
  unfold SES.fullChallenge. rewrite Hid. cbn [SES.or_default SystemChallenge.id].
  rewrite <- !app_assoc. reflexivity.
Qed.

(** X15.  Two samples that exceed only the CPU threshold, on a
    controller with no open performance challenge (the readings are
    written in ASCII without white space, as numbers are, and the runtime
    treats ASCII text as ECMAScript prescribes): the first is stored as a
    new challenge; the second, which comes next or after the analysis of
    the first has ended, is merged into it exactly when the two readings
    are written the same, and is stored as one more challenge (recorded,
    analysed, written) as soon as the readings differ. *)
Theorem monitor_reports_merge_only_on_equal_reading :
  forall (env env' : SES.Sampling) (metrics metrics' : SystemMetrics.t)
         (analysed : option (SystemChallenge.t -> list Solution.t
                             -> result (list Solution.t)))
         (st : SES.state),
    JS.conforms rt ->
    cpu_only metrics -> cpu_only metrics' ->
    JS.is_ascii (SES.Number_toString env (SystemMetrics.cpu metrics)) = true ->
    JS.is_ascii (SES.Number_toString env' (SystemMetrics.cpu metrics')) = true ->
    no_space (SES.Number_toString env (SystemMetrics.cpu metrics)) = true ->
    no_space (SES.Number_toString env' (SystemMetrics.cpu metrics')) = true ->
    no_open_performance st ->
    let id := SES.fresh_id (SES.for_cpu env) in
    let id' := SES.fresh_id (SES.for_cpu env') in
    let st0 := SES.analyzeMetrics rt env metrics st in
    let st1 :=
      match analysed with
      | Some generate => SES.analyzeChallenge_resume generate id st0
      | None => st0
      end in
    let st2 := SES.analyzeMetrics rt env' metrics' st1 in
    SES.effects st0
    = SES.effects st
      ++ [ SES.emit "challenge:recorded" id; SES.emit "challenge:analyzing" id;
           SES.persist (SES.knowledge_path "challenges" id) ]
    /\ if String.eqb
            (JS.ascii_toLowerCase
               (SES.Number_toString env (SystemMetrics.cpu metrics)))
            (JS.ascii_toLowerCase
               (SES.Number_toString env' (SystemMetrics.cpu metrics')))
       then SES.effects st2 = SES.effects st1
            /\ JS.keys (SES.challenges st2) = JS.keys (SES.challenges st1)
       else SES.effects st2
            = SES.effects st1
              ++ [ SES.emit "challenge:recorded" id';
                   SES.emit "challenge:analyzing" id';
                   SES.persist (SES.knowledge_path "challenges" id') ].
Proof.
  intros env env' m m' analysed st Hrt Hm Hm' Ha Ha' Hs Hs' Hst id id' st0 st1 st2.
  subst st2 st1 st0. rewrite !analyzeMetrics_cpu_only by assumption.
  assert (E : SES.findSimilarChallenge rt (SES.challenges st) (cpu_finding env m) = None)
    by (apply no_open_performance_find; [exact Hst|reflexivity]).
  assert (E' : SES.findSimilarChallenge rt (SES.challenges st) (cpu_finding env' m') = None)
    by (apply no_open_performance_find; [exact Hst|reflexivity]).
  split; [apply report_new_effects; [exact E|reflexivity]|].
  set (st0 := SES.report rt (SES.for_cpu env) (cpu_finding env m) st) in *.
  set (st1 := match analysed with
              | Some generate => SES.analyzeChallenge_resume generate id st0
              | None => st0
              end).
  destruct (recordChallenge_new rt (SES.fresh_id (SES.for_cpu env))
              (SES.fresh_now (SES.for_cpu env)) (SES.fresh_ref (SES.for_cpu env))
              (cpu_finding env m) st E) as [_ Hc0].
  change (SES.challenges st0
          = JS.set (SES.challenges st) id
              (SystemChallenge.set_status analyzing
                 (SES.fullChallenge id (SES.fresh_now (SES.for_cpu env))
                                    (cpu_finding env m)))) in Hc0.
  set (stored0 := SystemChallenge.set_status analyzing
                    (SES.fullChallenge id (SES.fresh_now (SES.for_cpu env))
                                       (cpu_finding env m))) in Hc0.
  (* the challenge of the first sample, as it is when the second comes *)
  assert (Hst1 : exists stored,
             SES.challenges st1 = JS.set (SES.challenges st) id stored
             /\ SystemChallenge.type stored = performance
             /\ SystemChallenge.description stored = cpu_description env m
             /\ SystemChallenge.status stored <> resolved).
  { subst st1. destruct analysed as [generate|].
    - assert (G : JS.get (SES.challenges st0) id = Some stored0)
        by (rewrite Hc0; apply get_set_same).
      destruct (resume_challenges generate id st0 G) as (c' & Hc & Ht & Hd & Hr).
      exists c'. rewrite Hc, Hc0, set_set_same. repeat split; assumption.
    - exists stored0. split; [exact Hc0|]. repeat split. discriminate. }
  destruct Hst1 as (stored & Hc & Hty & Hde & Hre).
  assert (Hsim : SES.isSimilarTo rt (cpu_finding env' m') stored
                 = String.eqb
                     (JS.ascii_toLowerCase
                        (SES.Number_toString env (SystemMetrics.cpu m)))
                     (JS.ascii_toLowerCase
                        (SES.Number_toString env' (SystemMetrics.cpu m')))).
  { unfold SES.isSimilarTo. rewrite Hty, Hde.
    replace (ChallengeStatus_eqb (SystemChallenge.status stored) resolved) with false
      by (symmetry; apply ChallengeStatus_eqb_neq, Hre).
    unfold cpu_finding, SES.finding, cpu_description.
    cbn [PartialChallenge.type PartialChallenge.description
         SES.or_empty ChallengeType_eqb negb andb].
    rewrite (conforming_similarity Hrt)
      by (rewrite !is_ascii_app, ?Ha, ?Ha'; reflexivity).
    apply (cpu_similarity _ _ Hs Hs'). }
  destruct (String.eqb _ _) eqn:Esame.
  - destruct (in_set_same (SES.challenges st) id stored) as [k' Hin].
    rewrite <- Hc in Hin.
    destruct (@find_exists rt _ _ _ _ Hin Hsim) as [hit Hhit].
    exact (report_seen rt (SES.for_cpu env') _ _ Hhit).
  - apply report_new_effects; [|reflexivity].
    apply find_none_iff. intros key c Hin. rewrite Hc in Hin.
    destruct (in_set_cases _ _ _ _ _ Hin) as [H|H].
    + rewrite find_none_iff in E'. apply (E' key c H).
    + subst c. exact Hsim.
Qed.

End Monitor.

(** Readings 92 and 93 give two challenges; 92 twice gives one. *)
Lemma monitor_reports_merge_only_on_equal_reading_witness :
  let st1 :=
    SES.analyzeChallenge_resume Sample.generate "challenge_1"
      (SES.analyzeMetrics JS.ascii_runtime (Sample.sampling "challenge_1")
                          (Sample.metrics 92) SES.initial) in
  JS.keys (SES.challenges
             (SES.analyzeMetrics JS.ascii_runtime (Sample.sampling "challenge_2") (Sample.metrics 93) st1))
  = ["challenge_1"; "challenge_2"]%string
  /\ SES.effects
       (SES.analyzeMetrics JS.ascii_runtime (Sample.sampling "challenge_2") (Sample.metrics 93) st1)
     = SES.effects st1
       ++ [ SES.emit "challenge:recorded" "challenge_2";
            SES.emit "challenge:analyzing" "challenge_2";
            SES.persist (SES.knowledge_path "challenges" "challenge_2") ].
Proof.
  cbv zeta. split; [vm_compute; reflexivity|].
  assert (Hc : forall cpu, JS.gt cpu 80 = true -> cpu_only (Sample.metrics cpu)).
  { intros cpu H. unfold cpu_only. cbn [Sample.metrics SystemMetrics.cpu
      SystemMetrics.memory SystemMetrics.errorRate SystemMetrics.responseTime
      SystemMetrics.videoProcessingQueue].
    repeat split; [exact H|vm_compute; reflexivity..]. }
  pose proof (@monitor_reports_merge_only_on_equal_reading JS.ascii_runtime
                (Sample.sampling "challenge_1") (Sample.sampling "challenge_2")
                (Sample.metrics 92) (Sample.metrics 93) (Some Sample.generate)
                SES.initial ascii_runtime_conforms
                (Hc 92%float eq_refl) (Hc 93%float eq_refl)
                eq_refl eq_refl eq_refl eq_refl) as H.
  cbv zeta in H. destruct H as [_ H]; [intros key c []|].
  exact H.
Defined.

(** ** Templates of the generator *)

Section Templates.

Variable rt : JS.Runtime.
Variable ids : nat -> string.
Variable now : Date.
Variable toString : JS.jsval -> string.

Lemma no_generic_template : forall t,
    JS.get SolutionGenerator.solutionTemplates (ChallengeType_name t) = None.
Proof. intros []; reflexivity. Qed.

Lemma no_default_template : forall t,
    JS.get SolutionGenerator.solutionTemplates
           (ChallengeType_name t ++ ":" ++ "default")%string = None.
Proof. intros []; reflexivity. Qed.

Lemma generateFromTemplates_none : forall c,
    no_metric_name c ->
    SolutionGenerator.generateFromTemplates ids now toString c = [].
Proof.
  intros c H. unfold SolutionGenerator.generateFromTemplates. cbv zeta.
  rewrite no_generic_template. unfold SolutionGenerator.metric_or_default.
  unfold no_metric_name in H. rewrite H. rewrite no_default_template. reflexivity.
Qed.

Lemma report_no_metric_name : forall f challenge context st,
    PartialChallenge.context challenge = Some context ->
    JS.truthy (JS.get context "metric") = false ->
    (forall key c, In (key, c) (SES.challenges st) -> no_metric_name c) ->
    forall key c, In (key, c) (SES.challenges (SES.report rt f challenge st)) ->
                  no_metric_name c.
Proof.
  intros f p ctx st Hctx Hm H key c Hin. unfold SES.report in Hin.
  destruct (SES.findSimilarChallenge rt (SES.challenges st) p) as [[k first]|] eqn:E.
  - rewrite (recordChallenge_seen _ _ _ _ _ _ E) in Hin.
    cbn [snd SES.challenges SES.set_challenges] in Hin.
    destruct (in_set_cases _ _ _ _ _ Hin) as [H'|H']; [apply (H key), H'|].
    subst c. destruct (find_some_in _ _ _ E) as [Hf _].
    unfold no_metric_name, SES.noteOccurrence.
    cbn [SystemChallenge.context SystemChallenge.set_context].
    rewrite !get_set_other by discriminate. apply (H k first Hf).
  - destruct (recordChallenge_new rt (SES.fresh_id f) (SES.fresh_now f) (SES.fresh_ref f)
                                  p st E) as [_ Hc].
    rewrite Hc in Hin.
    destruct (in_set_cases _ _ _ _ _ Hin) as [H'|H']; [apply (H key), H'|].
    subst c. unfold no_metric_name, SES.fullChallenge. rewrite Hctx.
    cbn [SystemChallenge.context SystemChallenge.set_status SES.or_default].
    exact Hm.
Qed.

(** X16.  What the controller finds by itself gets no template-based
    solution.  [generateFromTemplates] looks a template up under
    [type:metric], where [metric] is read from the challenge's context and
    defaults to [default]; no template is stored under a [:default] key
    nor under a bare type, so a challenge without a [metric] property gets
    none, and no challenge gets more than one.  The contexts built by
    [analyzeMetrics] and [performSelfDiagnosis] have no such property, and
    merging a report adds none. *)
Theorem own_findings_get_no_template :
  forall (st : SES.state),
    (forall key c, In (key, c) (SES.challenges st) -> no_metric_name c) ->
    (forall env metrics key c,
        In (key, c) (SES.challenges (SES.analyzeMetrics rt env metrics st)) ->
        SolutionGenerator.generateFromTemplates ids now toString c = [])
    /\ (forall env key c,
           In (key, c) (SES.challenges (SES.performSelfDiagnosis rt env st)) ->
           SolutionGenerator.generateFromTemplates ids now toString c = [])
    /\ (forall c : SystemChallenge.t,
           List.length (SolutionGenerator.generateFromTemplates ids now toString c) <= 1).
Proof.
  intros st H. split; [|split].
  - intros env m key c Hin. apply generateFromTemplates_none. revert key c Hin.
    unfold SES.analyzeMetrics. cbv zeta.
    repeat match goal with
           | |- forall key c, In (key, c) (SES.challenges (if ?b then _ else _)) -> _ =>
               destruct b
           | |- forall key c, In (key, c) (SES.challenges (SES.report _ _ _ _)) -> _ =>
               eapply report_no_metric_name; [reflexivity|reflexivity|]
           end; exact H.
  - intros env key c Hin. apply generateFromTemplates_none. revert key c Hin.
    unfold SES.performSelfDiagnosis. cbv zeta. cbn [SES.challenges SES.did].
    repeat match goal with
           | |- forall key c, In (key, c) (SES.challenges (if ?b then _ else _)) -> _ =>
               destruct b
           | |- forall key c, In (key, c) (SES.challenges (SES.report _ _ _ _)) -> _ =>
               eapply report_no_metric_name; [reflexivity|reflexivity|]
           end; exact H.
  - intro c. unfold SolutionGenerator.generateFromTemplates. cbv zeta.
    rewrite no_generic_template.
    destruct (JS.get SolutionGenerator.solutionTemplates _); cbn [List.length app]; lia.
Qed.

End Templates.

(** The challenges stored for a sample with the CPU at 92, on an empty
    controller. *)
Lemma own_findings_get_no_template_witness :
  Forall (fun kc =>
            SolutionGenerator.generateFromTemplates Sample.patternIds 0%Z
              (fun _ => "[object Object]"%string) (snd kc) = [])
         (SES.challenges
            (SES.analyzeMetrics JS.ascii_runtime (Sample.sampling "challenge_1")
                                (Sample.metrics 92) SES.initial)).
Proof.
  apply Forall_forall. intros [key c] Hin.
  destruct (@own_findings_get_no_template JS.ascii_runtime Sample.patternIds 0%Z
              (fun _ => "[object Object]"%string) SES.initial) as (H & _ & _).
  - intros k c' [].
  - apply (H (Sample.sampling "challenge_1") (Sample.metrics 92) key c Hin).
Defined.

(** ** Knowledge packages *)

Section Packages.

Local Open Scope float_scope.

Variable rt : JS.Runtime.
Variable Number_toString : float -> string.
Variable fresh : nat -> string.
Variable created_at : Date.

Lemma skip_unsuccessful : forall learnings acc,
    fold_left (KT.note_learning rt Number_toString fresh)
              (filter (fun l => Outcome_eqb (Learning.outcome l) success) learnings) acc
    = fold_left (KT.note_learning rt Number_toString fresh) learnings acc.
Proof.
  induction learnings as [|l r IH]; intro acc; cbn [filter fold_left]; [reflexivity|].
  destruct (Outcome_eqb (Learning.outcome l) success) eqn:E; cbn [fold_left].
  - apply IH.
  - rewrite IH. f_equal. unfold KT.note_learning. destruct acc as [m n].
    rewrite E. reflexivity.
Qed.

Lemma keys_set_cases : forall (V : Type) (m : list (string * V)) k v k',
    In k' (JS.keys (JS.set m k v)) -> In k' (JS.keys m) \/ k' = k.
Proof.
  intros V m k v k'. induction m as [|[k0 v0] r IH]; cbn [JS.set JS.keys map fst].
  - intros [H|[]]. right. symmetry. exact H.
  - destruct (String.eqb k0 k); cbn [map fst].
    + intros [H|H]; [left; left; exact H|left; right; exact H].
    + intros [H|H]; [left; left; exact H|].
      destruct (IH H) as [H'|H']; [left; right; exact H'|right; exact H'].
Qed.

Lemma get_absent : forall (V : Type) (m : list (string * V)) k,
    ~ In k (JS.keys m) -> JS.get m k = None.
Proof.
  intros V m k. induction m as [|[k0 v0] r IH]; cbn [JS.get JS.keys map fst];
    [reflexivity|].
  intro H. destruct (String.eqb k0 k) eqn:E.
  - apply String.eqb_eq in E. exfalso. apply H. left. exact E.
  - apply IH. intro H'. apply H. right. exact H'.
Qed.

Lemma created_is_used_once : forall pid learning pattern,
    KT.createPatternFromLearning Number_toString pid learning = Some pattern ->
    Pattern.usageCount pattern = 1.
Proof.
  intros pid l p. unfold KT.createPatternFromLearning.
  destruct (filter _ (Learning.metrics l)) as [|[m0 v0] r]; [discriminate|].
  intro H. injection H as <-. reflexivity.
Qed.

(** While every successful learning brings a key of its own, every
    pattern of the map has been used once. *)
Lemma distinct_keys_used_once : forall learnings acc,
    NoDup (map (KT.generatePatternKey rt)
               (filter (fun l => Outcome_eqb (Learning.outcome l) success) learnings)) ->
    (forall k, In k (JS.keys (fst acc)) ->
               ~ In k (map (KT.generatePatternKey rt)
                           (filter (fun l => Outcome_eqb (Learning.outcome l) success)
                                   learnings))) ->
    (forall k p, In (k, p) (fst acc) -> Pattern.usageCount p = 1) ->
    forall k p,
      In (k, p) (fst (fold_left (KT.note_learning rt Number_toString fresh) learnings acc)) ->
      Pattern.usageCount p = 1.
Proof.
  induction learnings as [|l r IH]; intros [m n] Hnd Hfresh Hone; cbn [fold_left];
    [exact Hone|].
  cbn [filter] in Hnd, Hfresh. unfold KT.note_learning at 2.
  destruct (Outcome_eqb (Learning.outcome l) success) eqn:E; cbn [negb].
  2:{ apply IH; assumption. }
  cbn [map] in Hnd, Hfresh. inversion Hnd as [|? ? Hnot Hnd']; subst.
  cbn [fst] in Hfresh, Hone.
  assert (G : JS.get m (KT.generatePatternKey rt l) = None).
  { apply get_absent. intro H. apply (Hfresh _ H). left. reflexivity. }
  rewrite G.
  destruct (KT.createPatternFromLearning Number_toString (fresh n) l) as [p0|] eqn:C.
  - apply IH; cbn [fst].
    + exact Hnd'.
    + intros k Hk. destruct (keys_set_cases _ _ _ _ Hk) as [H|H].
      * intro H'. apply (Hfresh k H). right. exact H'.
      * subst k. exact Hnot.
    + intros k p Hin. destruct (in_set_cases _ _ _ _ _ Hin) as [H|H].
      * apply (Hone k p H).
      * subst p. apply (created_is_used_once _ _ C).
  - apply IH; cbn [fst].
    + exact Hnd'.
    + intros k Hk H'. apply (Hfresh k Hk). right. exact H'.
    + exact Hone.
Qed.

(** X17.  [extractTransferablePatterns] reads the successful learnings
    only, and a pattern is transferable only if at least two of them have
    the same key (the sorted metric names and the outcome): when the keys
    of the successful learnings are pairwise distinct, every pattern has
    been used once and none is selected. *)
Theorem transferable_patterns_need_a_repeated_success :
  forall learnings : list Learning.t,
    let successes :=
      filter (fun l => Outcome_eqb (Learning.outcome l) success) learnings in
    KT.extractTransferablePatterns rt Number_toString fresh learnings
    = KT.extractTransferablePatterns rt Number_toString fresh successes
    /\ (NoDup (map (KT.generatePatternKey rt) successes) ->
        KT.extractTransferablePatterns rt Number_toString fresh learnings = []).
Proof.
  intros learnings successes. split.
  - unfold KT.extractTransferablePatterns. subst successes.
    rewrite skip_unsuccessful. reflexivity.
  - intro Hnd. unfold KT.extractTransferablePatterns.
    pose proof (distinct_keys_used_once learnings ([], 0%nat) Hnd) as H.
    cbn [fst JS.keys map] in H.
    specialize (H (fun k Hk => match Hk with end) (fun k p Hin => match Hin with end)).
    induction (fst (fold_left (KT.note_learning rt Number_toString fresh) learnings
                              ([], 0%nat))) as [|[k p] r IH];
      cbn [JS.values map snd filter]; [reflexivity|].
    rewrite (H k p (or_introl eq_refl)).
    replace (JS.ge 1 2) with false by (vm_compute; reflexivity).
    rewrite andb_false_r. apply IH. intros k' p' Hin. apply (H k'). right. exact Hin.
Qed.

End Packages.

Section Packages2.

Local Open Scope float_scope.

Variable rt : JS.Runtime.
Variable Number_toString : float -> string.
Variable fresh : nat -> string.
Variable created_at : Date.

Lemma created_package_history : forall (params : KT.PackageParams) (st : KT.state),
    let created := KT.createPackage rt Number_toString fresh created_at params st in
    JS.get (KT.transferHistory (snd created)) (KT.p_targetSystem params)
    = Some (match JS.get (KT.transferHistory st) (KT.p_targetSystem params) with
            | Some sent => sent
            | None => []
            end ++ [fst created]).
Proof.
  intros params st created. subst created.
  unfold KT.createPackage. cbv zeta. cbn [fst snd KT.transferHistory].
  unfold JS.has.
  destruct (JS.get (KT.transferHistory st) (KT.p_targetSystem params)) as [sent|] eqn:E;
    cbn [negb].
  - rewrite E. apply get_set_same.
  - rewrite get_set_same, set_set_same. apply get_set_same.
Qed.

(** X18.  A package made by [createPackage] carries the maker's
    [compatibilityVersion], so [receivePackage] never refuses it at a
    receiver of the same version (the maker itself included) and goes on
    to integrate it.  Making the package appends it to the transfer
    history of its target and changes nothing else: no other target's
    history, no file. *)
Theorem created_package_passes_the_version_check :
  forall (params : KT.PackageParams) (st : KT.state),
    let created := KT.createPackage rt Number_toString fresh created_at params st in
    let knowledgePackage := fst created in
    let target := KT.p_targetSystem params in
    KnowledgeTransferPackage.version knowledgePackage = KT.compatibilityVersion st
    /\ KT.compatibilityVersion (snd created) = KT.compatibilityVersion st
    /\ KT.files (snd created) = KT.files st
    /\ KT.knowledgeEndpoints (snd created) = KT.knowledgeEndpoints st
    /\ JS.get (KT.transferHistory (snd created)) target
       = Some (match JS.get (KT.transferHistory st) target with
               | Some sent => sent
               | None => []
               end ++ [knowledgePackage])
    /\ (forall other, other <> target ->
                      JS.get (KT.transferHistory (snd created)) other
                      = JS.get (KT.transferHistory st) other)
    /\ (forall write_fails now (receiver : KT.state),
           KT.compatibilityVersion receiver = KT.compatibilityVersion st ->
           KT.receivePackage write_fails now knowledgePackage receiver
           = KT.integrateKnowledge write_fails now knowledgePackage receiver).
Proof.
  intros params st created pkg target. subst pkg created target.
  unfold KT.createPackage. cbv zeta. cbn [fst snd].
  cbn [KnowledgeTransferPackage.version KT.compatibilityVersion KT.files
       KT.knowledgeEndpoints KT.transferHistory].
  do 4 (split; [reflexivity|]).
  split; [|split].
  - unfold JS.has.
    destruct (JS.get (KT.transferHistory st) (KT.p_targetSystem params)) as [sent|] eqn:E;
      cbn [negb].
    + rewrite E. apply get_set_same.
    + rewrite get_set_same, set_set_same. apply get_set_same.
  - intros other Hne. unfold JS.has.
    destruct (JS.get (KT.transferHistory st) (KT.p_targetSystem params)) as [sent|] eqn:E;
      cbn [negb].
    + rewrite E. apply get_set_other. congruence.
    + rewrite get_set_same, set_set_same. apply get_set_other. congruence.
  - intros write_fails now receiver Hv. unfold KT.receivePackage, KT.isVersionCompatible.
    cbn [KnowledgeTransferPackage.version]. rewrite Hv, String.eqb_refl. reflexivity.
Qed.

Lemma nan_times : forall y : float, nan * y = nan.
Proof.
  intro y. apply Prim2SF_inj. rewrite mul_spec.
  change (Prim2SF nan) with S754_nan. reflexivity.
Qed.


End Packages2.


(** ** Differences between systems *)

Section Differences.

Local Open Scope float_scope.

Variable rt : JS.Runtime.

Lemma zero_div_not_similar : forall y : float, JS.gt (0 / y) 0.7 = false.
Proof.
  intro y. unfold JS.gt. rewrite ltb_spec, div_spec.
  change (Prim2SF 0) with (S754_zero false).
  assert (H : exists m e, Prim2SF 0.7 = S754_finite false m e)
    by (vm_compute; eexists; eexists; reflexivity).
  destruct H as (m' & e' & ->).
  unfold SF64div, SFdiv, SFltb, SFcompare.
  destruct (Prim2SF y) as [s|s| |s m e]; reflexivity.
Qed.

Lemma no_metrics_not_similar : forall a b,
    TriggerCondition.metrics (Pattern.trigger a) = [] ->
    KT.areSimilarPatterns rt a b = false /\ KT.areSimilarPatterns rt b a = false.
Proof.
  intros a b H. unfold KT.areSimilarPatterns. rewrite H.
  cbn [map JS.sort_strings fold_left filter List.length].
  change (JS.num_of_nat 0) with 0. split; [apply zero_div_not_similar|].
  replace (filter (fun m => JS.mem m []) _) with (@nil string).
  - cbn [List.length]. change (JS.num_of_nat 0) with 0. apply zero_div_not_similar.
  - symmetry. induction (JS.sort_strings _ _) as [|x r IH]; [reflexivity|exact IH].
Qed.

Lemma find_none_all : forall (A : Type) (p : A -> bool) (l : list A),
    (forall x, In x l -> p x = false) -> find p l = None.
Proof.
  intros A p l H. induction l as [|x r IH]; cbn [find]; [reflexivity|].
  rewrite (H x (or_introl eq_refl)). apply IH. intros y Hy. apply H. right. exact Hy.
Qed.

(** The loop over [patternsA]: [common] and [uniqueToA] share the
    patterns out, in order. *)
Lemma diff_splits : forall patternsB patternsA uniqueToA common,
    fold_left
      (fun '(uniqueToA, common) patternA =>
         match find (fun p => KT.areSimilarPatterns rt patternA p) patternsB with
         | Some similar => (uniqueToA, common ++ [patternA])
         | None => (uniqueToA ++ [patternA], common)
         end)
      patternsA (uniqueToA, common)
    = (uniqueToA
       ++ filter (fun a => match find (fun p => KT.areSimilarPatterns rt a p) patternsB with
                           | Some _ => false
                           | None => true
                           end) patternsA,
       common
       ++ filter (fun a => match find (fun p => KT.areSimilarPatterns rt a p) patternsB with
                           | Some _ => true
                           | None => false
                           end) patternsA).
Proof.
  intros B. induction patternsA as [|a r IH]; intros u c; cbn [fold_left filter].
  - rewrite !app_nil_r. reflexivity.
  - destruct (find (fun p => KT.areSimilarPatterns rt a p) B); rewrite IH;
      rewrite <- ?app_assoc; reflexivity.
Qed.

(** X20.  [calculateKnowledgeDiff] sorts every pattern of the first
    system into [common] or [uniqueToA] (never both), by
    whether the second system has a similar one.  Two patterns are
    similar when more than 70% of their trigger metrics are shared, and a
    pattern without metric conditions (0/0, or 0 of some) is similar to no
    pattern, not even to itself: systems whose patterns are triggered by
    logs or events only have nothing in common.  As the source stands,
    [getSystemPatterns] returns no pattern, so every difference is
    empty. *)
Theorem patterns_without_metrics_are_never_common :
  (forall patternsA patternsB,
      let d := KT.diff_of rt patternsA patternsB in
      Permutation (KT.common d ++ KT.uniqueToA d) patternsA
      /\ (forall p, In p (KT.common d) -> ~ In p (KT.uniqueToA d))
      /\ (forall p, In p (KT.uniqueToB d) -> In p patternsB))
  /\ (forall a b,
         TriggerCondition.metrics (Pattern.trigger a) = [] ->
         KT.areSimilarPatterns rt a b = false /\ KT.areSimilarPatterns rt b a = false)
  /\ (forall patternsA patternsB,
         (forall p, In p (patternsA ++ patternsB) ->
                    TriggerCondition.metrics (Pattern.trigger p) = []) ->
         KT.diff_of rt patternsA patternsB = KT.mkDiff patternsA patternsB [])
  /\ (forall systemA systemB,
         KT.calculateKnowledgeDiff rt systemA systemB = KT.mkDiff [] [] []).
Proof.
  split; [|split; [|split]].
  - intros A B d. subst d. unfold KT.diff_of. rewrite diff_splits.
    cbn [app KT.common KT.uniqueToA KT.uniqueToB].
    split; [|split].
    + induction A as [|a r IH]; cbn [filter]; [apply Permutation_refl|].
      destruct (find (fun p => KT.areSimilarPatterns rt a p) B); cbn [app].
      * apply perm_skip, IH.
      * apply Permutation_sym. eapply Permutation_trans;
          [|apply Permutation_middle]. apply perm_skip, Permutation_sym, IH.
    + intros p Hc Hu. apply filter_In in Hc. apply filter_In in Hu.
      destruct Hc as [_ Hc], Hu as [_ Hu].
      destruct (find (fun q => KT.areSimilarPatterns rt p q) B); discriminate.
    + intros p Hin.
      assert (G : forall l acc,
                 In p (fold_left
                         (fun uniqueToB patternB =>
                            match find (fun q => KT.areSimilarPatterns rt patternB q) A with
                            | Some _ => uniqueToB
                            | None => uniqueToB ++ [patternB]
                            end) l acc) ->
                 In p acc \/ In p l).
      { induction l as [|b r IH]; intros acc H; cbn [fold_left] in H; [left; exact H|].
        destruct (IH _ H) as [H'|H']; [|right; right; exact H'].
        destruct (find (fun q => KT.areSimilarPatterns rt b q) A); [left; exact H'|].
        apply in_app_or in H'. destruct H' as [H'|[H'|[]]];
          [left; exact H'|right; left; exact H']. }
      destruct (G _ _ Hin) as [[]|H]. exact H.
  - apply no_metrics_not_similar.
  - intros A B H. unfold KT.diff_of. rewrite diff_splits. cbn [app].
    assert (Hf : forall (l l' : list Pattern.t) a,
               In a (A ++ B) ->
               find (fun p => KT.areSimilarPatterns rt a p) l' = None).
    { intros l l' a Ha. apply find_none_all. intros x _.
      apply (no_metrics_not_similar a x (H a Ha)). }
    assert (Ha : forall l, (forall a, In a l -> In a (A ++ B)) ->
                           filter (fun a => match find (fun p => KT.areSimilarPatterns rt a p) B with
                                            | Some _ => false
                                            | None => true
                                            end) l = l
                           /\ filter (fun a => match find (fun p => KT.areSimilarPatterns rt a p) B with
                                               | Some _ => true
                                               | None => false
                                               end) l = []).
    { induction l as [|a r IH]; intro Hl; cbn [filter]; [split; reflexivity|].
      rewrite (Hf A B a (Hl a (or_introl eq_refl))).
      destruct IH as [I1 I2]; [intros x Hx; apply Hl; right; exact Hx|].
      rewrite I1, I2. split; reflexivity. }
    destruct (Ha A) as [E1 E2]; [intros a Hin; apply in_or_app; left; exact Hin|].
    rewrite E1, E2.
    assert (Hb : forall l acc, (forall b, In b l -> In b (A ++ B)) ->
                   fold_left
                     (fun uniqueToB patternB =>
                        match find (fun q => KT.areSimilarPatterns rt patternB q) A with
                        | Some _ => uniqueToB
                        | None => uniqueToB ++ [patternB]
                        end) l acc = acc ++ l).
    { induction l as [|b r IH]; intros acc Hl; cbn [fold_left];
        [rewrite app_nil_r; reflexivity|].
      rewrite (Hf B A b (Hl b (or_introl eq_refl))).
      rewrite IH by (intros x Hx; apply Hl; right; exact Hx).
      rewrite <- app_assoc. reflexivity. }
    rewrite Hb by (intros b Hin; apply in_or_app; right; exact Hin).
    reflexivity.
  - reflexivity.
Qed.

End Differences.

(** ** Sharing and the learning cycle *)

Section Sharing.

Local Open Scope float_scope.

Variable rt : JS.Runtime.

Lemma savePackageToFile_cases : forall env targetSystem knowledgePackage,
    let dir := KT.path_join env "./knowledge-transfer" targetSystem in
    let path :=
      KT.path_join env dir
        ("transfer_" ++ JS.string_of_Z (KT.Date_now env) ++ ".json")%string in
    KT.savePackageToFile env targetSystem knowledgePackage
    = match KT.mkdir_fails env dir, KT.save_fails env path with
      | Some reason, _ => (Throw (Rejected reason), [])
      | None, Some reason => (Throw (Rejected reason), [])
      | None, None => (Ok tt, [KT.saved path knowledgePackage])
      end.
Proof.
  intros env target pkg dir path. unfold KT.savePackageToFile. fold dir.
  destruct (KT.mkdir_fails env dir); [reflexivity|]. cbv zeta. fold path.
  destruct (KT.save_fails env path); reflexivity.
Qed.

(** X21.  [shareKnowledge] makes the package, which puts it into the
    transfer history, and only then sends it: the history holds the
    package whether or not it was delivered.  Sending fails only when the
    package has to be saved to a file (no endpoint for the target, the
    request rejected, or an answer other than 200) and the directory or
    the file cannot be written; a failed request alone never fails it.
    [knowledge:shared] is emitted exactly when sending did not fail, and
    nothing else of the controller changes. *)
Theorem sharing_fails_only_when_saving_fails :
  forall (env : SES.Sharing) (targetSystem : string)
         (st : SES.state) (transfer : KT.state),
    let created :=
      KT.createPackage rt (SES.share_toString env) (SES.share_fresh env)
        (SES.share_created env)
        (KT.mkParams "self-evolution-system" targetSystem
           (JS.values (SES.challenges st)) (List.concat (JS.values (SES.solutions st)))
           (SES.learnings st))
        transfer in
    let network := SES.share_network env in
    let dir := KT.path_join network "./knowledge-transfer" targetSystem in
    let path :=
      KT.path_join network dir
        ("transfer_" ++ JS.string_of_Z (KT.Date_now network) ++ ".json")%string in
    let saving_fails :=
      match KT.mkdir_fails network dir, KT.save_fails network path with
      | Some reason, _ | None, Some reason => Some reason
      | None, None => None
      end in
    match SES.shareKnowledge rt env targetSystem st transfer with
    | (outcome, st', transfer', deliveries) =>
        transfer' = snd created
        /\ JS.get (KT.transferHistory transfer') targetSystem
           = Some (match JS.get (KT.transferHistory transfer) targetSystem with
                   | Some sent => sent
                   | None => []
                   end ++ [fst created])
        /\ match outcome with
           | Ok _ =>
               st' = SES.did (SES.emit "knowledge:shared" targetSystem) st
               /\ (In (KT.saved path (fst created)) deliveries
                   \/ exists url, deliveries = [KT.posted url (fst created)])
           | Throw e =>
               st' = st
               /\ (exists reason, saving_fails = Some reason /\ e = Rejected reason)
               /\ forall p, ~ In (KT.saved path p) deliveries
           end
    end.
Proof.
  intros env target st transfer created network dir path saving_fails.
  unfold SES.shareKnowledge. fold created.
  destruct created as [pkg transfer'] eqn:Ec.
  assert (Hh : JS.get (KT.transferHistory transfer') target
               = Some (match JS.get (KT.transferHistory transfer) target with
                       | Some sent => sent
                       | None => []
                       end ++ [pkg])).
  { pose proof (created_package_history rt (SES.share_toString env) (SES.share_fresh env)
                  (SES.share_created env)
                  (KT.mkParams "self-evolution-system" target
                     (JS.values (SES.challenges st))
                     (List.concat (JS.values (SES.solutions st))) (SES.learnings st))
                  transfer) as H.
    cbv zeta in H. unfold created in Ec. rewrite Ec in H. exact H. }
  cbn [fst snd].
  unfold KT.sendPackage. fold network.
  pose proof (savePackageToFile_cases network target pkg) as Hs. cbv zeta in Hs.
  fold dir path in Hs.
  assert (Hsave :
            match KT.savePackageToFile network target pkg with
            | (Ok _, d) => d = [KT.saved path pkg]
            | (Throw e, d) =>
                d = [] /\ exists reason, saving_fails = Some reason /\ e = Rejected reason
            end).
  { rewrite Hs. subst saving_fails.
    destruct (KT.mkdir_fails network dir) as [r|];
      [split; [reflexivity|exists r; split; reflexivity]|].
    destruct (KT.save_fails network path) as [r|];
      [split; [reflexivity|exists r; split; reflexivity]|reflexivity]. }
  assert (Hfile :
            match KT.savePackageToFile network target pkg with
            | (Ok _, d) =>
                (Ok tt, SES.did (SES.emit "knowledge:shared" target) st, transfer', d)
            | (Throw e, d) => (Throw e, st, transfer', d)
            end
            = match KT.savePackageToFile network target pkg with
              | (Ok _, d) =>
                  (Ok tt, SES.did (SES.emit "knowledge:shared" target) st, transfer', d)
              | (Throw e, d) => (Throw e, st, transfer', d)
              end) by reflexivity.
  clear Hfile.
  destruct (JS.get (KT.knowledgeEndpoints transfer') target) as [endpoint|].
  2:{ destruct (KT.savePackageToFile network target pkg) as [[u|e] d].
      - subst d. split; [reflexivity|]. split; [exact Hh|].
        split; [reflexivity|]. left. left. reflexivity.
      - destruct Hsave as [-> Hr]. split; [reflexivity|]. split; [exact Hh|].
        split; [reflexivity|]. split; [exact Hr|]. intros p []. }
  destruct (String.eqb endpoint "").
  { destruct (KT.savePackageToFile network target pkg) as [[u|e] d].
    - subst d. split; [reflexivity|]. split; [exact Hh|].
      split; [reflexivity|]. left. left. reflexivity.
    - destruct Hsave as [-> Hr]. split; [reflexivity|]. split; [exact Hh|].
      split; [reflexivity|]. split; [exact Hr|]. intros p []. }
  destruct (KT.post network _) as [status|e0].
  - destruct (status =? 200).
    + split; [reflexivity|]. split; [exact Hh|]. split; [reflexivity|].
      right. eexists. reflexivity.
    + destruct (KT.savePackageToFile network target pkg) as [[u|e] d].
      * subst d. split; [reflexivity|]. split; [exact Hh|].
        split; [reflexivity|]. left. right. left. reflexivity.
      * destruct Hsave as [-> Hr]. split; [reflexivity|]. split; [exact Hh|].
        split; [reflexivity|]. split; [exact Hr|].
        intros p [H|[]]. discriminate.
  - destruct (KT.savePackageToFile network target pkg) as [[u|e] d].
    + subst d. split; [reflexivity|]. split; [exact Hh|].
      split; [reflexivity|]. left. left. reflexivity.
    + destruct Hsave as [-> Hr]. split; [reflexivity|]. split; [exact Hh|].
      split; [reflexivity|]. split; [exact Hr|]. intros p [].
Qed.

End Sharing.

Section FloatOrder.
Local Open Scope float_scope.

Lemma SFltb_irrefl : forall a, SFltb a a = false.
Proof.
  intros [s| s | |s m e]; unfold SFltb, SFcompare; try reflexivity.
  - destruct s; reflexivity.
  - destruct s; rewrite Z.compare_refl;
      change (Pos.compare_cont Eq m m) with (Pos.compare m m);
      rewrite Pos.compare_refl; reflexivity.
Qed.

Lemma SFltb_trans : forall a b c,
    SFltb a b = true -> SFltb b c = true -> SFltb a c = true.
Proof.
  intros [sa|sa| |sa ma ea] [sb|sb| |sb mb eb] [sc|sc| |sc mc ec];
    unfold SFltb, SFcompare;
    try discriminate; try reflexivity;
    try (destruct sa; try discriminate; try reflexivity);
    try (destruct sb; try discriminate; try reflexivity);
    try (destruct sc; try discriminate; try reflexivity);
    change (Pos.compare_cont Eq ma mb) with (Pos.compare ma mb);
    change (Pos.compare_cont Eq mb mc) with (Pos.compare mb mc);
    change (Pos.compare_cont Eq ma mc) with (Pos.compare ma mc);
    destruct (Z.compare_spec ea eb); try discriminate;
    destruct (Z.compare_spec eb ec); try discriminate;
    destruct (Z.compare_spec ea ec); try reflexivity; try lia;
    subst;
    destruct (Pos.compare_spec ma mb); try discriminate;
    destruct (Pos.compare_spec mb mc); try discriminate;
    destruct (Pos.compare_spec ma mc); try reflexivity; try discriminate; lia.
Qed.

Lemma gt_irrefl : forall x, JS.gt x x = false.
Proof. intro x. unfold JS.gt. rewrite ltb_spec. apply SFltb_irrefl. Qed.

Lemma gt_trans : forall x y z,
    JS.gt x y = true -> JS.gt y z = true -> JS.gt x z = true.
Proof.
  intros x y z. unfold JS.gt. rewrite !ltb_spec. intros H1 H2.
  exact (SFltb_trans _ _ _ H2 H1).
Qed.

End FloatOrder.

(** ** Ranking generated solutions *)

Section Ranking.

Local Open Scope float_scope.

Variable md5 : string -> string.

Lemma in_set_inv : forall (V : Type) (m : list (string * V)) k v k' v',
    In (k', v') (JS.set m k v) -> In (k', v') m \/ (k' = k /\ v' = v).
Proof.
  intros V m k v k' v'. induction m as [|[k0 v0] r IH]; cbn [JS.set].
  - intros [H|[]]. injection H as <- <-. right. split; reflexivity.
  - destruct (String.eqb k0 k) eqn:E.
    + apply String.eqb_eq in E. subst k0.
      intros [H|H]; [injection H as <- <-; right; split; reflexivity|left; right; exact H].
    + intros [H|H]; [left; left; exact H|].
      destruct (IH H) as [H'|H']; [left; right; exact H'|right; exact H'].
Qed.

Lemma get_some_in : forall (V : Type) (m : list (string * V)) k v,
    JS.get m k = Some v -> In (k, v) m.
Proof.
  intros V m. induction m as [|[k0 v0] r IH]; intros k v; cbn [JS.get]; [discriminate|].
  destruct (String.eqb k0 k) eqn:E.
  - intro H. injection H as <-. apply String.eqb_eq in E. subst k0. left. reflexivity.
  - intro H. right. apply IH, H.
Qed.

Lemma get_none_keys : forall (V : Type) (m : list (string * V)) k,
    JS.get m k = None -> ~ In k (JS.keys m).
Proof.
  intros V m k. induction m as [|[k0 v0] r IH]; cbn [JS.get JS.keys map fst].
  - intros _ [].
  - destruct (String.eqb k0 k) eqn:E; [discriminate|].
    intros H [H'|H'].
    + subst k0. rewrite String.eqb_refl in E. discriminate.
    + exact (IH H H').
Qed.

Lemma keep_best_ranks : forall unique seen solution,
    ranks md5 unique seen ->
    ranks md5 (SG.keep_best md5 unique solution) (seen ++ [solution]).
Proof.
  intros unique seen solution (Hkeys & Hin & Hbest).
  unfold SG.keep_best. cbv zeta.
  destruct (JS.get unique (SG.getSolutionKey md5 solution)) as [kept|] eqn:Eget.
  - destruct (JS.gt (Solution.confidence solution) (Solution.confidence kept)) eqn:Egt.
    + split; [|split].
      * rewrite (keys_set_present _ _ _ Eget). exact Hkeys.
      * intros k v H. destruct (in_set_inv _ _ _ _ _ H) as [H'|[-> ->]].
        -- destruct (Hin _ _ H') as [Hk Hs]. split; [exact Hk|].
           apply in_or_app. left. exact Hs.
        -- split; [reflexivity|]. apply in_or_app. right. left. reflexivity.
      * intros s H. apply in_app_or in H. destruct H as [H|[<-|[]]].
        -- destruct (Hbest _ H) as (kept0 & Hg & Hle).
           destruct (String.eqb (SG.getSolutionKey md5 solution)
                                (SG.getSolutionKey md5 s)) eqn:E.
           ++ apply String.eqb_eq in E. rewrite <- E. rewrite get_set_same.
              exists solution. split; [reflexivity|].
              rewrite <- E in Hg. rewrite Eget in Hg. injection Hg as <-.
              destruct (JS.gt (Solution.confidence s) (Solution.confidence solution))
                eqn:E2; [|reflexivity].
              rewrite (@gt_trans _ _ _ E2 Egt) in Hle. discriminate.
           ++ apply String.eqb_neq in E. rewrite (get_set_other _ _ E).
              exists kept0. split; assumption.
        -- rewrite get_set_same. exists solution. split; [reflexivity|apply gt_irrefl].
    + split; [exact Hkeys|split].
      * intros k v H. destruct (Hin _ _ H) as [Hk Hs]. split; [exact Hk|].
        apply in_or_app. left. exact Hs.
      * intros s H. apply in_app_or in H. destruct H as [H|[<-|[]]].
        -- exact (Hbest _ H).
        -- exists kept. split; assumption.
  - rewrite (set_absent _ _ _ Eget). split; [|split].
    + unfold JS.keys. rewrite map_app. cbn [map fst].
      apply NoDup_app; [exact Hkeys|repeat constructor; intros []|].
      intros k Hk [<-|[]]. exact (get_none_keys _ _ Eget Hk).
    + intros k v H. apply in_app_or in H. destruct H as [H|[H|[]]].
      * destruct (Hin _ _ H) as [Hk Hs]. split; [exact Hk|].
        apply in_or_app. left. exact Hs.
      * injection H as <- <-. split; [reflexivity|].
        apply in_or_app. right. left. reflexivity.
    + intros s H. apply in_app_or in H. destruct H as [H|[<-|[]]].
      * destruct (Hbest _ H) as (kept0 & Hg & Hle).
        destruct (String.eqb (SG.getSolutionKey md5 solution)
                             (SG.getSolutionKey md5 s)) eqn:E.
        -- apply String.eqb_eq in E. rewrite <- E, Eget in Hg. discriminate.
        -- apply String.eqb_neq in E.
           rewrite <- (set_absent _ _ _ Eget), (get_set_other _ _ E).
           exists kept0. split; assumption.
      * rewrite <- (set_absent _ _ _ Eget), get_set_same.
        exists solution. split; [reflexivity|apply gt_irrefl].
Qed.

Lemma keep_all_ranks : forall solutions unique seen,
    ranks md5 unique seen ->
    ranks md5 (fold_left (SG.keep_best md5) solutions unique) (seen ++ solutions).
Proof.
  induction solutions as [|s r IH]; intros unique seen H; cbn [fold_left].
  - rewrite app_nil_r. exact H.
  - replace (seen ++ s :: r) with ((seen ++ [s]) ++ r)
      by (rewrite <- app_assoc; reflexivity).
    apply IH, keep_best_ranks, H.
Qed.

Lemma ranked_keys : forall unique seen,
    ranks md5 unique seen ->
    map (SG.getSolutionKey md5) (JS.values unique) = JS.keys unique.
Proof.
  intros unique seen (_ & Hin & _). unfold JS.values, JS.keys.
  rewrite map_map. apply map_ext_in. intros [k v] H. cbn [fst snd].
  symmetry. exact (proj1 (Hin _ _ H)).
Qed.

(** X22.  [deduplicateAndRank] returns solutions of the list it is given,
    no two of them with the same key (the MD5 of title and implementation
    type); every solution given has a solution with its key in the result,
    and its own confidence is not above that one's.  Of solutions with the
    same key and the same confidence the first one is kept. *)
Theorem ranking_keeps_the_best_of_each_key :
  forall solutions,
    let ranked := SG.deduplicateAndRank md5 solutions in
    NoDup (map (SG.getSolutionKey md5) ranked)
    /\ (forall s, In s ranked -> In s solutions)
    /\ (forall s, In s solutions ->
                  exists kept,
                    In kept ranked
                    /\ SG.getSolutionKey md5 kept = SG.getSolutionKey md5 s
                    /\ JS.gt (Solution.confidence s) (Solution.confidence kept) = false)
    /\ (forall first second,
           SG.getSolutionKey md5 first = SG.getSolutionKey md5 second ->
           JS.gt (Solution.confidence second) (Solution.confidence first) = false ->
           SG.deduplicateAndRank md5 [first; second] = [first]).
Proof.
  intros solutions ranked.
  assert (H0 : ranks md5 [] []).
  { split; [constructor|split]; [intros k v []|intros s []]. }
  pose proof (keep_all_ranks solutions H0) as H. cbn [app] in H.
  pose proof (ranked_keys H) as Hk.
  destruct H as (Hkeys & Hin & Hbest).
  assert (Hp : Permutation ranked (JS.values (fold_left (SG.keep_best md5) solutions []))).
  { subst ranked. unfold SG.deduplicateAndRank. cbv zeta.
    apply sort_perm. }
  split; [|split; [|split]].
  - apply (Permutation_NoDup (Permutation_sym (Permutation_map (SG.getSolutionKey md5) Hp))).
    rewrite Hk. exact Hkeys.
  - intros s Hs. apply (Permutation_in _ Hp) in Hs.
    unfold JS.values in Hs. apply in_map_iff in Hs. destruct Hs as ([k v] & <- & Hs).
    exact (proj2 (Hin _ _ Hs)).
  - intros s Hs. destruct (Hbest _ Hs) as (kept & Hg & Hle).
    exists kept. apply get_some_in in Hg. split; [|split].
    + apply (Permutation_in _ (Permutation_sym Hp)).
      unfold JS.values. apply in_map_iff. exists (SG.getSolutionKey md5 s, kept).
      split; [reflexivity|exact Hg].
    + symmetry. exact (proj1 (Hin _ _ Hg)).
    + exact Hle.
  - intros first second Hkey Hle. unfold SG.deduplicateAndRank. cbv zeta.
    cbn [fold_left]. unfold SG.keep_best at 2. cbv zeta. cbn [JS.get JS.set].
    unfold SG.keep_best. cbv zeta. rewrite <- Hkey.
    cbn [JS.get]. rewrite String.eqb_refl, Hle. reflexivity.
Qed.

End Ranking.

(** ** The learning cycle *)

(** X23.  With the engine's lookups as they are, the learning cycle run
    every thirty minutes changes nothing: it extracts no pattern, so
    nothing is integrated or written and the generator's patterns stay as
    they are; it never fails, and the two events [learning:started] and
    [learning:completed] are all it leaves behind, whatever has been
    learned. *)
Theorem learning_cycle_changes_nothing :
  forall patternIds write_fails now st transfer generatorPatterns,
    SES.performLearning patternIds write_fails now st transfer generatorPatterns
    = (Ok tt,
       SES.did (SES.emit "learning:completed" "")
               (SES.did (SES.emit "learning:started" "") st),
       transfer, generatorPatterns).
Proof.
  intros patternIds write_fails now st transfer generatorPatterns.
  unfold SES.performLearning. cbv zeta.
  rewrite stub_extractPatterns.
  destruct st as [cs ss ls run q [pats hist] eff]. reflexivity.
Qed.
